(** * charts-syncer: chart dependency synchronisation

    A shallow embedding of [internal/chart/dependency.go] and a
    verification of its specification.

    Layout of the development:
    - [GoString]: the few functions of Go's [strings] package the code relies on;
    - [URL]: the part of Go's [net/url] reached through [url.Parse] and
      the [String] method of a URL;
    - [SHA256], [JSON]: what [hashDeps] computes with;
    - the data model, the package on disk and the object store;
    - [chart]: the functions of [dependency.go], and the pure functions
      on values they are verified against;
    - a sample configuration, and the theorems. *)

From Stdlib Require Import String Ascii NArith ZArith List Bool Lia.
From stdpp Require Import base option list strings gmap.

Open Scope string_scope.

(** ** Go strings

    A Go [string] is a sequence of bytes: Rocq's [string]. *)
Module GoString.

Definition byte (c : ascii) : nat := nat_of_ascii c.

(** [lo <= c <= hi], on bytes *)
Definition between (lo hi c : ascii) : bool :=
  (byte lo <=? byte c)%nat && (byte c <=? byte hi)%nat.

Definition is_lower (c : ascii) : bool := between "a" "z" c.
Definition is_upper (c : ascii) : bool := between "A" "Z" c.
Definition is_alpha (c : ascii) : bool := is_lower c || is_upper c.
Definition is_digit (c : ascii) : bool := between "0" "9" c.

(** [c] is one of the bytes of [set] *)
Fixpoint one_of (set : string) (c : ascii) : bool :=
  match set with
  | EmptyString => false
  | String x set' => Ascii.eqb c x || one_of set' c
  end.

(** [strings.Contains(s, sep)] for a one-byte [sep] *)
Fixpoint contains (sep : ascii) (s : string) : bool :=
  match s with
  | EmptyString => false
  | String c r => Ascii.eqb c sep || contains sep r
  end.

(** [strings.Count(s, sep)] for a one-byte [sep] *)
Fixpoint count (sep : ascii) (s : string) : nat :=
  match s with
  | EmptyString => 0
  | String c r => (if Ascii.eqb c sep then 1 else 0) + count sep r
  end.

(** [strings.Cut(s, sep)] for a one-byte [sep]: [None] when [sep] does
    not occur (Go returns [s], the empty string and [false]). *)
Fixpoint cut (sep : ascii) (s : string) : option (string * string) :=
  match s with
  | EmptyString => None
  | String c r =>
      if Ascii.eqb c sep then Some (EmptyString, r)
      else match cut sep r with
           | Some (a, b) => Some (String c a, b)
           | None => None
           end
  end.

(** the part of [s] before the first [sep], all of [s] without one *)
Definition before (sep : ascii) (s : string) : string :=
  match cut sep s with Some (a, _) => a | None => s end.

(** split at [strings.LastIndex(s, sep)], one-byte [sep] *)
Fixpoint cut_last (sep : ascii) (s : string) : option (string * string) :=
  match s with
  | EmptyString => None
  | String c r =>
      match cut_last sep r with
      | Some (a, b) => Some (String c a, b)
      | None => if Ascii.eqb c sep then Some (EmptyString, r) else None
      end
  end.

(** [strings.HasPrefix(s, p)] *)
Fixpoint has_prefix (p s : string) : bool :=
  match p, s with
  | EmptyString, _ => true
  | String x p', String c s' => Ascii.eqb x c && has_prefix p' s'
  | String _ _, EmptyString => false
  end.

Fixpoint drop (n : nat) (s : string) : string :=
  match n, s with
  | O, _ => s
  | S n', String _ r => drop n' r
  | S _, EmptyString => EmptyString
  end.

Fixpoint take (n : nat) (s : string) : string :=
  match n, s with
  | O, _ => EmptyString
  | S n', String c r => String c (take n' r)
  | S _, EmptyString => EmptyString
  end.

(** [strings.Index(s, sub)] *)
Fixpoint index (sub s : string) : option nat :=
  if has_prefix sub s then Some 0
  else match s with
       | EmptyString => None
       | String _ r => option_map S (index sub r)
       end.

(** the last byte of [s] *)
Fixpoint last_byte (s : string) : option ascii :=
  match s with
  | EmptyString => None
  | String c EmptyString => Some c
  | String _ r => last_byte r
  end.

(** [s] without its last byte *)
Fixpoint init (s : string) : string :=
  match s with
  | EmptyString => EmptyString
  | String _ EmptyString => EmptyString
  | String c r => String c (init r)
  end.

Definition lower_byte (c : ascii) : ascii :=
  if is_upper c then ascii_of_nat (byte c + 32) else c.

(** [strings.ToLower] on ASCII text *)
Fixpoint to_lower (s : string) : string :=
  match s with
  | EmptyString => EmptyString
  | String c r => String (lower_byte c) (to_lower r)
  end.

Definition is_empty (s : string) : bool :=
  match s with EmptyString => true | _ => false end.

Fixpoint forallb (p : ascii -> bool) (s : string) : bool :=
  match s with
  | EmptyString => true
  | String c r => p c && forallb p r
  end.

Fixpoint concat_map (f : ascii -> string) (s : string) : string :=
  match s with
  | EmptyString => EmptyString
  | String c r => f c ++ concat_map f r
  end.

(** the quotation mark, byte 34 *)
Definition dquote : ascii := ascii_of_nat 34.
(** the apostrophe, byte 39 *)
Definition squote : ascii := ascii_of_nat 39.

End GoString.

(** A Go call returning [(T, error)]: a value or an error. *)
Inductive result (E A : Type) : Type :=
| Ok (a : A)
| Err (e : E).
Arguments Ok {E A} a.
Arguments Err {E A} e.

(** ** Go's [net/url] (Go 1.19), as reached from [url.Parse] and [String]

    [getDependencyRepoURL] parses the target's URL, assigns the [Scheme]
    field and prints the URL again.  The functions below follow the
    library's [parse], [getScheme], [parseAuthority], [parseHost],
    [unescape], [escape], [shouldEscape], [setPath], [setFragment],
    [EscapedPath], [EscapedFragment] and [String]. *)
Module URL.
Import GoString.

Inductive encoding : Type :=
| encodePath | encodePathSegment | encodeHost | encodeZone
| encodeUserPassword | encodeQueryComponent | encodeFragment.

Definition encoding_eqb (a b : encoding) : bool :=
  match a, b with
  | encodePath, encodePath | encodePathSegment, encodePathSegment
  | encodeHost, encodeHost | encodeZone, encodeZone
  | encodeUserPassword, encodeUserPassword
  | encodeQueryComponent, encodeQueryComponent
  | encodeFragment, encodeFragment => true
  | _, _ => false
  end.

Inductive error : Type :=
| InvalidControlCharacter
| MissingProtocolScheme
| FirstPathSegmentColon
| InvalidUserinfo
| MissingBracket
| InvalidPort (port : string)
| EscapeError (s : string)
| InvalidHostError (s : string).

Record Userinfo : Type := mkUserinfo {
  username : string;
  password : string;
  passwordSet : bool
}.

Record URL : Type := mkURL {
  Scheme : string;
  Opaque : string;
  User : option Userinfo;
  Host : string;
  Path : string;
  RawPath : string;
  OmitHost : bool;
  ForceQuery : bool;
  RawQuery : string;
  Fragment : string;
  RawFragment : string
}.

Definition empty : URL :=
  mkURL "" "" None "" "" "" false false "" "" "".

(** the assignment [u.Scheme = s] *)
Definition set_Scheme (s : string) (u : URL) : URL :=
  mkURL s (Opaque u) (User u) (Host u) (Path u) (RawPath u) (OmitHost u)
        (ForceQuery u) (RawQuery u) (Fragment u) (RawFragment u).

Definition ishex (c : ascii) : bool :=
  is_digit c || between "a" "f" c || between "A" "F" c.

Definition unhex (c : ascii) : nat :=
  if is_digit c then byte c - byte "0"
  else if between "a" "f" c then byte c - byte "a" + 10
  else if between "A" "F" c then byte c - byte "A" + 10
  else 0.

Definition host_allowed : string :=
  "!$&" ++ String squote "()*+,;=:[]<>" ++ String dquote "".

Definition shouldEscape (c : ascii) (mode : encoding) : bool :=
  if is_alpha c || is_digit c then false
  else if (encoding_eqb mode encodeHost || encoding_eqb mode encodeZone)
          && one_of host_allowed c then false
  else if one_of "-_.~" c then false
  else if one_of "$&+,/:;=?@" c then
    match mode with
    | encodePath => Ascii.eqb c "?"
    | encodePathSegment => one_of "/;,?" c
    | encodeUserPassword => one_of "@/?:" c
    | encodeQueryComponent => true
    | encodeFragment => false
    | encodeHost | encodeZone => true
    end
  else if encoding_eqb mode encodeFragment && one_of "!()*" c then false
  else true.

(** the first pass of [unescape]: every [%] starts a well-formed
    escape that the mode admits *)
Fixpoint unescape_check (mode : encoding) (s : string) : option error :=
  match s with
  | EmptyString => None
  | String c r =>
      if Ascii.eqb c "%" then
        match r with
        | String h1 (String h2 r') =>
            if negb (ishex h1 && ishex h2) then Some (EscapeError (take 3 s))
            else if encoding_eqb mode encodeHost && (unhex h1 <? 8)%nat
                    && negb (String.eqb (take 3 s) "%25")
            then Some (EscapeError (take 3 s))
            else if encoding_eqb mode encodeZone
                    && negb (String.eqb (take 3 s) "%25")
                    && negb (unhex h1 * 16 + unhex h2 =? 32)%nat
                    && shouldEscape (ascii_of_nat (unhex h1 * 16 + unhex h2)) encodeHost
            then Some (EscapeError (take 3 s))
            else unescape_check mode r'
        | _ => Some (EscapeError (take 3 s))
        end
      else if Ascii.eqb c "+" then unescape_check mode r
      else if (encoding_eqb mode encodeHost || encoding_eqb mode encodeZone)
              && (byte c <? 128)%nat && shouldEscape c encodeHost
      then Some (InvalidHostError (String c ""))
      else unescape_check mode r
  end.

(** the second pass of [unescape], on a checked string *)
Fixpoint unescape_decode (mode : encoding) (s : string) : string :=
  match s with
  | EmptyString => EmptyString
  | String c r =>
      if Ascii.eqb c "%" then
        match r with
        | String h1 (String h2 r') =>
            String (ascii_of_nat (unhex h1 * 16 + unhex h2)) (unescape_decode mode r')
        | _ => EmptyString
        end
      else if Ascii.eqb c "+" then
        String (if encoding_eqb mode encodeQueryComponent then " "%char else "+"%char)
               (unescape_decode mode r)
      else String c (unescape_decode mode r)
  end.

Definition unescape (s : string) (mode : encoding) : result error string :=
  match unescape_check mode s with
  | Some e => Err e
  | None => Ok (unescape_decode mode s)
  end.

Definition upperhex (n : nat) : ascii :=
  if (n <? 10)%nat then ascii_of_nat (byte "0" + n)
  else ascii_of_nat (byte "A" + (n - 10)).

Definition escape_byte (mode : encoding) (c : ascii) : string :=
  if shouldEscape c mode then
    if Ascii.eqb c " " && encoding_eqb mode encodeQueryComponent then "+"
    else String "%" (String (upperhex (byte c / 16))
                            (String (upperhex (byte c mod 16)) ""))
  else String c "".

Definition escape (s : string) (mode : encoding) : string :=
  concat_map (escape_byte mode) s.

Definition validEncoded_byte (mode : encoding) (c : ascii) : bool :=
  if one_of ("!$&" ++ String squote "()*+,;=:@") c then true
  else if one_of "[]" c then true
  else if Ascii.eqb c "%" then true
  else negb (shouldEscape c mode).

Definition validEncoded (s : string) (mode : encoding) : bool :=
  forallb (validEncoded_byte mode) s.

Definition is_Ok {E A} (r : result E A) (a : A) (eqb : A -> A -> bool) : bool :=
  match r with Ok x => eqb x a | Err _ => false end.

Definition EscapedPath (u : URL) : string :=
  if negb (is_empty (RawPath u)) && validEncoded (RawPath u) encodePath
     && is_Ok (unescape (RawPath u) encodePath) (Path u) String.eqb
  then RawPath u
  else if String.eqb (Path u) "*" then "*"
  else escape (Path u) encodePath.

Definition EscapedFragment (u : URL) : string :=
  if negb (is_empty (RawFragment u)) && validEncoded (RawFragment u) encodeFragment
     && is_Ok (unescape (RawFragment u) encodeFragment) (Fragment u) String.eqb
  then RawFragment u
  else escape (Fragment u) encodeFragment.

(** the result of [getScheme]'s scan *)
Inductive scheme_scan : Type :=
| Found (scheme rest : string)
| NoScheme
| Missing.

Definition push (c : ascii) (r : scheme_scan) : scheme_scan :=
  match r with
  | Found scheme rest => Found (String c scheme) rest
  | _ => r
  end.

(** [scan i s]: the loop of [getScheme] from index [i], [s] being
    [rawURL[i:]] *)
Fixpoint scan (i : nat) (s : string) : scheme_scan :=
  match s with
  | EmptyString => NoScheme
  | String c r =>
      if is_alpha c then push c (scan (S i) r)
      else if is_digit c || one_of "+-." c then
        if (i =? 0)%nat then NoScheme else push c (scan (S i) r)
      else if Ascii.eqb c ":" then
        if (i =? 0)%nat then Missing else Found "" r
      else NoScheme
  end.

Definition getScheme (rawURL : string) : result error (string * string) :=
  match scan 0 rawURL with
  | Found scheme rest => Ok (scheme, rest)
  | NoScheme => Ok ("", rawURL)
  | Missing => Err MissingProtocolScheme
  end.

Definition validOptionalPort (port : string) : bool :=
  match port with
  | EmptyString => true
  | String c digits => Ascii.eqb c ":" && forallb is_digit digits
  end.

Definition validUserinfo_byte (c : ascii) : bool :=
  is_alpha c || is_digit c
  || one_of ("-._:~!$&" ++ String squote "()*+,;=%@") c.

Definition validUserinfo (s : string) : bool := forallb validUserinfo_byte s.

Definition parseHost (host : string) : result error string :=
  let general := unescape host encodeHost in
  if has_prefix "[" host then
    match cut_last "]" host with
    | None => Err MissingBracket
    | Some (inner, colonPort) =>
        if negb (validOptionalPort colonPort) then Err (InvalidPort colonPort)
        else match index "%25" inner with
             | Some zone =>
                 match unescape (take zone inner) encodeHost with
                 | Err e => Err e
                 | Ok host1 =>
                     match unescape (drop zone inner) encodeZone with
                     | Err e => Err e
                     | Ok host2 =>
                         match unescape (String "]" colonPort) encodeHost with
                         | Err e => Err e
                         | Ok host3 => Ok (host1 ++ host2 ++ host3)
                         end
                     end
                 end
             | None => general
             end
    end
  else
    match cut_last ":" host with
    | Some (_, port) =>
        if negb (validOptionalPort (String ":" port))
        then Err (InvalidPort (String ":" port))
        else general
    | None => general
    end.

Definition parseAuthority (authority : string)
  : result error (option Userinfo * string) :=
  match cut_last "@" authority with
  | None =>
      match parseHost authority with
      | Err e => Err e
      | Ok host => Ok (None, host)
      end
  | Some (userinfo, hostpart) =>
      match parseHost hostpart with
      | Err e => Err e
      | Ok host =>
          if negb (validUserinfo userinfo) then Err InvalidUserinfo
          else match cut ":" userinfo with
               | None =>
                   match unescape userinfo encodeUserPassword with
                   | Err e => Err e
                   | Ok name => Ok (Some (mkUserinfo name "" false), host)
                   end
               | Some (name, pass) =>
                   match unescape name encodeUserPassword with
                   | Err e => Err e
                   | Ok name' =>
                       match unescape pass encodeUserPassword with
                       | Err e => Err e
                       | Ok pass' => Ok (Some (mkUserinfo name' pass' true), host)
                       end
                   end
               end
      end
  end.

(** [u.setPath(p)] *)
Definition setPath (u : URL) (p : string) : result error URL :=
  match unescape p encodePath with
  | Err e => Err e
  | Ok path =>
      let raw := if String.eqb p (escape path encodePath) then "" else p in
      Ok (mkURL (Scheme u) (Opaque u) (User u) (Host u) path raw (OmitHost u)
                (ForceQuery u) (RawQuery u) (Fragment u) (RawFragment u))
  end.

(** [u.setFragment(f)] *)
Definition setFragment (u : URL) (f : string) : result error URL :=
  match unescape f encodeFragment with
  | Err e => Err e
  | Ok frag =>
      let raw := if String.eqb f (escape frag encodeFragment) then "" else f in
      Ok (mkURL (Scheme u) (Opaque u) (User u) (Host u) (Path u) (RawPath u)
                (OmitHost u) (ForceQuery u) (RawQuery u) frag raw)
  end.

Definition stringContainsCTLByte (s : string) : bool :=
  negb (forallb (fun c => negb ((byte c <? 32)%nat || (byte c =? 127)%nat)) s).

(** [parse(rawURL, viaRequest)] at [viaRequest = false], the only way
    [Parse] calls it *)
Definition parse (rawURL : string) : result error URL :=
  if stringContainsCTLByte rawURL then Err InvalidControlCharacter
  else if String.eqb rawURL "*" then
    Ok (mkURL "" "" None "" "*" "" false false "" "" "")
  else
    match getScheme rawURL with
    | Err e => Err e
    | Ok (scheme0, rest0) =>
        let scheme := to_lower scheme0 in
        let '(rest, force, query) :=
          if (match last_byte rest0 with Some c => Ascii.eqb c "?" | None => false end)
             && (count "?" rest0 =? 1)%nat
          then (init rest0, true, "")
          else match cut "?" rest0 with
               | Some (a, b) => (a, false, b)
               | None => (rest0, false, "")
               end in
        if negb (has_prefix "/" rest) && negb (is_empty scheme) then
          Ok (mkURL scheme rest None "" "" "" false force query "" "")
        else if negb (has_prefix "/" rest) && contains ":" (before "/" rest) then
          Err FirstPathSegmentColon
        else if (negb (is_empty scheme) || negb (has_prefix "///" rest))
                && has_prefix "//" rest then
          let authority0 := drop 2 rest in
          let '(authority, rest') :=
            match cut "/" authority0 with
            | Some (a, b) => (a, String "/" b)
            | None => (authority0, "")
            end in
          match parseAuthority authority with
          | Err e => Err e
          | Ok (user, host) =>
              setPath (mkURL scheme "" user host "" "" false force query "" "") rest'
          end
        else
          let omit := negb (is_empty scheme) && has_prefix "/" rest in
          setPath (mkURL scheme "" None "" "" "" omit force query "" "") rest
    end.

(** [url.Parse] *)
Definition Parse (rawURL : string) : result error URL :=
  let '(u, frag) :=
    match cut "#" rawURL with
    | Some (a, b) => (a, b)
    | None => (rawURL, "")
    end in
  match parse u with
  | Err e => Err e
  | Ok url => if is_empty frag then Ok url else setFragment url frag
  end.

Definition Userinfo_String (ui : Userinfo) : string :=
  escape (username ui) encodeUserPassword
  ++ (if passwordSet ui then ":" ++ escape (password ui) encodeUserPassword else "").

(** the method [String] of a URL *)
Definition String_ (u : URL) : string :=
  let buf := if is_empty (Scheme u) then "" else Scheme u ++ ":" in
  let buf :=
    if negb (is_empty (Opaque u)) then buf ++ Opaque u
    else
      let buf :=
        if negb (is_empty (Scheme u)) || negb (is_empty (Host u))
           || (match User u with Some _ => true | None => false end)
        then
          if OmitHost u && is_empty (Host u)
             && (match User u with Some _ => false | None => true end)
          then buf
          else
            let buf :=
              if negb (is_empty (Host u)) || negb (is_empty (Path u))
                 || (match User u with Some _ => true | None => false end)
              then buf ++ "//" else buf in
            let buf :=
              match User u with
              | Some ui => buf ++ Userinfo_String ui ++ "@"
              | None => buf
              end in
            if negb (is_empty (Host u)) then buf ++ escape (Host u) encodeHost
            else buf
        else buf in
      let path := EscapedPath u in
      let buf :=
        if negb (is_empty path) && negb (has_prefix "/" path)
           && negb (is_empty (Host u))
        then buf ++ "/" else buf in
      let buf :=
        if is_empty buf && contains ":" (before "/" path)
        then buf ++ "./" else buf in
      buf ++ path in
  let buf :=
    if ForceQuery u || negb (is_empty (RawQuery u))
    then buf ++ "?" ++ RawQuery u else buf in
  if negb (is_empty (Fragment u)) then buf ++ "#" ++ EscapedFragment u else buf.

End URL.

(** ** SHA-256 (FIPS 180-4) and the hexadecimal digest

    [provenance.Digest] of Helm hashes its input with SHA-256 and prints
    the 32 bytes in lower-case hexadecimal. *)
Module SHA256.
Import GoString.
Local Open Scope N_scope.

Definition w32 (x : N) : N := N.land x 4294967295.
Definition add32 (x y : N) : N := w32 (x + y).
Definition rotr (n x : N) : N :=
  N.lor (N.shiftr x n) (w32 (N.shiftl x (32 - n))).
Definition not32 (x : N) : N := N.lxor x 4294967295.

Definition Ch (x y z : N) : N := N.lxor (N.land x y) (N.land (not32 x) z).
Definition Maj (x y z : N) : N :=
  N.lxor (N.lxor (N.land x y) (N.land x z)) (N.land y z).
Definition Sigma0 (x : N) : N := N.lxor (N.lxor (rotr 2 x) (rotr 13 x)) (rotr 22 x).
Definition Sigma1 (x : N) : N := N.lxor (N.lxor (rotr 6 x) (rotr 11 x)) (rotr 25 x).
Definition sigma0 (x : N) : N := N.lxor (N.lxor (rotr 7 x) (rotr 18 x)) (N.shiftr x 3).
Definition sigma1 (x : N) : N := N.lxor (N.lxor (rotr 17 x) (rotr 19 x)) (N.shiftr x 10).

(** the primes below [n], by trial division *)
Definition is_prime (p : nat) : bool :=
  (1 <? p)%nat
  && List.forallb (fun d => negb (p mod d =? 0)%nat) (List.seq 2 (p - 2)).

Definition primes (n : nat) : list N :=
  map N.of_nat (List.filter is_prime (List.seq 0 n)).

(** the integer cube root of [n], on the low [bits] bits *)
Fixpoint icbrt (bits : nat) (n r : N) : N :=
  match bits with
  | O => r
  | S b =>
      let r' := N.lor r (N.shiftl 1 (N.of_nat b)) in
      icbrt b n (if (r' * r' * r' <=? n)%N then r' else r)
  end.

(** the first 32 bits of the fractional part of the cube root of a prime *)
Definition cbrt_fraction (p : N) : N := w32 (icbrt 36 (N.shiftl p 96) 0).

(** the first 32 bits of the fractional part of the square root of a prime *)
Definition sqrt_fraction (p : N) : N := w32 (N.sqrt (N.shiftl p 64)).

(** the round constants, of the first 64 primes *)
Definition K : list N := Eval vm_compute in map cbrt_fraction (primes 312).

(** the initial hash value, of the first 8 primes *)
Definition H0 : list N := Eval vm_compute in map sqrt_fraction (primes 20).

Definition word_at (i : nat) (w : list N) : N := nth i w 0.

(** one round on the working variables [a..h] *)
Definition round (k w : N) (v : list N) : list N :=
  let a := word_at 0 v in let b := word_at 1 v in
  let c := word_at 2 v in let d := word_at 3 v in
  let e := word_at 4 v in let f := word_at 5 v in
  let g := word_at 6 v in let h := word_at 7 v in
  let t1 := add32 (add32 (add32 (add32 h (Sigma1 e)) (Ch e f g)) k) w in
  let t2 := add32 (Sigma0 a) (Maj a b c) in
  [ add32 t1 t2; a; b; c; add32 d t1; e; f; g ].

(** the 64 rounds; [w] is the window [W(t) .. W(t+15)] of the message
    schedule *)
Fixpoint rounds (ks : list N) (w : list N) (v : list N) : list N :=
  match ks, w with
  | k :: ks', w0 :: wt =>
      let next :=
        add32 (add32 (add32 (sigma1 (word_at 14 w)) (word_at 9 w))
                     (sigma0 (word_at 1 w))) w0 in
      rounds ks' (wt ++ [next]) (round k w0 v)
  | _, _ => v
  end.

Fixpoint add_words (x y : list N) : list N :=
  match x, y with
  | a :: x', b :: y' => add32 a b :: add_words x' y'
  | _, _ => []
  end.

Definition compress (h : list N) (block : list N) : list N :=
  add_words h (rounds K block h).

(** big-endian words of a byte sequence *)
Fixpoint words (bs : list N) : list N :=
  match bs with
  | b0 :: b1 :: b2 :: b3 :: r =>
      (b0 * 16777216 + b1 * 65536 + b2 * 256 + b3) :: words r
  | _ => []
  end.

Fixpoint be_bytes (n : nat) (x : N) : list N :=
  match n with
  | O => []
  | S n' => be_bytes n' (x / 256) ++ [x mod 256]
  end.

Definition pad (msg : list N) : list N :=
  let len := N.of_nat (length msg) in
  let zeros := N.to_nat ((119 - len mod 64) mod 64) in
  msg ++ [128] ++ repeat 0 zeros ++ be_bytes 8 (len * 8).

(** fold [compress] over the 16-word blocks; [n] bounds their number *)
Fixpoint blocks (n : nat) (h : list N) (ws : list N) : list N :=
  match n, ws with
  | S n', _ :: _ => blocks n' (compress h (firstn 16 ws)) (skipn 16 ws)
  | _, _ => h
  end.

Fixpoint bytes_of (s : string) : list N :=
  match s with
  | EmptyString => []
  | String c r => N_of_ascii c :: bytes_of r
  end.

(** the eight words of the hash of [s] *)
Definition sum (s : string) : list N :=
  let ws := words (pad (bytes_of s)) in
  blocks (length ws) H0 ws.

Definition hexdigit (x : N) : ascii :=
  if x <? 10 then ascii_of_N (48 + x) else ascii_of_N (87 + x).

Fixpoint hex (bs : list N) : string :=
  match bs with
  | [] => EmptyString
  | b :: r => String (hexdigit (b / 16)) (String (hexdigit (b mod 16)) (hex r))
  end.

(** [hex.EncodeToString(hash.Sum(nil))] *)
Definition hexdigest (s : string) : string :=
  hex (flat_map (be_bytes 4) (sum s)).

End SHA256.

(** ** The data model *)

(** A Go slice: [None] is the [nil] slice, [Some []] an empty one.
    Ranging over either runs no iteration; [encoding/json] prints them
    differently. *)
Definition slice (A : Type) : Type := option (list A).

Definition elems {A : Type} (s : slice A) : list A :=
  match s with Some l => l | None => [] end.

(** [len(s) == 0], the emptiness that [omitempty] tests *)
Definition is_empty_slice {A : Type} (s : slice A) : bool :=
  match s with Some (_ :: _) => false | _ => true end.

(** [chart.Dependency] of Helm v3.  An item of [ImportValues], of Go type
    [interface{}], is kept as the JSON text [encoding/json] prints for it. *)
Record Dependency : Type := mkDependency {
  Name : string;
  Version : string;
  Repository : string;
  Condition : string;
  Tags : slice string;
  Enabled : bool;
  ImportValues : slice string;
  Alias : string
}.

(** the assignment [dep.Repository = repoUrl] *)
Definition set_Repository (repoUrl : string) (dep : Dependency) : Dependency :=
  mkDependency (Name dep) (Version dep) repoUrl (Condition dep) (Tags dep)
               (Enabled dep) (ImportValues dep) (Alias dep).

(** The structs that hold dependency lists hold them as [[]*chart.Dependency];
    [D] is the type of the elements: pointers in memory, values in a file. *)

(** [chart.Lock] *)
Record Lock (D : Type) : Type := mkLock {
  Generated : string;
  Digest : string;
  LockDependencies : slice D
}.
Arguments mkLock {D}.
Arguments Generated {D}.
Arguments Digest {D}.
Arguments LockDependencies {D}.

(** [chart.Metadata]; the fields that play no part in dependency handling
    (description, keywords, maintainers, ...) are left out *)
Record Metadata (D : Type) : Type := mkMetadata {
  MetadataName : string;
  MetadataVersion : string;
  APIVersion : string;
  MetadataDependencies : slice D
}.
Arguments mkMetadata {D}.
Arguments MetadataName {D}.
Arguments MetadataVersion {D}.
Arguments APIVersion {D}.
Arguments MetadataDependencies {D}.

(** [dependencies], the content of a requirements file *)
Record dependencies (D : Type) : Type := mkdependencies {
  Dependencies : slice D
}.
Arguments mkdependencies {D}.
Arguments Dependencies {D}.

(** [api.Kind] *)
Inductive Kind : Type :=
| Kind_UNKNOWN | Kind_HELM | Kind_CHARTMUSEUM | Kind_HARBOR | Kind_OCI | Kind_LOCAL.

Definition Kind_eqb (a b : Kind) : bool :=
  match a, b with
  | Kind_UNKNOWN, Kind_UNKNOWN | Kind_HELM, Kind_HELM
  | Kind_CHARTMUSEUM, Kind_CHARTMUSEUM | Kind_HARBOR, Kind_HARBOR
  | Kind_OCI, Kind_OCI | Kind_LOCAL, Kind_LOCAL => true
  | _, _ => false
  end.

(** [api.Repo], with the two fields read here *)
Record Repo : Type := mkRepo {
  Url : string;
  RepoKind : Kind
}.

(** The getters of a [*api.Repo] accept the [nil] pointer and answer the
    zero value. *)
Definition GetUrl (x : option Repo) : string :=
  match x with Some r => Url r | None => "" end.

Definition GetKind (x : option Repo) : Kind :=
  match x with Some r => RepoKind r | None => Kind_UNKNOWN end.

(** Modelled from the spec: the names of the four files of a package,
    constants of the package declared outside [dependency.go]. *)
Definition RequirementsLockFilename : string := "requirements.lock".
Definition ChartLockFilename : string := "Chart.lock".
Definition ChartFilename : string := "Chart.yaml".
Definition RequirementsFilename : string := "requirements.yaml".

(** Modelled from the spec: the two schema generations, Legacy and Modern,
    string constants of the package declared outside [dependency.go]. *)
Definition APIV1 : string := "v1".
Definition APIV2 : string := "v2".

(** [chart.APIVersionV2] of Helm *)
Definition APIVersionV2 : string := "v2".

(** ** [encoding/json], for the values [hashDeps] marshals *)
Module JSON.
Import GoString.

Definition hexdigit (n : nat) : ascii :=
  if (n <? 10)%nat then ascii_of_nat (48 + n) else ascii_of_nat (87 + n).

(** [\u00XX] *)
Definition u00 (c : ascii) : string :=
  "\u00" ++ String (hexdigit (byte c / 16)) (String (hexdigit (byte c mod 16)) "").

(** a byte below [utf8.RuneSelf], with HTML escaping on *)
Definition ascii_text (c : ascii) : string :=
  if Ascii.eqb c "\" || Ascii.eqb c dquote then String "\" (String c "")
  else if (byte c =? 10)%nat then "\n"
  else if (byte c =? 13)%nat then "\r"
  else if (byte c =? 9)%nat then "\t"
  else if (byte c <? 32)%nat || one_of "<>&" c then u00 c
  else String c "".

Definition cont (lo hi : nat) (c : ascii) : bool :=
  (lo <=? byte c)%nat && (byte c <=? hi)%nat.

(** the size of the UTF-8 sequence [s] starts with, 0 when
    [utf8.DecodeRuneInString] answers [RuneError] with size 1 *)
Definition rune_size (s : string) : nat :=
  match s with
  | String c0 (String c1 r1) =>
      let b0 := byte c0 in
      if (194 <=? b0)%nat && (b0 <=? 223)%nat then
        if cont 128 191 c1 then 2 else 0
      else
        match r1 with
        | String c2 r2 =>
            let second_ok :=
              if (b0 =? 224)%nat then cont 160 191 c1
              else if (b0 =? 237)%nat then cont 128 159 c1
              else if (b0 =? 240)%nat then cont 144 191 c1
              else if (b0 =? 244)%nat then cont 128 143 c1
              else cont 128 191 c1 in
            if (224 <=? b0)%nat && (b0 <=? 239)%nat then
              if second_ok && cont 128 191 c2 then 3 else 0
            else if (240 <=? b0)%nat && (b0 <=? 244)%nat then
              match r2 with
              | String c3 _ =>
                  if second_ok && cont 128 191 c2 && cont 128 191 c3 then 4 else 0
              | EmptyString => 0
              end
            else 0
        | EmptyString => 0
        end
  | _ => 0
  end.

(** [s] starts with U+2028 or U+2029: the last hexadecimal digit *)
Definition line_separator (s : string) : option ascii :=
  match s with
  | String c0 (String c1 (String c2 _)) =>
      if (byte c0 =? 226)%nat && (byte c1 =? 128)%nat then
        if (byte c2 =? 168)%nat then Some "8"%char
        else if (byte c2 =? 169)%nat then Some "9"%char
        else None
      else None
  | _ => None
  end.

(** the body of a JSON string; [copy] bytes of a rune are still to be
    copied, [skip] bytes of an escaped rune still to be passed over *)
Fixpoint string_body (copy skip : nat) (s : string) : string :=
  match s with
  | EmptyString => EmptyString
  | String c r =>
      match skip, copy with
      | S k, _ => string_body copy k r
      | O, S k => String c (string_body k 0 r)
      | O, O =>
          if (byte c <? 128)%nat then ascii_text c ++ string_body 0 0 r
          else
            match rune_size s with
            | O => "\ufffd" ++ string_body 0 0 r
            | S n =>
                match line_separator s with
                | Some d => "\u202" ++ String d (string_body 0 2 r)
                | None => String c (string_body n 0 r)
                end
            end
      end
  end.

Definition quote (s : string) : string :=
  String dquote (string_body 0 0 s ++ String dquote "").

Fixpoint join (sep : string) (l : list string) : string :=
  match l with
  | [] => ""
  | [x] => x
  | x :: r => x ++ sep ++ join sep r
  end.

Definition array (items : list string) : string := "[" ++ join "," items ++ "]".

(** a slice: [null] for [nil] *)
Definition of_slice {A : Type} (f : A -> string) (s : slice A) : string :=
  match s with
  | None => "null"
  | Some l => array (map f l)
  end.

Definition field (name value : string) : string := quote name ++ ":" ++ value.

(** the fields of a [chart.Dependency] in declaration order, those
    tagged [omitempty] left out when empty *)
Definition of_Dependency (d : Dependency) : string :=
  "{" ++ join ","
    ([field "name" (quote (Name d))]
     ++ (if is_empty (Version d) then [] else [field "version" (quote (Version d))])
     ++ [field "repository" (quote (Repository d))]
     ++ (if is_empty (Condition d) then [] else [field "condition" (quote (Condition d))])
     ++ (if is_empty_slice (Tags d) then [] else [field "tags" (of_slice quote (Tags d))])
     ++ (if Enabled d then [field "enabled" "true"] else [])
     ++ (if is_empty_slice (ImportValues d) then []
         else [field "import-values" (of_slice (fun raw => raw) (ImportValues d))])
     ++ (if is_empty (Alias d) then [] else [field "alias" (quote (Alias d))]))
  ++ "}".

(** [json.Marshal([2][]*chart.Dependency{req, lock})] *)
Definition Marshal (req lock : slice Dependency) : string :=
  array [of_slice of_Dependency req; of_slice of_Dependency lock].

End JSON.

(** ** Errors, collaborators and the state of a call *)

(** the operations on the file system, as the code issues them *)
Inductive IOOp : Type :=
| OpRemoveAll
| OpMkdir
| OpStat (file : string)
| OpReadFile (file : string)
| OpWriteFile (file : string)
| OpCopyFile (dst : string).

(** what [errors.Annotatef] adds to an error: the format and its arguments *)
Inductive Context : Type :=
| Unmarshaling (file : string)
| ErrorUnmarshaling (file : string)
| FetchingChart (id : string)
| CopyingChart (id depFile : string).

#[local] Unset Elimination Schemes.
Inductive error : Type :=
| IOError (op : IOOp)
| YAMLError (file : string)
| URLError (e : URL.error)
| ClientError (msg : string)
| UnrecognisedAPIVersion (apiVersion : string)
| Annotated (ctx : Context) (cause : error)
| MultiError (errs : list error).
#[local] Set Elimination Schemes.

(** [errors.Trace] records the place of the call and keeps the error. *)
Definition Trace (e : error) : error := e.

(** [errors.Annotatef] *)
Definition Annotatef (e : error) (ctx : Context) : error := Annotated ctx e.

(** [multierror.Append] on the list of the errors gathered so far *)
Definition Append (errs : list error) (e : error) : list error := errs ++ [e].

(** [client.ChartsReader]: [Fetch] answers the archive of a chart version
    or an error. *)
Record ChartsReader : Type := mkChartsReader {
  Fetch : string -> string -> result error string
}.

(** where an archive is fetched from: the target-side client [r], or the
    source-side client [t[location]] *)
Inductive Origin : Type :=
| TargetSide
| SourceSide (location : N).

(** what a call does to the outside, in order *)
Inductive Event : Type :=
| IO (op : IOOp)
| Fetching (from : Origin) (name version : string).

(** The collaborators of [internal/utils] and the file system's faults.
    [ShouldIgnoreRepo] and [GetRepoLocationId] are consumed through their
    contracts; [faulty op] tells that the file system refuses [op]. *)
Record Env : Type := mkEnv {
  ShouldIgnoreRepo : Repo -> list Repo -> list Repo -> bool;
  GetRepoLocationId : string -> N;
  faulty : IOOp -> bool
}.

(** A YAML document, with the keys the structs of this package read. *)
Record Doc : Type := mkDoc {
  doc_generated : string;
  doc_digest : string;
  doc_name : string;
  doc_version : string;
  doc_apiVersion : string;
  doc_dependencies : slice Dependency
}.

(** a file of the package: text [yaml.Unmarshal] rejects, or a document *)
Inductive File : Type :=
| Unparseable
| Document (d : Doc).

(** The package at [chartPath]: its files by name and its [charts] folder,
    [None] when there is no such folder, else the archives by file name. *)
Record Package : Type := mkPackage {
  files : gmap string File;
  charts : option (gmap string string)
}.

(** a [*chart.Dependency]: an address of the store *)
Definition ptr : Type := nat.

(** The state a call runs in: the package on disk, the store of the
    [chart.Dependency] objects allocated so far, and the events so far. *)
Record State : Type := mkState {
  package : Package;
  heap : list Dependency;
  trace : list Event
}.

(** how a call ends: it returns a value, returns an error, or panics *)
Inductive outcome (A : Type) : Type :=
| Done (a : A)
| Failed (e : error)
| Panic.
Arguments Done {A} a.
Arguments Failed {A} e.
Arguments Panic {A}.

Definition M (A : Type) : Type := State -> State * outcome A.

#[global] Instance M_ret : MRet M := fun A a st => (st, Done a).

#[global] Instance M_bind : MBind M := fun A B f m st =>
  match m st with
  | (st', Done a) => f a st'
  | (st', Failed e) => (st', Failed e)
  | (st', Panic) => (st', Panic)
  end.

Definition fail {A : Type} (e : error) : M A := fun st => (st, Failed e).
Definition panic {A : Type} : M A := fun st => (st, Panic).

(** a call whose error the caller inspects: [if err := f(); err != nil] *)
Definition attempt {A : Type} (m : M A) : M (result error A) := fun st =>
  match m st with
  | (st', Done a) => (st', Done (Ok a))
  | (st', Failed e) => (st', Done (Err e))
  | (st', Panic) => (st', Panic)
  end.

Definition lift {A : Type} (r : result error A) : M A :=
  match r with Ok a => mret a | Err e => fail e end.

Definition emit (ev : Event) : M unit := fun st =>
  (mkState (package st) (heap st) (trace st ++ [ev]), Done tt).

Definition get_package : M Package := fun st => (st, Done (package st)).

Definition put_package (p : Package) : M unit := fun st =>
  (mkState p (heap st) (trace st), Done tt).

(** an operation on the file system: recorded, and refused when faulty *)
Definition io (E : Env) (op : IOOp) : M unit :=
  _ ← emit (IO op);
  if faulty E op then fail (IOError op) else mret tt.

(** *** The store *)

(** [&chart.Dependency{...}] *)
Definition new (d : Dependency) : M ptr := fun st =>
  (mkState (package st) (heap st ++ [d]) (trace st), Done (length (heap st))).

(** [*p]; a pointer that addresses nothing panics *)
Definition deref (p : ptr) : M Dependency := fun st =>
  match heap st !! p with
  | Some d => (st, Done d)
  | None => (st, Panic)
  end.

(** [*p = d] *)
Definition assign (p : ptr) (d : Dependency) : M unit := fun st =>
  match heap st !! p with
  | Some _ => (mkState (package st) (<[p := d]> (heap st)) (trace st), Done tt)
  | None => (st, Panic)
  end.

Fixpoint traverse {A B : Type} (f : A -> M B) (l : list A) : M (list B) :=
  match l with
  | [] => mret []
  | x :: r => y ← f x; ys ← traverse f r; mret (y :: ys)
  end.

(** a slice of fresh objects, one per element *)
Definition new_slice (s : slice Dependency) : M (slice ptr) :=
  match s with
  | None => mret None
  | Some l => ps ← traverse new l; mret (Some ps)
  end.

(** the objects a slice of pointers addresses *)
Definition load_slice (s : slice ptr) : M (slice Dependency) :=
  match s with
  | None => mret None
  | Some l => ds ← traverse deref l; mret (Some ds)
  end.

(** *** The file system *)

(** Modelled from the spec: [utils.FileExists], which answers whether a
    file of that name is present, or the error of the file system. *)
Definition FileExists (E : Env) (file : string) : M bool :=
  _ ← io E (OpStat file);
  p ← get_package;
  mret (bool_decide (is_Some (files p !! file))).

(** [ioutil.ReadFile] *)
Definition ReadFile (E : Env) (file : string) : M File :=
  _ ← io E (OpReadFile file);
  p ← get_package;
  match files p !! file with
  | Some f => mret f
  | None => fail (IOError (OpReadFile file))
  end.

(** [ioutil.WriteFile] *)
Definition WriteFile (E : Env) (file : string) (d : Doc) : M unit :=
  _ ← io E (OpWriteFile file);
  p ← get_package;
  put_package (mkPackage (<[file := Document d]> (files p)) (charts p)).

(** [os.RemoveAll] of the [charts] folder *)
Definition RemoveAll_charts (E : Env) : M unit :=
  _ ← io E OpRemoveAll;
  p ← get_package;
  put_package (mkPackage (files p) None).

(** [os.Mkdir] of the [charts] folder: refused when it exists *)
Definition Mkdir_charts (E : Env) : M unit :=
  _ ← io E OpMkdir;
  p ← get_package;
  match charts p with
  | Some _ => fail (IOError OpMkdir)
  | None => put_package (mkPackage (files p) (Some ∅))
  end.

(** Modelled from the spec: [utils.CopyFile], which copies the fetched
    archive to [dst] in the [charts] folder; a refused copy leaves the
    folder as it was. *)
Definition CopyFile (E : Env) (dst : string) (archive : string) : M unit :=
  _ ← io E (OpCopyFile dst);
  p ← get_package;
  match charts p with
  | Some folder => put_package (mkPackage (files p) (Some (<[dst := archive]> folder)))
  | None => fail (IOError (OpCopyFile dst))
  end.

(** *** YAML *)

(** [yaml.Unmarshal] of the text of a file *)
Definition Unmarshal (file : string) (f : File) : result error Doc :=
  match f with
  | Unparseable => Err (YAMLError file)
  | Document d => Ok d
  end.

Definition Lock_of_Doc (d : Doc) : M (Lock ptr) :=
  deps ← new_slice (doc_dependencies d);
  mret (mkLock (doc_generated d) (doc_digest d) deps).

Definition Metadata_of_Doc (d : Doc) : M (Metadata ptr) :=
  deps ← new_slice (doc_dependencies d);
  mret (mkMetadata (doc_name d) (doc_version d) (doc_apiVersion d) deps).

Definition dependencies_of_Doc (d : Doc) : M (dependencies ptr) :=
  deps ← new_slice (doc_dependencies d);
  mret (mkdependencies deps).

(** [omitempty]: an empty slice is not printed, and reads back as [nil] *)
Definition omitempty {A : Type} (s : slice A) : slice A :=
  if is_empty_slice s then None else s.

(** a [chart.Dependency] as [yaml.Marshal] prints it *)
Definition printed (d : Dependency) : Dependency :=
  mkDependency (Name d) (Version d) (Repository d) (Condition d)
               (omitempty (Tags d)) (Enabled d) (omitempty (ImportValues d)) (Alias d).

Definition printed_slice (s : slice Dependency) : slice Dependency :=
  match s with Some l => Some (map printed l) | None => None end.

(** the documents [yaml.Marshal] prints for the three structs *)
Definition print_Metadata (name version apiVersion : string) (ds : slice Dependency) : Doc :=
  mkDoc "" "" name version apiVersion (omitempty (printed_slice ds)).

Definition print_dependencies (ds : slice Dependency) : Doc :=
  mkDoc "" "" "" "" "" (printed_slice ds).

Definition print_Lock (generated digest : string) (ds : slice Dependency) : Doc :=
  mkDoc generated digest "" "" "" (printed_slice ds).

(** the values [writeChartFile] is called with *)
Inductive Value : Type :=
| VMetadata (m : Metadata ptr)
| VDependencies (d : dependencies ptr)
| VLock (l : Lock ptr).

(** [yaml.Marshal] *)
Definition Marshal (v : Value) : M Doc :=
  match v with
  | VMetadata m =>
      ds ← load_slice (MetadataDependencies m);
      mret (print_Metadata (MetadataName m) (MetadataVersion m) (APIVersion m) ds)
  | VDependencies d =>
      ds ← load_slice (Dependencies d);
      mret (print_dependencies ds)
  | VLock l =>
      ds ← load_slice (LockDependencies l);
      mret (print_Lock (Generated l) (Digest l) ds)
  end.

(** [chartutil.LoadChartfile] *)
Definition LoadChartfile (E : Env) (file : string) : M (Metadata ptr) :=
  content ← ReadFile E file;
  d ← lift (Unmarshal file content);
  Metadata_of_Doc d.

(** ** [dependency.go] *)

Module chart.

(** [lockFilePath]: the lock file of a schema generation, by its name
    under [chartPath] *)
Definition lockFilePath (apiVersion : string) : result error string :=
  if String.eqb apiVersion APIV1 then Ok RequirementsLockFilename
  else if String.eqb apiVersion APIV2 then Ok ChartLockFilename
  else Err (UnrecognisedAPIVersion apiVersion).

(** [GetLockAPIVersion] *)
Definition GetLockAPIVersion (E : Env) : M string :=
  ok ← FileExists E RequirementsLockFilename;
  if ok : bool then mret APIV1
  else
    ok ← FileExists E ChartLockFilename;
    if ok : bool then mret APIV2 else mret "".

(** [GetChartLock]: [None] is the [nil] lock *)
Definition GetChartLock (E : Env) : M (option (Lock ptr)) :=
  apiVersion ← GetLockAPIVersion E;
  if GoString.is_empty apiVersion then mret None
  else
    lockFilePath ← lift (lockFilePath apiVersion);
    lockContent ← ReadFile E lockFilePath;
    match Unmarshal lockFilePath lockContent with
    | Err err => fail (Annotatef err (Unmarshaling lockFilePath))
    | Ok d => lock ← Lock_of_Doc d; mret (Some lock)
    end.

(** [getDependencyRepoURL] *)
Definition getDependencyRepoURL (targetRepo : option Repo) : result error string :=
  let repoUrl := GetUrl targetRepo in
  if Kind_eqb (GetKind targetRepo) Kind_OCI then
    match URL.Parse repoUrl with
    | Err err => Err (Trace (URLError err))
    | Ok parseUrl => Ok (URL.String_ (URL.set_Scheme "oci" parseUrl))
    end
  else Ok repoUrl.

(** [provenance.Digest] of Helm, on the bytes of a buffer *)
Definition provenance_Digest (data : string) : result error string :=
  Ok (SHA256.hexdigest data).

(** [hashDeps] *)
Definition hashDeps (req lock : slice ptr) : M string :=
  reqs ← load_slice req;
  locks ← load_slice lock;
  let data := JSON.Marshal reqs locks in
  match provenance_Digest data with
  | Ok s => mret ("sha256:" ++ s)
  | Err err => fail err
  end.

(** [writeChartFile] *)
Definition writeChartFile (E : Env) (dest : string) (v : Value) : M unit :=
  data ← Marshal v;
  WriteFile E dest data.

(** The loop that [updateChartMetadataFile], [updateRequirementsFile] and
    [updateLockFile] each run over their dependency list, with the same
    body: the repository of an entry is replaced when it is the source's
    or when the classifier does not ask to ignore it. *)
Fixpoint rewriteRepositories (E : Env) (sourceRepo targetRepo : option Repo)
    (syncTrusted ignoreTrusted : list Repo) (deps : list ptr) : M unit :=
  match deps with
  | [] => mret tt
  | p :: rest =>
      dep ← deref p;
      let r := mkRepo (Repository dep) Kind_UNKNOWN in
      let replaceDependencyRepo := negb (ShouldIgnoreRepo E r syncTrusted ignoreTrusted) in
      _ ← (if String.eqb (Repository dep) (GetUrl sourceRepo) || replaceDependencyRepo
           then
             repoUrl ← lift (getDependencyRepoURL targetRepo);
             assign p (set_Repository repoUrl dep)
           else mret tt);
      rewriteRepositories E sourceRepo targetRepo syncTrusted ignoreTrusted rest
  end.

(** [updateLockFile]; a [nil] lock is dereferenced, which panics *)
Definition updateLockFile (E : Env) (lock : option (Lock ptr)) (deps : slice ptr)
    (sourceRepo targetRepo : option Repo) (legacyLockfile : bool)
    (syncTrusted ignoreTrusted : list Repo) : M unit :=
  match lock with
  | None => panic
  | Some lock =>
      _ ← rewriteRepositories E sourceRepo targetRepo syncTrusted ignoreTrusted
            (elems (LockDependencies lock));
      newDigest ← hashDeps deps (LockDependencies lock);
      let lock := mkLock (Generated lock) newDigest (LockDependencies lock) in
      let lockFileName :=
        if legacyLockfile then RequirementsLockFilename else ChartLockFilename in
      writeChartFile E lockFileName (VLock lock)
  end.

(** [updateChartMetadataFile] *)
Definition updateChartMetadataFile (E : Env) (lock : option (Lock ptr))
    (sourceRepo targetRepo : option Repo)
    (syncTrusted ignoreTrusted : list Repo) : M unit :=
  let chartFile := ChartFilename in
  chartYamlContent ← ReadFile E chartFile;
  match Unmarshal chartFile chartYamlContent with
  | Err err => fail (Annotatef err (ErrorUnmarshaling chartFile))
  | Ok d =>
      chartMetadata ← Metadata_of_Doc d;
      _ ← rewriteRepositories E sourceRepo targetRepo syncTrusted ignoreTrusted
            (elems (MetadataDependencies chartMetadata));
      _ ← writeChartFile E ChartFilename (VMetadata chartMetadata);
      match lock with
      | Some _ =>
          updateLockFile E lock (MetadataDependencies chartMetadata)
                         sourceRepo targetRepo false syncTrusted ignoreTrusted
      | None => mret tt
      end
  end.

(** [updateRequirementsFile] *)
Definition updateRequirementsFile (E : Env) (lock : option (Lock ptr))
    (sourceRepo targetRepo : option Repo)
    (syncTrusted ignoreTrusted : list Repo) : M unit :=
  let requirementsFile := RequirementsFilename in
  requirements ← ReadFile E requirementsFile;
  match Unmarshal requirementsFile requirements with
  | Err err => fail (Annotatef err (ErrorUnmarshaling requirementsFile))
  | Ok d =>
      deps ← dependencies_of_Doc d;
      _ ← rewriteRepositories E sourceRepo targetRepo syncTrusted ignoreTrusted
            (elems (Dependencies deps));
      _ ← writeChartFile E RequirementsFilename (VDependencies deps);
      updateLockFile E lock (Dependencies deps)
                     sourceRepo targetRepo true syncTrusted ignoreTrusted
  end.

(** the identity key of a dependency, [fmt.Sprintf] of [%s-%s] *)
Definition dep_id (dep : Dependency) : string := Name dep ++ "-" ++ Version dep.

(** the file of a dependency in the [charts] folder, [%s.tgz] of its key *)
Definition dep_file (dep : Dependency) : string := dep_id dep ++ ".tgz".

(** Step 2 of [BuildDependencies], the loop over [deps]: [errs] gathers
    the failures.  A [nil] client, the answer of the map [t] for a
    location it does not hold, panics when [Fetch] is called on it. *)
Fixpoint buildCharts (E : Env) (r : ChartsReader) (t : gmap N ChartsReader)
    (syncTrusted ignoreTrusted : list Repo) (deps : list ptr) (errs : list error)
  : M (list error) :=
  match deps with
  | [] => mret errs
  | p :: rest =>
      dep ← deref p;
      let id := dep_id dep in
      let depRepo := mkRepo (Repository dep) Kind_UNKNOWN in
      let origin :=
        if ShouldIgnoreRepo E depRepo syncTrusted ignoreTrusted
        then SourceSide (GetRepoLocationId E (Repository dep))
        else TargetSide in
      let repoClient :=
        match origin with
        | SourceSide location => t !! location
        | TargetSide => Some r
        end in
      match repoClient with
      | None => panic
      | Some repoClient =>
          _ ← emit (Fetching origin (Name dep) (Version dep));
          match Fetch repoClient (Name dep) (Version dep) with
          | Err err =>
              buildCharts E r t syncTrusted ignoreTrusted rest
                (Append errs (Annotatef err (FetchingChart id)))
          | Ok depTgz =>
              let depFile := dep_file dep in
              copied ← attempt (CopyFile E depFile depTgz);
              match copied with
              | Err err =>
                  buildCharts E r t syncTrusted ignoreTrusted rest
                    (Append errs (Annotatef err (CopyingChart id depFile)))
              | Ok _ => buildCharts E r t syncTrusted ignoreTrusted rest errs
              end
          end
      end
  end.

(** [BuildDependencies], from the switch on [apiVersion] on *)
Definition buildFrom (E : Env) (r : ChartsReader)
    (sourceRepo targetRepo : option Repo) (t : gmap N ChartsReader)
    (syncTrusted ignoreTrusted : list Repo)
    (lock : option (Lock ptr)) (apiVersion : string) (depsFromMetadata : slice ptr)
  : M unit :=
  _ ← (if String.eqb apiVersion APIV1 then
         updateRequirementsFile E lock sourceRepo targetRepo syncTrusted ignoreTrusted
       else if String.eqb apiVersion APIV2 then
         updateChartMetadataFile E lock sourceRepo targetRepo syncTrusted ignoreTrusted
       else fail (UnrecognisedAPIVersion apiVersion));
  let deps : slice ptr :=
    match lock with
    | Some lock => LockDependencies lock
    | None => depsFromMetadata
    end in
  errs ← buildCharts E r t syncTrusted ignoreTrusted (elems deps) [];
  match errs with
  | [] => mret tt
  | _ :: _ => fail (MultiError errs)
  end.

(** [BuildDependencies] *)
Definition BuildDependencies (E : Env) (r : ChartsReader)
    (sourceRepo targetRepo : option Repo) (t : gmap N ChartsReader)
    (syncTrusted ignoreTrusted : list Repo) : M unit :=
  _ ← RemoveAll_charts E;
  _ ← Mkdir_charts E;
  lock ← GetChartLock E;
  apiVersion ← GetLockAPIVersion E;
  if GoString.is_empty apiVersion then
    metadata ← LoadChartfile E ChartFilename;
    if String.eqb (APIVersion metadata) APIVersionV2 then
      buildFrom E r sourceRepo targetRepo t syncTrusted ignoreTrusted
                lock APIV2 (MetadataDependencies metadata)
    else mret tt
  else
    buildFrom E r sourceRepo targetRepo t syncTrusted ignoreTrusted
              lock apiVersion None.

(** ** What the code is expected to compute

    Pure functions on values, against which the stateful code is
    verified. *)

(** the state after the events [evs] *)
Definition log (evs : list Event) (st : State) : State :=
  mkState (package st) (heap st) (trace st ++ evs).

(** the objects the pointers [ps] address in the store [h] *)
Definition values (h : list Dependency) (ps : list ptr) : option (list Dependency) :=
  mapM (fun p => h !! p) ps.

(** the values a slice of pointers addresses *)
Definition slice_values (h : list Dependency) (s : slice ptr) : option (slice Dependency) :=
  match s with
  | None => Some None
  | Some ps => Some <$> values h ps
  end.

(** the pointers [new_slice] answers in the store [h] *)
Definition fresh_slice (h : list Dependency) (s : slice Dependency) : slice ptr :=
  match s with
  | None => None
  | Some l => Some (seq (length h) (length l))
  end.

(** the decision of the rewrite loop on a repository URL *)
Definition selected (E : Env) (sourceRepo : option Repo)
    (syncTrusted ignoreTrusted : list Repo) (repository : string) : bool :=
  String.eqb repository (GetUrl sourceRepo)
  || negb (ShouldIgnoreRepo E (mkRepo repository Kind_UNKNOWN) syncTrusted ignoreTrusted).

(** one iteration of the rewrite loop, on the value of the entry *)
Definition rewriteDep (E : Env) (sourceRepo targetRepo : option Repo)
    (syncTrusted ignoreTrusted : list Repo) (d : Dependency) : result error Dependency :=
  if selected E sourceRepo syncTrusted ignoreTrusted (Repository d) then
    match getDependencyRepoURL targetRepo with
    | Ok repoUrl => Ok (set_Repository repoUrl d)
    | Err e => Err e
    end
  else Ok d.

(** the rewrite loop on the values of a list *)
Fixpoint rewriteDeps (E : Env) (sourceRepo targetRepo : option Repo)
    (syncTrusted ignoreTrusted : list Repo) (ds : list Dependency)
  : result error (list Dependency) :=
  match ds with
  | [] => Ok []
  | d :: rest =>
      match rewriteDep E sourceRepo targetRepo syncTrusted ignoreTrusted d with
      | Err e => Err e
      | Ok d' =>
          match rewriteDeps E sourceRepo targetRepo syncTrusted ignoreTrusted rest with
          | Err e => Err e
          | Ok rest' => Ok (d' :: rest')
          end
      end
  end.

(** a slice with the elements [l], [nil] when [s] is *)
Definition slice_with {A B : Type} (s : slice A) (l : list B) : slice B :=
  match s with None => None | Some _ => Some l end.

(** the rewrite loop on a slice; [None] when it ends with an error *)
Definition rewriteSlice (E : Env) (sourceRepo targetRepo : option Repo)
    (syncTrusted ignoreTrusted : list Repo) (s : slice Dependency)
  : option (slice Dependency) :=
  match rewriteDeps E sourceRepo targetRepo syncTrusted ignoreTrusted (elems s) with
  | Ok l => Some (slice_with s l)
  | Err _ => None
  end.

(** the digest of the values of a (declarations, lock entries) pair *)
Definition digest_of (reqs locks : slice Dependency) : string :=
  "sha256:" ++ SHA256.hexdigest (JSON.Marshal reqs locks).

(** the origin the materializer selects for a repository URL *)
Definition origin_of (E : Env) (syncTrusted ignoreTrusted : list Repo)
    (repository : string) : Origin :=
  if ShouldIgnoreRepo E (mkRepo repository Kind_UNKNOWN) syncTrusted ignoreTrusted
  then SourceSide (GetRepoLocationId E repository)
  else TargetSide.

Definition client_of (r : ChartsReader) (t : gmap N ChartsReader) (o : Origin)
  : option ChartsReader :=
  match o with
  | SourceSide location => t !! location
  | TargetSide => Some r
  end.

(** what becomes of one dependency in the materializer *)
Inductive DepResult : Type :=
| Materialized (archive : string)
| FetchFailed (cause : error)
| CopyFailed (cause : error)
| NoClient.

Definition dep_result (E : Env) (r : ChartsReader) (t : gmap N ChartsReader)
    (syncTrusted ignoreTrusted : list Repo) (d : Dependency) : DepResult :=
  match client_of r t (origin_of E syncTrusted ignoreTrusted (Repository d)) with
  | None => NoClient
  | Some c =>
      match Fetch c (Name d) (Version d) with
      | Err e => FetchFailed e
      | Ok archive =>
          if faulty E (OpCopyFile (dep_file d))
          then CopyFailed (IOError (OpCopyFile (dep_file d)))
          else Materialized archive
      end
  end.

(** the error recorded for a dependency, if any *)
Definition dep_failure (E : Env) (r : ChartsReader) (t : gmap N ChartsReader)
    (syncTrusted ignoreTrusted : list Repo) (d : Dependency) : list error :=
  match dep_result E r t syncTrusted ignoreTrusted d with
  | FetchFailed e => [Annotated (FetchingChart (dep_id d)) e]
  | CopyFailed e => [Annotated (CopyingChart (dep_id d) (dep_file d)) e]
  | Materialized _ | NoClient => []
  end.

(** the events of one dependency *)
Definition dep_events (E : Env) (r : ChartsReader) (t : gmap N ChartsReader)
    (syncTrusted ignoreTrusted : list Repo) (d : Dependency) : list Event :=
  match dep_result E r t syncTrusted ignoreTrusted d with
  | NoClient => []
  | FetchFailed _ =>
      [Fetching (origin_of E syncTrusted ignoreTrusted (Repository d)) (Name d) (Version d)]
  | CopyFailed _ | Materialized _ =>
      [Fetching (origin_of E syncTrusted ignoreTrusted (Repository d)) (Name d) (Version d);
       IO (OpCopyFile (dep_file d))]
  end.

(** the [charts] folder after one dependency *)
Definition dep_store (E : Env) (r : ChartsReader) (t : gmap N ChartsReader)
    (syncTrusted ignoreTrusted : list Repo)
    (folder : gmap string string) (d : Dependency) : gmap string string :=
  match dep_result E r t syncTrusted ignoreTrusted d with
  | Materialized archive => <[dep_file d := archive]> folder
  | _ => folder
  end.

(** the [charts] folder after the dependencies [ds] *)
Definition materialize (E : Env) (r : ChartsReader) (t : gmap N ChartsReader)
    (syncTrusted ignoreTrusted : list Repo)
    (ds : list Dependency) (folder : gmap string string) : gmap string string :=
  foldl (dep_store E r t syncTrusted ignoreTrusted) folder ds.

(** the version [GetLockAPIVersion] answers on the files [fs], with the
    checks it makes *)
Definition lockAPIVersion (E : Env) (fs : gmap string File)
  : list Event * outcome string :=
  let stat1 := IO (OpStat RequirementsLockFilename) in
  let stat2 := IO (OpStat ChartLockFilename) in
  if faulty E (OpStat RequirementsLockFilename)
  then ([stat1], Failed (IOError (OpStat RequirementsLockFilename)))
  else if bool_decide (is_Some (fs !! RequirementsLockFilename))
  then ([stat1], Done APIV1)
  else if faulty E (OpStat ChartLockFilename)
  then ([stat1; stat2], Failed (IOError (OpStat ChartLockFilename)))
  else if bool_decide (is_Some (fs !! ChartLockFilename))
  then ([stat1; stat2], Done APIV2)
  else ([stat1; stat2], Done "").

(** an error that ends the call at once: any but the aggregate of the
    materializer *)
Definition fatal (e : error) : Prop :=
  match e with MultiError _ => False | _ => True end.

(** the document a readable file holds *)
Definition document (E : Env) (fs : gmap string File) (file : string) : option Doc :=
  if faulty E (OpReadFile file) then None
  else match fs !! file with
       | Some (Document d) => Some d
       | _ => None
       end.

(** the files after a write *)
Definition written (E : Env) (file : string) (d : Doc) (fs : gmap string File)
  : option (gmap string File) :=
  if faulty E (OpWriteFile file) then None else Some (<[file := Document d]> fs).

(** What a call does before it materializes: the files it leaves, the
    operations it makes, and the dependencies it hands to the materializer,
    as they are at that moment. *)
Record Plan : Type := mkPlan {
  plan_files : gmap string File;
  plan_events : list Event;
  plan_deps : list Dependency
}.

(** The rewrite step on the files [fs]: the declarations of [declFile],
    whose document prints with [print], then the entries [ls] of the lock
    read from [lockFile], if there is one.  It answers the files it leaves
    and the rewritten lock entries. *)
Definition plan_rewrite (E : Env) (sourceRepo targetRepo : option Repo)
    (syncTrusted ignoreTrusted : list Repo) (fs : gmap string File)
    (declFile : string) (print : Doc -> slice Dependency -> Doc)
    (lock : option (string * string * slice Dependency))
  : option (gmap string File * slice Dependency) :=
  d ← document E fs declFile;
  ds' ← rewriteSlice E sourceRepo targetRepo syncTrusted ignoreTrusted (doc_dependencies d);
  fs1 ← written E declFile (print d ds') fs;
  match lock with
  | None => Some (fs1, None)
  | Some (lockFile, generated, ls) =>
      ls' ← rewriteSlice E sourceRepo targetRepo syncTrusted ignoreTrusted ls;
      fs2 ← written E lockFile (print_Lock generated (digest_of ds' ls') ls') fs1;
      Some (fs2, ls')
  end.

(** the operations of the rewrite step *)
Definition rewrite_events (declFile : string) (lockFile : option string) : list Event :=
  [IO (OpReadFile declFile); IO (OpWriteFile declFile)]
  ++ match lockFile with Some f => [IO (OpWriteFile f)] | None => [] end.

Definition print_as_Metadata (m : Doc) (ds : slice Dependency) : Doc :=
  print_Metadata (doc_name m) (doc_version m) (doc_apiVersion m) ds.

Definition print_as_dependencies (_ : Doc) (ds : slice Dependency) : Doc :=
  print_dependencies ds.

(** a package with the lock file [lockFile] and the declaration file
    [declFile] *)
Definition plan_locked (E : Env) (sourceRepo targetRepo : option Repo)
    (syncTrusted ignoreTrusted : list Repo) (fs : gmap string File)
    (stats : list Event) (lockFile declFile : string)
    (print : Doc -> slice Dependency -> Doc) : option Plan :=
  l ← document E fs lockFile;
  r ← plan_rewrite E sourceRepo targetRepo syncTrusted ignoreTrusted fs declFile print
        (Some (lockFile, doc_generated l, doc_dependencies l));
  Some (mkPlan r.1
          ([IO OpRemoveAll; IO OpMkdir] ++ stats ++ [IO (OpReadFile lockFile)] ++ stats
           ++ rewrite_events declFile (Some lockFile))%list
          (elems r.2)).

(** [None] when the call ends with a fatal error *)
Definition plan (E : Env) (sourceRepo targetRepo : option Repo)
    (syncTrusted ignoreTrusted : list Repo) (fs : gmap string File) : option Plan :=
  if faulty E OpRemoveAll || faulty E OpMkdir then None
  else
    match lockAPIVersion E fs with
    | (stats, Done v) =>
        if GoString.is_empty v then
          m ← document E fs ChartFilename;
          let pre := ([IO OpRemoveAll; IO OpMkdir] ++ stats ++ stats
                      ++ [IO (OpReadFile ChartFilename)])%list in
          if String.eqb (doc_apiVersion m) APIVersionV2 then
            r ← plan_rewrite E sourceRepo targetRepo syncTrusted ignoreTrusted fs
                  ChartFilename print_as_Metadata None;
            Some (mkPlan r.1 (pre ++ rewrite_events ChartFilename None)%list
                         (elems (doc_dependencies m)))
          else Some (mkPlan fs pre [])
        else if String.eqb v APIV1 then
          plan_locked E sourceRepo targetRepo syncTrusted ignoreTrusted fs stats
            RequirementsLockFilename RequirementsFilename print_as_dependencies
        else
          plan_locked E sourceRepo targetRepo syncTrusted ignoreTrusted fs stats
            ChartLockFilename ChartFilename print_as_Metadata
    | _ => None
    end.

(** the errors the materializer gathers on the dependencies [ds] *)
Definition failures (E : Env) (r : ChartsReader) (t : gmap N ChartsReader)
    (syncTrusted ignoreTrusted : list Repo) (ds : list Dependency) : list error :=
  flat_map (dep_failure E r t syncTrusted ignoreTrusted) ds.

(** how the call ends after the materializer gathered [errs] *)
Definition verdict (errs : list error) : outcome unit :=
  match errs with
  | [] => Done tt
  | _ :: _ => Failed (MultiError errs)
  end.

(** an entry of the store that the rewrite loop leaves as it is *)
Definition stable (E : Env) (sourceRepo targetRepo : option Repo)
    (syncTrusted ignoreTrusted : list Repo) (st : State) (p : ptr) : Prop :=
  exists d, heap st !! p = Some d
            /\ rewriteDep E sourceRepo targetRepo syncTrusted ignoreTrusted d = Ok d.

(** [res] is the end of a call that started with the events [tr], made
    the events [evs] and then materialized the dependencies [ds] into
    [folder], leaving the files [fs]: it returns the verdict on the
    failures when every dependency has a client, and panics otherwise. *)
Definition materialized (E : Env) (r : ChartsReader) (t : gmap N ChartsReader)
    (syncTrusted ignoreTrusted : list Repo)
    (res : State * outcome unit) (tr : list Event)
    (fs : gmap string File) (folder : gmap string string)
    (evs : list Event) (ds : list Dependency) : Prop :=
  (Forall (fun d => dep_result E r t syncTrusted ignoreTrusted d <> NoClient) ds ->
   exists h',
     res = (mkState (mkPackage fs (Some (materialize E r t syncTrusted ignoreTrusted ds folder)))
                    h'
                    (tr ++ evs ++ flat_map (dep_events E r t syncTrusted ignoreTrusted) ds)%list,
            verdict (failures E r t syncTrusted ignoreTrusted ds)))
  /\ (Exists (fun d => dep_result E r t syncTrusted ignoreTrusted d = NoClient) ds ->
      exists st', res = (st', Panic)).

(** ** The vocabulary of the theorems *)

(** the call came back from the materializer: without an error, or with
    the aggregate of the failures *)
Definition returned (o : outcome unit) : Prop :=
  o = Done tt \/ exists errs, o = Failed (MultiError errs).

(** the fetches among the events: origin, name and version *)
Fixpoint fetches (evs : list Event) : list (Origin * string * string) :=
  match evs with
  | [] => []
  | Fetching from name version :: rest => (from, name, version) :: fetches rest
  | IO _ :: rest => fetches rest
  end.

(** the fetch the materializer makes for the entry [d] as it stands *)
Definition fetch_of (E : Env) (syncTrusted ignoreTrusted : list Repo) (d : Dependency)
  : Origin * string * string :=
  (origin_of E syncTrusted ignoreTrusted (Repository d), Name d, Version d).

(** the entries of the dependency list of a file *)
Definition entries (fs : gmap string File) (file : string) : list Dependency :=
  match fs !! file with
  | Some (Document d) => elems (doc_dependencies d)
  | _ => []
  end.

(** the lock file of the package, the Legacy one first *)
Definition lock_file (fs : gmap string File) : option string :=
  if bool_decide (is_Some (fs !! RequirementsLockFilename)) then Some RequirementsLockFilename
  else if bool_decide (is_Some (fs !! ChartLockFilename)) then Some ChartLockFilename
  else None.

(** the metadata file declares the Modern generation *)
Definition modern_metadata (fs : gmap string File) : bool :=
  match fs !! ChartFilename with
  | Some (Document m) => String.eqb (doc_apiVersion m) APIVersionV2
  | _ => false
  end.

(** the file whose declarations the rewrite step rewrites, if it runs *)
Definition declaration_file (fs : gmap string File) : option string :=
  match lock_file fs with
  | Some lockFile =>
      if String.eqb lockFile RequirementsLockFilename then Some RequirementsFilename
      else Some ChartFilename
  | None => if modern_metadata fs then Some ChartFilename else None
  end.

(** the identity of an entry: name and version *)
Definition name_version (d : Dependency) : string * string := (Name d, Version d).

(** a computation only adds events to the trace *)
Definition extends {A : Type} (m : M A) : Prop :=
  forall st, exists evs, trace (m st).1 = (trace st ++ evs)%list.

(** The parse failures of a call: the lock file is malformed, or it is a
    document and the declaration file is malformed, or there is no lock
    file and the metadata file is malformed. *)
Definition malformed (fs : gmap string File) : Prop :=
  match lock_file fs with
  | Some lockFile =>
      fs !! lockFile = Some Unparseable
      \/ ((exists l, fs !! lockFile = Some (Document l))
          /\ fs !! (if String.eqb lockFile RequirementsLockFilename
                    then RequirementsFilename else ChartFilename) = Some Unparseable)
  | None => fs !! ChartFilename = Some Unparseable
  end.

End chart.
Import chart.

(** ** Well-formed absolute URLs

    The shape [scheme://host[:port][/path]] on which the text of a URL and
    its fields [Host] and [Path] are the same thing: no escapes, no user
    information, no query and no fragment. *)

(** the unreserved bytes of RFC 3986: letters, digits and [-_.~] *)
Definition unreserved (c : ascii) : bool :=
  GoString.is_alpha c || GoString.is_digit c || GoString.one_of "-_.~" c.

(** a byte of a scheme: a letter, a digit or one of [+-.] *)
Definition scheme_byte (c : ascii) : bool :=
  GoString.is_alpha c || GoString.is_digit c || GoString.one_of "+-." c.

(** a scheme: a letter, then bytes of a scheme *)
Definition valid_scheme (scheme : string) : bool :=
  match scheme with
  | EmptyString => false
  | String c r => GoString.is_alpha c && GoString.forallb scheme_byte r
  end.

(** a registered name: one unreserved byte at least *)
Definition plain_host (host : string) : bool :=
  negb (GoString.is_empty host) && GoString.forallb unreserved host.

(** a byte that a path holds as it is *)
Definition path_byte (c : ascii) : bool :=
  unreserved c || GoString.one_of "/$&+,:;=@" c.

(** an absolute path of such bytes, or no path *)
Definition plain_path (path : string) : bool :=
  match path with
  | EmptyString => true
  | String c r => Ascii.eqb c "/" && GoString.forallb path_byte r
  end.

(** a string without the byte [sep] *)
Definition without (sep : ascii) (s : string) : bool :=
  GoString.forallb (fun c => negb (Ascii.eqb c sep)) s.

(** a byte that [unescape] and [escape] leave alone in the mode [mode] *)
Definition kept (mode : URL.encoding) (c : ascii) : bool :=
  negb (URL.shouldEscape c mode) && negb (Ascii.eqb c "%").

Definition printable (c : ascii) : bool :=
  negb ((GoString.byte c <? 32)%nat || (GoString.byte c =? 127)%nat).

Definition authority_byte (c : ascii) : bool := unreserved c || Ascii.eqb c ":".

(** ** A sample configuration

    A source, a target and a trusted third repository, with clients and
    packages, on which the theorems are read. *)

Definition sample_listed (url : string) (l : list Repo) : bool :=
  existsb (fun x => String.eqb (Url x) url) l.

(** Modelled from the spec: [utils.ShouldIgnoreRepo], the trust
    classifier, a pure function of the repository URL and of the two
    configured lists; here a repository is ignored when the ignore list
    names it and the sync list does not. *)
Definition sample_ShouldIgnoreRepo (repo : Repo) (syncTrusted ignoreTrusted : list Repo)
  : bool :=
  sample_listed (Url repo) ignoreTrusted && negb (sample_listed (Url repo) syncTrusted).

(** Modelled from the spec: [utils.GetRepoLocationId], which maps a
    repository URL to an opaque identifier; here its length. *)
Definition sample_GetRepoLocationId (url : string) : N := N.of_nat (String.length url).

(** a file system that refuses nothing *)
Definition sample_env : Env :=
  mkEnv sample_ShouldIgnoreRepo sample_GetRepoLocationId (fun _ => false).

Definition sample_source_url : string := "https://source.example/charts".
Definition sample_target_url : string := "https://target.example/charts".
Definition sample_trusted_url : string := "https://trusted.example/library".

Definition sample_source : option Repo := Some (mkRepo sample_source_url Kind_HELM).
Definition sample_target : option Repo := Some (mkRepo sample_target_url Kind_CHARTMUSEUM).
Definition sample_oci_target : option Repo :=
  Some (mkRepo "https://registry.example:5000/project/charts" Kind_OCI).
Definition sample_ignoreTrusted : list Repo := [mkRepo sample_trusted_url Kind_HELM].

(** the target-side client: the fetch of [etcd] meets a transport error *)
Definition sample_target_client : ChartsReader :=
  mkChartsReader (fun name version =>
    if String.eqb name "etcd" then Err (ClientError "transport error")
    else Ok ("target:" ++ name ++ "-" ++ version)).

(** a target-side client that always answers *)
Definition sample_mirror_client : ChartsReader :=
  mkChartsReader (fun name version => Ok ("target:" ++ name ++ "-" ++ version)).

Definition sample_trusted_client : ChartsReader :=
  mkChartsReader (fun name version => Ok ("trusted:" ++ name ++ "-" ++ version)).

Definition sample_clients : gmap N ChartsReader :=
  {[ sample_GetRepoLocationId sample_trusted_url := sample_trusted_client ]}.

Definition sample_dep (name version repository : string) : Dependency :=
  mkDependency name version repository "" None false None "".

(** the declarations of the sample package, with version ranges *)
Definition sample_declarations : slice Dependency :=
  Some [sample_dep "redis" "17.x.x" sample_source_url;
        sample_dep "etcd" "1.x.x" sample_source_url;
        sample_dep "common" "2.x.x" sample_trusted_url].

(** its lock entries, with the versions resolved *)
Definition sample_locked : slice Dependency :=
  Some [sample_dep "redis" "17.0.0" sample_source_url;
        sample_dep "etcd" "1.2.3" sample_source_url;
        sample_dep "common" "2.2.4" sample_trusted_url].

Definition sample_metadata : Doc :=
  mkDoc "" "" "app" "0.1.0" "v2" sample_declarations.

Definition sample_lock : Doc :=
  mkDoc "2023-01-01T00:00:00Z" "sha256:0000" "" "" "" sample_locked.

(** a Modern package with its lock file and an archive left in [charts] *)
Definition sample_package : Package :=
  mkPackage (<[ChartLockFilename := Document sample_lock]>
               {[ChartFilename := Document sample_metadata]})
            (Some {["old-0.0.1.tgz" := "old"]}).


(** the same package with a malformed lock file *)
Definition sample_broken_package : Package :=
  mkPackage (<[ChartLockFilename := Unparseable]>
               {[ChartFilename := Document sample_metadata]})
            (Some {["old-0.0.1.tgz" := "old"]}).

(** a package that holds the lock files of both generations *)
Definition sample_mixed_package : Package :=
  mkPackage (<[RequirementsLockFilename := Document sample_lock]>
               (<[ChartLockFilename := Document sample_lock]>
                  {[ChartFilename := Document sample_metadata]}))
            None.

Definition sample_state (p : Package) : State := mkState p [] [].

(** two entries that differ in their [tags]: none, and an empty list *)
Definition sample_untagged : Dependency :=
  mkDependency "redis" "17.0.0" sample_source_url "" None false None "".
Definition sample_empty_tags : Dependency :=
  mkDependency "redis" "17.0.0" sample_source_url "" (Some []) false None "".


(** the sample call on the package [p]: the target-side client fails on
    [etcd], the third repository is trusted and ignored *)
Definition sample_run (p : Package) : State * outcome unit :=
  BuildDependencies sample_env sample_target_client sample_source sample_target
    sample_clients [] sample_ignoreTrusted (sample_state p).

(** the same call with a target-side client that always answers *)
Definition sample_good_run (p : Package) : State * outcome unit :=
  BuildDependencies sample_env sample_mirror_client sample_source sample_target
    sample_clients [] sample_ignoreTrusted (sample_state p).


(** a store that holds the two sample entries, at the addresses 0 and 1 *)
Definition sample_store : State :=
  mkState (mkPackage ∅ None) [sample_untagged; sample_empty_tags] [].

(** ** The steps of a call and the way it ends *)

(** the errors of the steps that come before the materializer: a refused
    operation of the file system, a file that is no YAML document, alone
    or under the annotation of the function that read it, and a target
    URL that [url.Parse] refuses *)
Definition step_error (e : error) : Prop :=
  match e with
  | IOError _ | YAMLError _ | URLError _ => True
  | Annotated (Unmarshaling f | ErrorUnmarshaling f) (YAMLError f') => f = f'
  | _ => False
  end.

(** an error the materializer records for a dependency *)
Definition gathered (e : error) : Prop :=
  match e with
  | Annotated (FetchingChart _ | CopyingChart _ _) _ => True
  | _ => False
  end.

(** the files outside [S] are in [st'] what they are in [st] *)
Definition frame (S : list string) (st st' : State) : Prop :=
  forall f, f ∉ S -> files (package st') !! f = files (package st) !! f.

(** [m] is a step: it writes no file outside [S], fetches nothing,
    answers a value in [Q] and fails with a step error only *)
Definition step {A : Type} (S : list string) (Q : A -> Prop) (m : M A) : Prop :=
  forall st,
    frame S st (m st).1
    /\ fetches (trace (m st).1) = fetches (trace st)
    /\ match (m st).2 with
       | Done a => Q a
       | Failed e => step_error e
       | Panic => True
       end.

(** [m] is a call made of steps and then the materializer: it writes no
    file outside [S], and an error it returns is a step error, nothing
    fetched by then, or the aggregate of the errors gathered *)
Definition call (S : list string) (m : M unit) : Prop :=
  forall st,
    frame S st (m st).1
    /\ match (m st).2 with
       | Failed e =>
           (step_error e /\ fetches (trace (m st).1) = fetches (trace st))
           \/ (exists errs, e = MultiError errs /\ errs <> [] /\ Forall gathered errs)
       | _ => True
       end.

(** the four files of a package that hold dependencies *)
Definition dependency_files : list string :=
  [ChartFilename; RequirementsFilename; ChartLockFilename; RequirementsLockFilename].

(** ** More sample packages *)


Definition sample_legacy_metadata : Doc :=
  mkDoc "" "" "app" "0.1.0" "v1" None.

Definition sample_requirements : Doc :=
  mkDoc "" "" "" "" "" sample_declarations.

(** a Legacy package with its requirements and no lock file *)
Definition sample_legacy_package : Package :=
  mkPackage (<[RequirementsFilename := Document sample_requirements]>
               {[ChartFilename := Document sample_legacy_metadata]})
            (Some {["old-0.0.1.tgz" := "old"]}).

(** the same package with its lock file *)
Definition sample_legacy_locked_package : Package :=
  mkPackage (<[RequirementsLockFilename := Document sample_lock]>
               (files sample_legacy_package))
            (charts sample_legacy_package).

(** ** [GetChartDependencies] *)

(** [GetChartDependencies], on the chart uncompressed at [chartPath]:
    the statements that follow the call of [utils.Untar].  The temporary
    directory, [utils.Untar] and the deferred removal, which belong to
    the operating system and to [internal/utils], are not modelled. *)
Definition GetChartDependencies (E : Env) : M (slice ptr) :=
  lock ← GetChartLock E;
  match lock with
  | Some lock => mret (LockDependencies lock)
  | None =>
      metadata ← LoadChartfile E ChartFilename;
      match MetadataDependencies metadata with
      | Some deps => mret (Some deps)
      | None => mret None
      end
  end.


(** a package whose Legacy lock file is sound and whose Modern one is not *)
Definition sample_half_broken_package : Package :=
  mkPackage (<[RequirementsLockFilename := Document sample_lock]>
               (<[ChartLockFilename := Unparseable]>
                  {[RequirementsFilename := Document sample_requirements]}))
            None.

(** ** Target URLs without a scheme *)

(** a byte of the text after the colon: printable, no [?] and no [#] *)
Definition opaque_byte (c : ascii) : bool :=
  printable c && negb (Ascii.eqb c "?") && negb (Ascii.eqb c "#").

(** the text after the colon of [host:port/path]: it does not start with
    a slash *)
Definition opaque_text (rest : string) : bool :=
  negb (GoString.has_prefix "/" rest) && GoString.forallb opaque_byte rest.

(** a byte of a location without a scheme and without a port *)
Definition bare_byte (c : ascii) : bool := unreserved c || Ascii.eqb c "/".

(** [host/path], with no scheme, no port and nothing to escape *)
Definition bare_location (u : string) : bool :=
  match u with
  | EmptyString => false
  | String c r => unreserved c && GoString.forallb bare_byte r
  end.

(** ** Digests *)

(** a lower-case hexadecimal digit *)
Definition lower_hex (c : ascii) : bool :=
  GoString.is_digit c || GoString.between "a" "f" c.

(** a file system that refuses to write the Modern lock file *)
Definition sample_refusing_env : Env :=
  mkEnv sample_ShouldIgnoreRepo sample_GetRepoLocationId
        (fun op => match op with
                   | OpWriteFile file => String.eqb file ChartLockFilename
                   | _ => false
                   end).

(** * The URL of the target, as dependencies name it *)

(** * Strings *)

Ltac each_byte c := destruct c as [[] [] [] [] [] [] [] []]; vm_compute; try done.

Lemma append_nil (b : string) : "" ++ b = b.
Proof. reflexivity. Qed.

Lemma append_cons (x : ascii) (a b : string) : String x a ++ b = String x (a ++ b).
Proof. reflexivity. Qed.

(** push the appends of a text under its leading bytes *)
Ltac text := rewrite ?append_cons, ?append_nil.

Lemma append_assoc (a b c : string) : (a ++ b) ++ c = a ++ (b ++ c).
Proof. induction a as [|x a IH]; text; [done|]. by rewrite IH. Qed.

Lemma append_empty_r (a : string) : a ++ "" = a.
Proof. induction a as [|x a IH]; text; [done|]. by rewrite IH. Qed.

Lemma forallb_append (p : ascii -> bool) (a b : string) :
  GoString.forallb p (a ++ b) = GoString.forallb p a && GoString.forallb p b.
Proof. induction a as [|x a IH]; text; simpl; [done|]. rewrite IH. by destruct (p x). Qed.

Lemma forallb_impl (p q : ascii -> bool) (s : string) :
  (forall c, p c = true -> q c = true) ->
  GoString.forallb p s = true -> GoString.forallb q s = true.
Proof.
  intros Hpq. induction s as [|x s IH]; simpl; [done|].
  intros [Hx Hs]%andb_prop. rewrite (Hpq _ Hx). by apply IH.
Qed.

Lemma cut_without sep s : without sep s = true -> GoString.cut sep s = None.
Proof.
  induction s as [|x s IH]; simpl; [done|].
  intros [Hx Hs]%andb_prop. apply negb_true_iff in Hx. rewrite Hx.
  by rewrite (IH Hs).
Qed.

Lemma cut_last_without sep s : without sep s = true -> GoString.cut_last sep s = None.
Proof.
  induction s as [|x s IH]; simpl; [done|].
  intros [Hx Hs]%andb_prop. apply negb_true_iff in Hx. rewrite Hx.
  by rewrite (IH Hs).
Qed.

Lemma count_without sep s : without sep s = true -> GoString.count sep s = 0.
Proof.
  induction s as [|x s IH]; simpl; [done|].
  intros [Hx Hs]%andb_prop. apply negb_true_iff in Hx. rewrite Hx.
  by rewrite (IH Hs).
Qed.

Lemma cut_append sep a b :
  without sep a = true -> GoString.cut sep (a ++ String sep b) = Some (a, b).
Proof.
  induction a as [|x a IH]; text; simpl.
  - by rewrite Ascii.eqb_refl.
  - intros [Hx Hs]%andb_prop. apply negb_true_iff in Hx. rewrite Hx.
    by rewrite (IH Hs).
Qed.

Lemma cut_last_append sep a b :
  without sep b = true -> GoString.cut_last sep (a ++ String sep b) = Some (a, b).
Proof.
  intros Hb. induction a as [|x a IH]; text; simpl.
  - by rewrite (cut_last_without _ _ Hb), Ascii.eqb_refl.
  - by rewrite IH.
Qed.

Lemma without_append sep a b :
  without sep (a ++ b) = without sep a && without sep b.
Proof. apply forallb_append. Qed.

(** * The URL library on plain text *)

Lemma unescape_check_kept_host s :
  GoString.forallb (kept URL.encodeHost) s = true ->
  URL.unescape_check URL.encodeHost s = None.
Proof.
  induction s as [|x s IH]; simpl; [done|].
  intros [Hx Hs]%andb_prop. specialize (IH Hs).
  unfold kept in Hx. apply andb_prop in Hx as [Hesc Hpct].
  apply negb_true_iff in Hesc, Hpct. rewrite Hpct, Hesc.
  rewrite andb_false_r. by destruct (Ascii.eqb x "+").
Qed.

Lemma unescape_check_kept_path s :
  GoString.forallb (kept URL.encodePath) s = true ->
  URL.unescape_check URL.encodePath s = None.
Proof.
  induction s as [|x s IH]; simpl; [done|].
  intros [Hx Hs]%andb_prop. specialize (IH Hs).
  unfold kept in Hx. apply andb_prop in Hx as [Hesc Hpct].
  apply negb_true_iff in Hpct. rewrite Hpct.
  by destruct (Ascii.eqb x "+").
Qed.

Lemma unescape_decode_kept mode s :
  URL.encoding_eqb mode URL.encodeQueryComponent = false ->
  GoString.forallb (kept mode) s = true ->
  URL.unescape_decode mode s = s.
Proof.
  intros Hmode. induction s as [|x s IH]; simpl; [done|].
  intros [Hx Hs]%andb_prop. specialize (IH Hs).
  unfold kept in Hx. apply andb_prop in Hx as [Hesc Hpct].
  apply negb_true_iff in Hpct. rewrite Hpct, Hmode, IH.
  destruct (Ascii.eqb x "+") eqn:Hplus; [|done].
  by apply Ascii.eqb_eq in Hplus as ->.
Qed.

Lemma escape_kept mode s :
  GoString.forallb (kept mode) s = true -> URL.escape s mode = s.
Proof.
  unfold URL.escape. induction s as [|x s IH]; simpl; [done|].
  intros [Hx Hs]%andb_prop. rewrite (IH Hs).
  unfold kept in Hx. apply andb_prop in Hx as [Hesc Hpct].
  apply negb_true_iff in Hesc. unfold URL.escape_byte. by rewrite Hesc.
Qed.

Lemma unescape_kept_host s :
  GoString.forallb (kept URL.encodeHost) s = true ->
  URL.unescape s URL.encodeHost = Ok s.
Proof.
  intros Hs. unfold URL.unescape.
  by rewrite (unescape_check_kept_host _ Hs), (unescape_decode_kept URL.encodeHost _ eq_refl Hs).
Qed.

Lemma unescape_kept_path s :
  GoString.forallb (kept URL.encodePath) s = true ->
  URL.unescape s URL.encodePath = Ok s.
Proof.
  intros Hs. unfold URL.unescape.
  by rewrite (unescape_check_kept_path _ Hs), (unescape_decode_kept URL.encodePath _ eq_refl Hs).
Qed.

(** ** The scheme *)

Lemma scan_scheme_bytes i s rest :
  GoString.forallb scheme_byte s = true ->
  URL.scan (S i) (s ++ String ":" rest) = URL.Found s rest.
Proof.
  revert i. induction s as [|x s IH]; intros i; text; simpl; [done|].
  intros [Hx Hs]%andb_prop. rewrite (IH _ Hs). unfold scheme_byte in Hx.
  destruct (GoString.is_alpha x); [done|]. simpl in Hx. by rewrite Hx.
Qed.

Lemma getScheme_valid scheme rest :
  valid_scheme scheme = true ->
  URL.getScheme (scheme ++ String ":" rest) = Ok (scheme, rest).
Proof.
  destruct scheme as [|x s]; [done|]. simpl.
  intros [Hx Hs]%andb_prop. unfold URL.getScheme. text. simpl.
  by rewrite Hx, (scan_scheme_bytes 0 s rest Hs).
Qed.

Lemma to_lower_not_empty s :
  GoString.is_empty (GoString.to_lower s) = GoString.is_empty s.
Proof. by destruct s. Qed.

(** ** Bytes *)

Lemma scheme_byte_printable c : scheme_byte c = true -> printable c = true.
Proof. each_byte c. Qed.
Lemma scheme_byte_not_hash c : scheme_byte c = true -> negb (Ascii.eqb c "#") = true.
Proof. each_byte c. Qed.
Lemma alpha_scheme_byte c : GoString.is_alpha c = true -> scheme_byte c = true.
Proof. each_byte c. Qed.

Lemma unreserved_printable c : unreserved c = true -> printable c = true.
Proof. each_byte c. Qed.
Lemma unreserved_not c sep :
  unreserved sep = false -> unreserved c = true -> negb (Ascii.eqb c sep) = true.
Proof.
  intros Hsep Hc. apply negb_true_iff, Ascii.eqb_neq. intros ->. congruence.
Qed.
Lemma unreserved_kept_host c : unreserved c = true -> kept URL.encodeHost c = true.
Proof. each_byte c. Qed.

Lemma digit_printable c : GoString.is_digit c = true -> printable c = true.
Proof. each_byte c. Qed.
Lemma digit_unreserved c : GoString.is_digit c = true -> unreserved c = true.
Proof. each_byte c. Qed.

Lemma path_byte_printable c : path_byte c = true -> printable c = true.
Proof. each_byte c. Qed.
Lemma path_byte_not_hash c : path_byte c = true -> negb (Ascii.eqb c "#") = true.
Proof. each_byte c. Qed.
Lemma path_byte_not_question c : path_byte c = true -> negb (Ascii.eqb c "?") = true.
Proof. each_byte c. Qed.
Lemma path_byte_kept c : path_byte c = true -> kept URL.encodePath c = true.
Proof. each_byte c. Qed.

(** ** The authority *)

Lemma authority_byte_printable c : authority_byte c = true -> printable c = true.
Proof. each_byte c. Qed.
Lemma authority_byte_not_hash c : authority_byte c = true -> negb (Ascii.eqb c "#") = true.
Proof. each_byte c. Qed.
Lemma authority_byte_not_question c :
  authority_byte c = true -> negb (Ascii.eqb c "?") = true.
Proof. each_byte c. Qed.
Lemma authority_byte_not_slash c : authority_byte c = true -> negb (Ascii.eqb c "/") = true.
Proof. each_byte c. Qed.
Lemma authority_byte_not_at c : authority_byte c = true -> negb (Ascii.eqb c "@") = true.
Proof. each_byte c. Qed.
Lemma authority_byte_kept c : authority_byte c = true -> kept URL.encodeHost c = true.
Proof. each_byte c. Qed.
Lemma unreserved_authority_byte c : unreserved c = true -> authority_byte c = true.
Proof. each_byte c. Qed.
Lemma unreserved_not_colon c : unreserved c = true -> negb (Ascii.eqb c ":") = true.
Proof. each_byte c. Qed.
Lemma unreserved_not_bracket c : unreserved c = true -> Ascii.eqb "[" c = false.
Proof. each_byte c. Qed.
Lemma digit_not_colon c : GoString.is_digit c = true -> negb (Ascii.eqb c ":") = true.
Proof. each_byte c. Qed.
Lemma digit_authority_byte c : GoString.is_digit c = true -> authority_byte c = true.
Proof. each_byte c. Qed.

Lemma port_bytes port :
  URL.validOptionalPort port = true -> GoString.forallb authority_byte port = true.
Proof.
  destruct port as [|x d]; [done|]. simpl.
  intros [Hx Hd]%andb_prop. apply Ascii.eqb_eq in Hx as ->. simpl.
  by apply (forallb_impl _ _ _ digit_authority_byte).
Qed.

Lemma authority_bytes host port :
  plain_host host = true -> URL.validOptionalPort port = true ->
  GoString.forallb authority_byte (host ++ port) = true.
Proof.
  intros [_ Hhost]%andb_prop Hport. rewrite forallb_append.
  rewrite (forallb_impl _ _ _ unreserved_authority_byte Hhost).
  by rewrite (port_bytes _ Hport).
Qed.

Lemma parseHost_plain host port :
  plain_host host = true -> URL.validOptionalPort port = true ->
  URL.parseHost (host ++ port) = Ok (host ++ port).
Proof.
  intros Hhost Hport. pose proof (authority_bytes _ _ Hhost Hport) as Hbytes.
  unfold URL.parseHost.
  rewrite (unescape_kept_host _ (forallb_impl _ _ _ authority_byte_kept Hbytes)).
  apply andb_prop in Hhost as [Hne Hhost].
  destruct host as [|x host]; [done|]. simpl in Hhost.
  apply andb_prop in Hhost as [Hx Hhost].
  assert (GoString.has_prefix "[" (String x host ++ port) = false) as ->.
  { text. cbn [GoString.has_prefix]. by rewrite (unreserved_not_bracket _ Hx). }
  assert (without ":" (String x host) = true) as Hcolon.
  { unfold without. simpl. rewrite (unreserved_not_colon _ Hx). simpl.
    by apply (forallb_impl _ _ _ unreserved_not_colon). }
  destruct port as [|y d].
  - rewrite append_empty_r. by rewrite (cut_last_without _ _ Hcolon).
  - simpl in Hport. apply andb_prop in Hport as [Hy Hd].
    apply Ascii.eqb_eq in Hy as ->.
    rewrite (cut_last_append ":" (String x host) d
               (forallb_impl _ _ _ digit_not_colon Hd)).
    simpl. by rewrite Hd.
Qed.

Lemma parseAuthority_plain host port :
  plain_host host = true -> URL.validOptionalPort port = true ->
  URL.parseAuthority (host ++ port) = Ok (None, host ++ port).
Proof.
  intros Hhost Hport. pose proof (authority_bytes _ _ Hhost Hport) as Hbytes.
  unfold URL.parseAuthority.
  rewrite (cut_last_without "@" _ (forallb_impl _ _ _ authority_byte_not_at Hbytes)).
  by rewrite (parseHost_plain _ _ Hhost Hport).
Qed.

(** ** The path *)

Lemma path_bytes path :
  plain_path path = true -> GoString.forallb path_byte path = true.
Proof.
  destruct path as [|x r]; [done|]. simpl.
  intros [Hx Hr]%andb_prop. apply Ascii.eqb_eq in Hx as ->. by rewrite Hr.
Qed.

Lemma setPath_plain (u : URL.URL) (path : string) :
  plain_path path = true ->
  URL.setPath u path
  = Ok (URL.mkURL (URL.Scheme u) (URL.Opaque u) (URL.User u) (URL.Host u) path ""
                  (URL.OmitHost u) (URL.ForceQuery u) (URL.RawQuery u)
                  (URL.Fragment u) (URL.RawFragment u)).
Proof.
  intros Hpath%path_bytes. unfold URL.setPath.
  pose proof (forallb_impl _ _ _ path_byte_kept Hpath) as Hkept.
  rewrite (unescape_kept_path _ Hkept), (escape_kept _ _ Hkept).
  by rewrite String.eqb_refl.
Qed.

Lemma cut_path host port path :
  plain_host host = true -> URL.validOptionalPort port = true ->
  plain_path path = true ->
  match GoString.cut "/" (host ++ port ++ path) with
  | Some (a, b) => (a, String "/" b)
  | None => (host ++ port ++ path, "")
  end = (host ++ port, path).
Proof.
  intros Hhost Hport Hpath. pose proof (authority_bytes _ _ Hhost Hport) as Hbytes.
  pose proof (forallb_impl _ _ _ authority_byte_not_slash Hbytes) as Hslash.
  rewrite <- append_assoc.
  destruct path as [|x r].
  - rewrite append_empty_r. by rewrite (cut_without _ _ Hslash).
  - simpl in Hpath. apply andb_prop in Hpath as [Hx _].
    apply Ascii.eqb_eq in Hx as ->. by rewrite (cut_append _ _ _ Hslash).
Qed.

(** ** [url.Parse] and [String] on a well-formed absolute URL *)

Section Plain.
Variables scheme host port path : string.
Hypothesis Hscheme : valid_scheme scheme = true.
Hypothesis Hhost : plain_host host = true.
Hypothesis Hport : URL.validOptionalPort port = true.
Hypothesis Hpath : plain_path path = true.

Lemma scheme_bytes : GoString.forallb scheme_byte scheme = true.
Proof.
  destruct scheme as [|x s]; [done|]. simpl in *.
  apply andb_prop in Hscheme as [Hx Hs]. by rewrite (alpha_scheme_byte _ Hx).
Qed.

Lemma rest_bytes (p : ascii -> bool) :
  (forall c, authority_byte c = true -> p c = true) ->
  (forall c, path_byte c = true -> p c = true) ->
  GoString.forallb p (host ++ port ++ path) = true.
Proof.
  intros Ha Hp. rewrite <- append_assoc, forallb_append.
  rewrite (forallb_impl _ _ _ Ha (authority_bytes _ _ Hhost Hport)).
  by rewrite (forallb_impl _ _ _ Hp (path_bytes _ Hpath)).
Qed.

Lemma url_bytes (p : ascii -> bool) :
  (forall c, scheme_byte c = true -> p c = true) ->
  (forall c, authority_byte c = true -> p c = true) ->
  (forall c, path_byte c = true -> p c = true) ->
  GoString.forallb p (scheme ++ "://" ++ host ++ port ++ path) = true.
Proof.
  intros Hs Ha Hp. rewrite forallb_append.
  rewrite (forallb_impl _ _ _ Hs scheme_bytes). text. simpl.
  rewrite (Ha ":"%char eq_refl), (Hp "/"%char eq_refl). simpl.
  by apply rest_bytes.
Qed.

Lemma parse_plain :
  URL.parse (scheme ++ "://" ++ host ++ port ++ path)
  = Ok (URL.mkURL (GoString.to_lower scheme) "" None (host ++ port) path ""
                  false false "" "" "").
Proof.
  unfold URL.parse.
  assert (URL.stringContainsCTLByte (scheme ++ "://" ++ host ++ port ++ path) = false)
    as ->.
  { unfold URL.stringContainsCTLByte. apply negb_false_iff.
    apply (url_bytes printable);
      [apply scheme_byte_printable | apply authority_byte_printable
      | apply path_byte_printable]. }
  assert ((scheme ++ "://" ++ host ++ port ++ path =? "*")%string = false) as ->.
  { apply String.eqb_neq. intros Heq.
    destruct scheme as [|x [|y s]]; [done| |]; revert Heq; text; intros [=]. }
  text. rewrite (getScheme_valid _ _ Hscheme).
  pose proof (rest_bytes _ authority_byte_not_question path_byte_not_question) as Hq.
  assert (without "?" (String "/" (String "/" (host ++ port ++ path))) = true) as Hq'.
  { unfold without. simpl. exact Hq. }
  rewrite (count_without _ _ Hq'), andb_false_r, (cut_without _ _ Hq').
  cbv beta iota zeta. rewrite to_lower_not_empty.
  assert (GoString.is_empty scheme = false) as ->.
  { by destruct scheme. }
  simpl GoString.has_prefix. simpl negb. cbv beta iota. simpl andb. simpl orb.
  cbv beta iota. simpl GoString.drop.
  rewrite (cut_path _ _ _ Hhost Hport Hpath).
  rewrite (parseAuthority_plain _ _ Hhost Hport).
  by rewrite (setPath_plain _ _ Hpath).
Qed.

Lemma Parse_plain :
  URL.Parse (scheme ++ "://" ++ host ++ port ++ path)
  = Ok (URL.mkURL (GoString.to_lower scheme) "" None (host ++ port) path ""
                  false false "" "" "").
Proof.
  unfold URL.Parse.
  rewrite (cut_without "#" _
             (url_bytes _ scheme_byte_not_hash authority_byte_not_hash
                        path_byte_not_hash)).
  by rewrite parse_plain.
Qed.

Lemma String_plain (scheme' : string) :
  GoString.is_empty scheme' = false ->
  URL.String_ (URL.mkURL scheme' "" None (host ++ port) path "" false false "" "" "")
  = scheme' ++ "://" ++ host ++ port ++ path.
Proof.
  intros Hne. unfold URL.String_, URL.EscapedPath.
  cbn [URL.Scheme URL.Opaque URL.User URL.Host URL.Path URL.RawPath URL.OmitHost
       URL.ForceQuery URL.RawQuery URL.Fragment URL.RawFragment].
  rewrite Hne. change (GoString.is_empty "") with true.
  assert (GoString.is_empty (host ++ port) = false) as ->.
  { destruct host; [done|]. by text. }
  cbn [negb andb orb]. cbv beta iota zeta.
  rewrite (escape_kept _ _ (forallb_impl _ _ _ authority_byte_kept
                              (authority_bytes _ _ Hhost Hport))).
  rewrite (escape_kept _ _ (forallb_impl _ _ _ path_byte_kept (path_bytes _ Hpath))).
  assert ((path =? "*")%string = false) as ->.
  { destruct path as [|x r]; [done|]. simpl in Hpath.
    apply andb_prop in Hpath as [Hx _]. apply Ascii.eqb_eq in Hx as ->. done. }
  assert (negb (GoString.is_empty path) && negb (GoString.has_prefix "/" path) = false)
    as ->.
  { destruct path as [|x r]; [done|]. simpl in Hpath.
    apply andb_prop in Hpath as [Hx _]. apply Ascii.eqb_eq in Hx as ->. done. }
  cbn [negb andb orb]. cbv beta iota zeta.
  assert (GoString.is_empty (((scheme' ++ ":") ++ "//") ++ host ++ port) = false) as ->.
  { destruct scheme'; [done|]. by text. }
  cbn [negb andb orb]. cbv beta iota zeta.
  rewrite !append_assoc. by text.
Qed.

End Plain.





Open Scope list_scope.

(** * The monad *)

Lemma bind_run {A B : Type} (m : M A) (f : A -> M B) (st : State) :
  (m ≫= f) st =
  match m st with
  | (st', Done a) => f a st'
  | (st', Failed e) => (st', Failed e)
  | (st', Panic) => (st', Panic)
  end.
Proof. reflexivity. Qed.

Lemma ret_bind {A B : Type} (a : A) (f : A -> M B) (st : State) :
  (mret a ≫= f) st = f a st.
Proof. reflexivity. Qed.

Lemma bind_Done {A B : Type} (m : M A) (f : A -> M B) (st st1 : State) (a : A) :
  m st = (st1, Done a) -> (m ≫= f) st = f a st1.
Proof. intros H. rewrite bind_run, H. reflexivity. Qed.

Lemma bind_Failed {A B : Type} (m : M A) (f : A -> M B) (st st1 : State) (e : error) :
  m st = (st1, Failed e) -> (m ≫= f) st = (st1, Failed e).
Proof. intros H. rewrite bind_run, H. reflexivity. Qed.

Lemma bind_Panic {A B : Type} (m : M A) (f : A -> M B) (st st1 : State) :
  m st = (st1, Panic) -> (m ≫= f) st = (st1, Panic).
Proof. intros H. rewrite bind_run, H. reflexivity. Qed.

Lemma log_log (evs1 evs2 : list Event) (st : State) :
  log evs2 (log evs1 st) = log (evs1 ++ evs2) st.
Proof. unfold log. simpl. by rewrite app_assoc. Qed.

Lemma log_nil (st : State) : log [] st = st.
Proof. destruct st. unfold log. simpl. by rewrite app_nil_r. Qed.

Lemma io_run (E : Env) (op : IOOp) (st : State) :
  io E op st =
  (log [IO op] st, if faulty E op then Failed (IOError op) else Done tt).
Proof. unfold io, emit. rewrite bind_run. by destruct (faulty E op). Qed.

Lemma FileExists_run (E : Env) (file : string) (st : State) :
  FileExists E file st =
  (log [IO (OpStat file)] st,
   if faulty E (OpStat file) then Failed (IOError (OpStat file))
   else Done (bool_decide (is_Some (files (package st) !! file)))).
Proof.
  unfold FileExists. rewrite bind_run, io_run.
  by destruct (faulty E (OpStat file)).
Qed.

Lemma GetLockAPIVersion_run (E : Env) (st : State) :
  GetLockAPIVersion E st =
  (log (lockAPIVersion E (files (package st))).1 st,
   (lockAPIVersion E (files (package st))).2).
Proof.
  unfold GetLockAPIVersion, lockAPIVersion.
  rewrite bind_run, FileExists_run.
  destruct (faulty E (OpStat RequirementsLockFilename)); [done|].
  destruct (bool_decide (is_Some (files (package st) !! RequirementsLockFilename))); [done|].
  rewrite bind_run, FileExists_run. simpl package.
  destruct (faulty E (OpStat ChartLockFilename)); [by rewrite log_log|].
  destruct (bool_decide (is_Some (files (package st) !! ChartLockFilename)));
    by rewrite log_log.
Qed.

Lemma ReadFile_run (E : Env) (file : string) (st : State) :
  ReadFile E file st =
  (log [IO (OpReadFile file)] st,
   if faulty E (OpReadFile file) then Failed (IOError (OpReadFile file))
   else match files (package st) !! file with
        | Some f => Done f
        | None => Failed (IOError (OpReadFile file))
        end).
Proof.
  unfold ReadFile. rewrite bind_run, io_run.
  destruct (faulty E (OpReadFile file)); [done|].
  rewrite bind_run. simpl.
  by destruct (files (package st) !! file).
Qed.

Lemma WriteFile_run (E : Env) (file : string) (d : Doc) (st : State) :
  WriteFile E file d st =
  if faulty E (OpWriteFile file)
  then (log [IO (OpWriteFile file)] st, Failed (IOError (OpWriteFile file)))
  else (mkState (mkPackage (<[file := Document d]> (files (package st)))
                           (charts (package st)))
                (heap st) (trace st ++ [IO (OpWriteFile file)]), Done tt).
Proof.
  unfold WriteFile. rewrite bind_run, io_run.
  by destruct (faulty E (OpWriteFile file)).
Qed.

Lemma RemoveAll_charts_run (E : Env) (st : State) :
  RemoveAll_charts E st =
  if faulty E OpRemoveAll
  then (log [IO OpRemoveAll] st, Failed (IOError OpRemoveAll))
  else (mkState (mkPackage (files (package st)) None)
                (heap st) (trace st ++ [IO OpRemoveAll]), Done tt).
Proof.
  unfold RemoveAll_charts. rewrite bind_run, io_run.
  by destruct (faulty E OpRemoveAll).
Qed.

Lemma Mkdir_charts_run (E : Env) (st : State) :
  Mkdir_charts E st =
  if faulty E OpMkdir
  then (log [IO OpMkdir] st, Failed (IOError OpMkdir))
  else match charts (package st) with
       | Some _ => (log [IO OpMkdir] st, Failed (IOError OpMkdir))
       | None => (mkState (mkPackage (files (package st)) (Some ∅))
                          (heap st) (trace st ++ [IO OpMkdir]), Done tt)
       end.
Proof.
  unfold Mkdir_charts. rewrite bind_run, io_run.
  destruct (faulty E OpMkdir); [done|].
  rewrite bind_run. simpl.
  by destruct (charts (package st)).
Qed.

Lemma CopyFile_run (E : Env) (dst archive : string) (st : State) :
  CopyFile E dst archive st =
  if faulty E (OpCopyFile dst)
  then (log [IO (OpCopyFile dst)] st, Failed (IOError (OpCopyFile dst)))
  else match charts (package st) with
       | Some folder =>
           (mkState (mkPackage (files (package st)) (Some (<[dst := archive]> folder)))
                    (heap st) (trace st ++ [IO (OpCopyFile dst)]), Done tt)
       | None => (log [IO (OpCopyFile dst)] st, Failed (IOError (OpCopyFile dst)))
       end.
Proof.
  unfold CopyFile. rewrite bind_run, io_run.
  destruct (faulty E (OpCopyFile dst)); [done|].
  rewrite bind_run. simpl.
  by destruct (charts (package st)).
Qed.

(** * The store *)

Lemma values_cons (h : list Dependency) (p : ptr) (ps : list ptr) :
  values h (p :: ps) =
  match h !! p with
  | Some d => match values h ps with Some ds => Some (d :: ds) | None => None end
  | None => None
  end.
Proof.
  unfold values. simpl. destruct (h !! p); simpl; [|done].
  by destruct (mapM _ ps).
Qed.

Lemma values_length (h : list Dependency) (ps : list ptr) (ds : list Dependency) :
  values h ps = Some ds -> length ds = length ps.
Proof.
  revert ds. induction ps as [|p ps IH]; intros ds.
  - intros [= <-]. done.
  - rewrite values_cons. destruct (h !! p); [|done].
    destruct (values h ps) eqn:Hv; [|done]. intros [= <-]. simpl. f_equal. by apply IH.
Qed.

Lemma values_lookup (h : list Dependency) (ps : list ptr) (ds : list Dependency)
    (i : nat) (p : ptr) :
  values h ps = Some ds -> ps !! i = Some p -> ds !! i = h !! p /\ is_Some (h !! p).
Proof.
  revert ds i. induction ps as [|q ps IH]; intros ds i; [done|].
  rewrite values_cons. destruct (h !! q) eqn:Hq; [|done].
  destruct (values h ps) eqn:Hv; [|done]. intros [= <-].
  destruct i as [|i]; simpl.
  - intros [= <-]. rewrite Hq. eauto.
  - intros Hi. by apply IH.
Qed.

Lemma values_ext (h h' : list Dependency) (ps : list ptr) :
  (forall p, p ∈ ps -> h' !! p = h !! p) -> values h' ps = values h ps.
Proof.
  induction ps as [|p ps IH]; intros Hext; [done|].
  rewrite !values_cons, Hext by left.
  rewrite IH; [done|]. intros q Hq. apply Hext. by right.
Qed.

Lemma values_app_l (h l : list Dependency) (ps : list ptr) (ds : list Dependency) :
  values h ps = Some ds -> values (h ++ l) ps = Some ds.
Proof.
  intros Hv. rewrite <- Hv. apply values_ext. intros p Hp.
  apply list_elem_of_lookup in Hp as [i Hi].
  destruct (values_lookup _ _ _ _ _ Hv Hi) as [_ [d Hd]].
  rewrite Hd. apply lookup_app_l_Some. done.
Qed.

Lemma values_seq_app (h l : list Dependency) :
  values (h ++ l) (seq (length h) (length l)) = Some l.
Proof.
  revert h. induction l as [|d l IH]; intros h; [done|].
  simpl seq. rewrite values_cons.
  rewrite lookup_app_r by lia. rewrite Nat.sub_diag. simpl.
  replace (h ++ d :: l) with ((h ++ [d]) ++ l) by (by rewrite <- app_assoc).
  specialize (IH (h ++ [d])). rewrite length_app in IH. simpl in IH.
  rewrite Nat.add_1_r in IH. by rewrite IH.
Qed.

Lemma traverse_new_run (l : list Dependency) (st : State) :
  traverse new l st =
  (mkState (package st) (heap st ++ l) (trace st), Done (seq (length (heap st)) (length l))).
Proof.
  revert st. induction l as [|d l IH]; intros st.
  - simpl. unfold mret, M_ret. rewrite app_nil_r. by destruct st.
  - simpl traverse. rewrite bind_run. unfold new at 1.
    rewrite bind_run, IH. simpl. rewrite length_app. simpl.
    rewrite Nat.add_1_r. by rewrite <- app_assoc.
Qed.

Lemma traverse_deref_run (ps : list ptr) (st : State) :
  traverse deref ps st =
  match values (heap st) ps with
  | Some ds => (st, Done ds)
  | None => (st, Panic)
  end.
Proof.
  induction ps as [|p ps IH].
  - done.
  - simpl traverse. rewrite bind_run, values_cons. unfold deref at 1.
    destruct (heap st !! p); [|done].
    rewrite bind_run, IH. by destruct (values (heap st) ps).
Qed.

Lemma new_slice_run (s : slice Dependency) (st : State) :
  new_slice s st =
  (mkState (package st) (heap st ++ elems s) (trace st), Done (fresh_slice (heap st) s)).
Proof.
  destruct s as [l|]; simpl.
  - rewrite bind_run, traverse_new_run. done.
  - unfold mret, M_ret. rewrite app_nil_r. by destruct st.
Qed.

Lemma load_slice_run (s : slice ptr) (st : State) :
  load_slice s st =
  match slice_values (heap st) s with
  | Some v => (st, Done v)
  | None => (st, Panic)
  end.
Proof.
  destruct s as [ps|]; simpl; [|done].
  rewrite bind_run, traverse_deref_run.
  by destruct (values (heap st) ps).
Qed.

Lemma slice_values_fresh (h : list Dependency) (s : slice Dependency) :
  slice_values (h ++ elems s) (fresh_slice h s) = Some s.
Proof.
  destruct s as [l|]; simpl; [|done]. by rewrite values_seq_app.
Qed.

Section Rewrite.
Variable E : Env.
Variables sourceRepo targetRepo : option Repo.
Variables syncTrusted ignoreTrusted : list Repo.

Abbreviation rewriteDep := (rewriteDep E sourceRepo targetRepo syncTrusted ignoreTrusted).
Abbreviation rewriteDeps := (rewriteDeps E sourceRepo targetRepo syncTrusted ignoreTrusted).
Abbreviation rewriteRepositories :=
  (rewriteRepositories E sourceRepo targetRepo syncTrusted ignoreTrusted).
Abbreviation selected := (selected E sourceRepo syncTrusted ignoreTrusted).

Lemma set_Repository_id (d : Dependency) : set_Repository (Repository d) d = d.
Proof. by destruct d. Qed.

Lemma rewriteDep_idem (d d' : Dependency) :
  rewriteDep d = Ok d' -> rewriteDep d' = Ok d'.
Proof.
  unfold chart.rewriteDep.
  destruct (selected (Repository d)) eqn:Hs.
  - destruct (getDependencyRepoURL targetRepo) as [u|e] eqn:Hu; [|done].
    intros [= <-]. simpl. destruct (selected u); by rewrite ?Hu.
  - intros [= <-]. by rewrite Hs.
Qed.

Lemma rewriteRepositories_cons (p : ptr) (rest : list ptr) (st : State) :
  rewriteRepositories (p :: rest) st =
  match heap st !! p with
  | None => (st, Panic)
  | Some d =>
      match rewriteDep d with
      | Err e => (st, Failed e)
      | Ok d' =>
          rewriteRepositories rest
            (mkState (package st) (<[p := d']> (heap st)) (trace st))
      end
  end.
Proof.
  simpl chart.rewriteRepositories. rewrite bind_run. unfold deref at 1.
  destruct (heap st !! p) as [d|] eqn:Hp; [|done].
  rewrite bind_run. unfold chart.rewriteDep, chart.selected.
  destruct (_ || _).
  - rewrite bind_run. destruct (getDependencyRepoURL targetRepo) as [u|e]; simpl.
    + unfold assign. rewrite Hp. done.
    + done.
  - simpl. rewrite list_insert_id by done. by destruct st.
Qed.

Lemma rewriteDeps_length (ds ds' : list Dependency) :
  rewriteDeps ds = Ok ds' -> length ds' = length ds.
Proof.
  revert ds'. induction ds as [|d ds IH]; intros ds'; simpl.
  - by intros [= <-].
  - destruct (rewriteDep d); [|done]. destruct (rewriteDeps ds); [|done].
    intros [= <-]. simpl. f_equal. by apply IH.
Qed.

Lemma rewriteDeps_lookup (ds ds' : list Dependency) (i : nat) (d : Dependency) :
  rewriteDeps ds = Ok ds' -> ds !! i = Some d ->
  exists d', ds' !! i = Some d' /\ rewriteDep d = Ok d'.
Proof.
  revert ds' i. induction ds as [|x ds IH]; intros ds' i; simpl; [done|].
  destruct (rewriteDep x) as [x'|] eqn:Hx; [|done].
  destruct (rewriteDeps ds) as [r|]; [|done].
  intros [= <-]. destruct i as [|i]; simpl.
  - intros [= <-]. eauto.
  - intros Hi. by apply IH.
Qed.

(** The loop on distinct pointers: the values of the entries become
    their rewritten values, and nothing else changes. *)
Lemma rewriteRepositories_run (ps : list ptr) (ds : list Dependency) (st : State) :
  NoDup ps -> values (heap st) ps = Some ds ->
  match rewriteDeps ds with
  | Ok ds' =>
      exists h',
        rewriteRepositories ps st = (mkState (package st) h' (trace st), Done tt)
        /\ values h' ps = Some ds'
        /\ length h' = length (heap st)
        /\ (forall q, q ∉ ps -> h' !! q = heap st !! q)
  | Err e =>
      exists h',
        rewriteRepositories ps st = (mkState (package st) h' (trace st), Failed e)
        /\ length h' = length (heap st)
  end.
Proof.
  revert ds st. induction ps as [|p ps IH]; intros ds st Hnd Hv.
  - injection Hv as <-. simpl. exists (heap st). by destruct st.
  - apply NoDup_cons in Hnd as [Hp Hnd].
    rewrite values_cons in Hv.
    destruct (heap st !! p) as [d|] eqn:Hd; [|done].
    destruct (values (heap st) ps) as [ds0|] eqn:Hv0; [|done].
    injection Hv as <-. rewrite rewriteRepositories_cons, Hd.
    cbn [chart.rewriteDeps].
    destruct (rewriteDep d) as [d'|e] eqn:Hr.
    + set (st1 := mkState (package st) (<[p := d']> (heap st)) (trace st)).
      assert (Hv1 : values (heap st1) ps = Some ds0).
      { rewrite <- Hv0. apply values_ext. intros q Hq. simpl.
        apply list_lookup_insert_ne. intros ->. done. }
      specialize (IH ds0 st1 Hnd Hv1).
      destruct (rewriteDeps ds0) as [ds0'|e].
      * destruct IH as (h' & Hrun & Hv' & Hlen & Hframe).
        exists h'. split; [done|]. split; [|split].
        -- rewrite values_cons, Hv', (Hframe p Hp). simpl.
           rewrite list_lookup_insert_eq; [done|].
           by apply lookup_lt_Some in Hd.
        -- rewrite Hlen. simpl. apply length_insert.
        -- intros q Hq. apply not_elem_of_cons in Hq as [Hqp Hq].
           rewrite (Hframe q Hq). simpl. by apply list_lookup_insert_ne.
      * destruct IH as (h' & Hrun & Hlen). exists h'. split; [done|].
        rewrite Hlen. simpl. apply length_insert.
    + exists (heap st). by destruct st.
Qed.

Abbreviation stable := (stable E sourceRepo targetRepo syncTrusted ignoreTrusted).

Lemma rewriteRepositories_stable (ps : list ptr) (st st' : State) :
  rewriteRepositories ps st = (st', Done tt) ->
  (forall q, stable st q -> stable st' q) /\ (forall p, p ∈ ps -> stable st' p).
Proof.
  revert st. induction ps as [|p ps IH]; intros st.
  - simpl. intros [= <-]. split; [done|]. intros p Hp. by apply elem_of_nil in Hp.
  - rewrite rewriteRepositories_cons.
    destruct (heap st !! p) as [d|] eqn:Hd; [|done].
    destruct (rewriteDep d) as [d'|e] eqn:Hr; [|done].
    intros Hrun. apply IH in Hrun as [Hkeep Hnew].
    assert (Hstep : forall q, stable st q ->
              stable (mkState (package st) (<[p := d']> (heap st)) (trace st)) q).
    { intros q (x & Hq & Hx). unfold chart.stable. simpl.
      destruct (decide (p = q)) as [->|Hne].
      - rewrite Hd in Hq. injection Hq as <-. rewrite Hx in Hr. injection Hr as <-.
        exists d. split; [|done]. apply list_lookup_insert_eq.
        by apply lookup_lt_Some in Hd.
      - exists x. split; [|done]. by rewrite list_lookup_insert_ne. }
    split.
    + intros q Hq. by apply Hkeep, Hstep.
    + intros q Hq. apply elem_of_cons in Hq as [->|Hq]; [|by apply Hnew].
      apply Hkeep. exists d'. split.
      * simpl. apply list_lookup_insert_eq. by apply lookup_lt_Some in Hd.
      * by apply rewriteDep_idem in Hr.
Qed.

Lemma rewriteRepositories_stable_run (ps : list ptr) (st : State) :
  (forall p, p ∈ ps -> stable st p) ->
  rewriteRepositories ps st = (st, Done tt).
Proof.
  induction ps as [|p ps IH]; intros Hst; [done|].
  rewrite rewriteRepositories_cons.
  destruct (Hst p) as (d & Hd & Hr); [by left|].
  rewrite Hd, Hr, list_insert_id by done.
  replace (mkState (package st) (heap st) (trace st)) with st by (by destruct st).
  apply IH. intros q Hq. apply Hst. by right.
Qed.

End Rewrite.

Lemma hashDeps_run (req lock : slice ptr) (st : State) :
  hashDeps req lock st =
  match slice_values (heap st) req, slice_values (heap st) lock with
  | Some reqs, Some locks => (st, Done (digest_of reqs locks))
  | _, _ => (st, Panic)
  end.
Proof.
  unfold hashDeps. rewrite bind_run, load_slice_run.
  destruct (slice_values (heap st) req); [|done].
  rewrite bind_run, load_slice_run.
  by destruct (slice_values (heap st) lock).
Qed.

Lemma writeChartFile_Metadata_run (E : Env) (dest : string) (m : Metadata ptr) (st : State) :
  writeChartFile E dest (VMetadata m) st =
  match slice_values (heap st) (MetadataDependencies m) with
  | Some ds =>
      WriteFile E dest
        (print_Metadata (MetadataName m) (MetadataVersion m) (APIVersion m) ds) st
  | None => (st, Panic)
  end.
Proof.
  unfold writeChartFile, Marshal. rewrite !bind_run, load_slice_run.
  by destruct (slice_values _ _).
Qed.

Lemma writeChartFile_dependencies_run (E : Env) (dest : string) (d : dependencies ptr)
    (st : State) :
  writeChartFile E dest (VDependencies d) st =
  match slice_values (heap st) (Dependencies d) with
  | Some ds => WriteFile E dest (print_dependencies ds) st
  | None => (st, Panic)
  end.
Proof.
  unfold writeChartFile, Marshal. rewrite !bind_run, load_slice_run.
  by destruct (slice_values _ _).
Qed.

Lemma writeChartFile_Lock_run (E : Env) (dest : string) (l : Lock ptr) (st : State) :
  writeChartFile E dest (VLock l) st =
  match slice_values (heap st) (LockDependencies l) with
  | Some ds => WriteFile E dest (print_Lock (Generated l) (Digest l) ds) st
  | None => (st, Panic)
  end.
Proof.
  unfold writeChartFile, Marshal. rewrite !bind_run, load_slice_run.
  by destruct (slice_values _ _).
Qed.

Lemma slice_values_elems (h : list Dependency) (s : slice ptr) (v : slice Dependency) :
  slice_values h s = Some v ->
  values h (elems s) = Some (elems v) /\ v = slice_with s (elems v).
Proof.
  destruct s as [ps|]; simpl.
  - destruct (values h ps) as [ds|]; [|done]. by intros [= <-].
  - by intros [= <-].
Qed.

Lemma slice_values_with (h : list Dependency) (s : slice ptr) (ds : list Dependency) :
  values h (elems s) = Some ds -> slice_values h s = Some (slice_with s ds).
Proof.
  destruct s as [ps|]; simpl.
  - by intros ->.
  - by intros [= <-].
Qed.

Lemma slice_values_ext (h h' : list Dependency) (s : slice ptr) :
  (forall p, p ∈ elems s -> h' !! p = h !! p) -> slice_values h' s = slice_values h s.
Proof.
  destruct s as [ps|]; simpl; [|done]. intros Hext. by rewrite (values_ext h h').
Qed.

Lemma slice_with_with {A B C : Type} (s : slice A) (l : list B) (l' : list C) :
  slice_with (slice_with s l) l' = slice_with s l'.
Proof. by destruct s. Qed.

Lemma elems_slice_with {A B : Type} (s : slice A) (l : list B) :
  length l = length (elems s) -> elems (slice_with s l) = l.
Proof. destruct s; simpl; [done|]. by destruct l. Qed.

Section RewriteSlice.
Variable E : Env.
Variables sourceRepo targetRepo : option Repo.
Variables syncTrusted ignoreTrusted : list Repo.

Abbreviation rewriteDeps := (rewriteDeps E sourceRepo targetRepo syncTrusted ignoreTrusted).
Abbreviation rewriteSlice := (rewriteSlice E sourceRepo targetRepo syncTrusted ignoreTrusted).

(** The rewrite loop on a slice of distinct pointers. *)
Lemma rewrite_slice_run (s : slice ptr) (v : slice Dependency) (st : State) :
  NoDup (elems s) -> slice_values (heap st) s = Some v ->
  match rewriteSlice v with
  | Some v' =>
      exists h',
        rewriteRepositories E sourceRepo targetRepo syncTrusted ignoreTrusted (elems s) st
        = (mkState (package st) h' (trace st), Done tt)
        /\ slice_values h' s = Some v'
        /\ length h' = length (heap st)
        /\ (forall q, q ∉ elems s -> h' !! q = heap st !! q)
  | None =>
      exists h' e,
        rewriteRepositories E sourceRepo targetRepo syncTrusted ignoreTrusted (elems s) st
        = (mkState (package st) h' (trace st), Failed e)
        /\ fatal e
  end.
Proof.
  intros Hnd Hv. apply slice_values_elems in Hv as [Hv Hs].
  pose proof (rewriteRepositories_run E sourceRepo targetRepo syncTrusted ignoreTrusted
                _ _ _ Hnd Hv) as Hrun.
  unfold chart.rewriteSlice.
  destruct (rewriteDeps (elems v)) as [l|e] eqn:Hr.
  - destruct Hrun as (h' & Hrun & Hv' & Hlen & Hframe).
    exists h'. split; [done|]. split; [|done].
    rewrite Hs, slice_with_with. by apply slice_values_with.
  - destruct Hrun as (h' & Hrun & _). exists h', e. split; [done|].
    clear -Hr. revert Hr. generalize (elems v). intros l. induction l as [|d l IH]; simpl; [done|].
    unfold rewriteDep. destruct (selected _ _ _ _ _).
    + unfold getDependencyRepoURL. destruct (Kind_eqb _ _).
      * destruct (URL.Parse _).
        -- destruct (rewriteDeps l); [done|]. intros [= <-]. by apply IH.
        -- by intros [= <-].
      * destruct (rewriteDeps l); [done|]. intros [= <-]. by apply IH.
    + destruct (rewriteDeps l); [done|]. intros [= <-]. by apply IH.
Qed.

End RewriteSlice.

Lemma values_bound (h : list Dependency) (ps : list ptr) (ds : list Dependency) (p : ptr) :
  values h ps = Some ds -> p ∈ ps -> p < length h.
Proof.
  intros Hv Hp. apply list_elem_of_lookup in Hp as [i Hi].
  destruct (values_lookup _ _ _ _ _ Hv Hi) as [_ [d Hd]].
  by apply lookup_lt_Some in Hd.
Qed.

Lemma slice_values_bound (h : list Dependency) (s : slice ptr) (v : slice Dependency) (p : ptr) :
  slice_values h s = Some v -> p ∈ elems s -> p < length h.
Proof.
  intros Hv Hp. apply slice_values_elems in Hv as [Hv _]. by eapply values_bound.
Qed.

Lemma elem_of_fresh_slice (h : list Dependency) (s : slice Dependency) (p : ptr) :
  p ∈ elems (fresh_slice h s) -> length h <= p.
Proof.
  destruct s as [l|]; simpl.
  - intros Hp. apply elem_of_seq in Hp. lia.
  - intros Hp. by apply elem_of_nil in Hp.
Qed.

Lemma NoDup_fresh_slice (h : list Dependency) (s : slice Dependency) :
  NoDup (elems (fresh_slice h s)).
Proof. destruct s as [l|]; simpl; [apply NoDup_seq|apply NoDup_nil_2]. Qed.

Ltac fatal_done := eexists _, _; split; [reflexivity | exact I].

Section UpdateFiles.
Variable E : Env.
Variables sourceRepo targetRepo : option Repo.
Variables syncTrusted ignoreTrusted : list Repo.

Abbreviation rewriteSlice := (rewriteSlice E sourceRepo targetRepo syncTrusted ignoreTrusted).
Abbreviation plan_rewrite := (plan_rewrite E sourceRepo targetRepo syncTrusted ignoreTrusted).

Lemma updateLockFile_run (l : Lock ptr) (deps : slice ptr) (legacy : bool)
    (Ls Ds : slice Dependency) (st : State) :
  NoDup (elems (LockDependencies l)) ->
  slice_values (heap st) (LockDependencies l) = Some Ls ->
  slice_values (heap st) deps = Some Ds ->
  (forall q, q ∈ elems deps -> q ∉ elems (LockDependencies l)) ->
  let f := if legacy then RequirementsLockFilename else ChartLockFilename in
  match (ls' ← rewriteSlice Ls;
         fs2 ← written E f (print_Lock (Generated l) (digest_of Ds ls') ls')
                       (files (package st));
         Some (fs2, ls')) with
  | Some (fs2, ls') =>
      exists h',
        updateLockFile E (Some l) deps sourceRepo targetRepo legacy
                       syncTrusted ignoreTrusted st
        = (mkState (mkPackage fs2 (charts (package st))) h'
                   (trace st ++ [IO (OpWriteFile f)]), Done tt)
        /\ slice_values h' (LockDependencies l) = Some ls'
        /\ length h' = length (heap st)
        /\ (forall q, q ∉ elems (LockDependencies l) -> h' !! q = heap st !! q)
  | None =>
      exists st' e,
        updateLockFile E (Some l) deps sourceRepo targetRepo legacy
                       syncTrusted ignoreTrusted st
        = (st', Failed e) /\ fatal e
  end.
Proof.
  intros Hnd HLs HDs Hdisj f. unfold updateLockFile. rewrite bind_run.
  pose proof (rewrite_slice_run E sourceRepo targetRepo syncTrusted ignoreTrusted
                _ _ _ Hnd HLs) as Hrun.
  destruct (rewriteSlice Ls) as [ls'|]; simpl.
  - destruct Hrun as (h' & -> & Hv' & Hlen & Hframe).
    rewrite bind_run, hashDeps_run. simpl heap.
    rewrite (slice_values_ext (heap st) h') by (intros p Hp; by apply Hframe, Hdisj).
    rewrite HDs, Hv'. rewrite writeChartFile_Lock_run. simpl.
    rewrite Hv', WriteFile_run. fold f. unfold written.
    destruct (faulty E (OpWriteFile f)); simpl.
    + fatal_done.
    + exists h'. done.
  - destruct Hrun as (h' & e & -> & Hfatal). eauto.
Qed.

(** The rewrite step of a Modern package. *)
Lemma updateChartMetadataFile_run (lock : option (Lock ptr)) (Ls : slice Dependency)
    (st : State) :
  (forall l, lock = Some l ->
     NoDup (elems (LockDependencies l))
     /\ slice_values (heap st) (LockDependencies l) = Some Ls) ->
  match plan_rewrite (files (package st)) ChartFilename print_as_Metadata
          (match lock with
           | Some l => Some (ChartLockFilename, Generated l, Ls)
           | None => None
           end) with
  | Some (fs', ls') =>
      exists h',
        updateChartMetadataFile E lock sourceRepo targetRepo syncTrusted ignoreTrusted st
        = (mkState (mkPackage fs' (charts (package st))) h'
             (trace st ++ rewrite_events ChartFilename
                             (match lock with Some _ => Some ChartLockFilename | None => None end)),
           Done tt)
        /\ (forall l, lock = Some l -> slice_values h' (LockDependencies l) = Some ls')
        /\ (forall q d, heap st !! q = Some d ->
              (forall l, lock = Some l -> q ∉ elems (LockDependencies l)) ->
              h' !! q = Some d)
  | None =>
      exists st' e,
        updateChartMetadataFile E lock sourceRepo targetRepo syncTrusted ignoreTrusted st
        = (st', Failed e) /\ fatal e
  end.
Proof.
  intros Hlock. unfold updateChartMetadataFile, chart.plan_rewrite, document.
  rewrite bind_run, ReadFile_run.
  destruct (faulty E (OpReadFile ChartFilename)); simpl; [fatal_done|].
  destruct (files (package st) !! ChartFilename) as [[|d]|] eqn:Hfile; simpl;
    [fatal_done | | fatal_done].
  unfold Metadata_of_Doc. rewrite !bind_run, new_slice_run. simpl.
  set (st1 := mkState (package st) (heap st ++ elems (doc_dependencies d))
                      (trace st ++ [IO (OpReadFile ChartFilename)])).
  pose proof (rewrite_slice_run E sourceRepo targetRepo syncTrusted ignoreTrusted
                (fresh_slice (heap st) (doc_dependencies d)) (doc_dependencies d) st1
                (NoDup_fresh_slice _ _) (slice_values_fresh _ _)) as Hrun.
  rewrite bind_run.
  destruct (rewriteSlice (doc_dependencies d)) as [ms'|]; simpl.
  2:{ destruct Hrun as (h' & e & -> & Hfatal). eauto. }
  destruct Hrun as (h1 & -> & Hv1 & Hlen1 & Hframe1).
  rewrite bind_run, writeChartFile_Metadata_run. simpl.
  rewrite Hv1, WriteFile_run. unfold written.
  destruct (faulty E (OpWriteFile ChartFilename)); simpl; [fatal_done|].
  assert (Hold : forall q x, heap st !! q = Some x -> h1 !! q = Some x).
  { intros q x Hq. rewrite Hframe1.
    - simpl. by apply lookup_app_l_Some.
    - intros Hin. apply elem_of_fresh_slice in Hin.
      apply lookup_lt_Some in Hq. lia. }
  destruct lock as [l|].
  - destruct (Hlock l eq_refl) as [Hnd HLs].
    set (st2 := mkState _ h1 _).
    assert (HLs2 : slice_values (heap st2) (LockDependencies l) = Some Ls).
    { rewrite <- HLs. apply slice_values_ext. intros p Hp. simpl.
      pose proof (slice_values_bound _ _ _ _ HLs Hp) as Hlt.
      destruct (heap st !! p) as [x|] eqn:Hx.
      - by apply Hold.
      - apply lookup_ge_None in Hx. lia. }
    assert (Hdisj : forall q, q ∈ elems (fresh_slice (heap st) (doc_dependencies d)) ->
                      q ∉ elems (LockDependencies l)).
    { intros q Hq Hin. apply elem_of_fresh_slice in Hq.
      pose proof (slice_values_bound _ _ _ _ HLs Hin). lia. }
    pose proof (updateLockFile_run l (fresh_slice (heap st) (doc_dependencies d)) false
                  Ls ms' st2 Hnd HLs2 Hv1 Hdisj) as Hupd.
    simpl in Hupd.
    destruct (rewriteSlice Ls) as [ls'|]; simpl in *.
    2:{ destruct Hupd as (st' & e & -> & Hfatal). eauto. }
    unfold written in *.
    destruct (faulty E (OpWriteFile ChartLockFilename)); simpl in *.
    { destruct Hupd as (st' & e & -> & Hfatal). eauto. }
    destruct Hupd as (h2 & -> & Hv2 & Hlen2 & Hframe2).
    exists h2. split; [|split].
    + unfold rewrite_events. simpl. by rewrite <- !app_assoc.
    + by intros ? [= <-].
    + intros q x Hq Hout. rewrite Hframe2 by (by apply Hout). by apply Hold.
  - exists h1. split; [|split].
    + unfold rewrite_events. simpl. by rewrite <- !app_assoc.
    + done.
    + intros q x Hq _. by apply Hold.
Qed.

(** The rewrite step of a Legacy package. *)
Lemma updateRequirementsFile_run (l : Lock ptr) (Ls : slice Dependency) (st : State) :
  NoDup (elems (LockDependencies l)) ->
  slice_values (heap st) (LockDependencies l) = Some Ls ->
  match plan_rewrite (files (package st)) RequirementsFilename print_as_dependencies
          (Some (RequirementsLockFilename, Generated l, Ls)) with
  | Some (fs', ls') =>
      exists h',
        updateRequirementsFile E (Some l) sourceRepo targetRepo syncTrusted ignoreTrusted st
        = (mkState (mkPackage fs' (charts (package st))) h'
             (trace st ++ rewrite_events RequirementsFilename (Some RequirementsLockFilename)),
           Done tt)
        /\ slice_values h' (LockDependencies l) = Some ls'
  | None =>
      exists st' e,
        updateRequirementsFile E (Some l) sourceRepo targetRepo syncTrusted ignoreTrusted st
        = (st', Failed e) /\ fatal e
  end.
Proof.
  intros Hnd HLs. unfold updateRequirementsFile, chart.plan_rewrite, document.
  rewrite bind_run, ReadFile_run.
  destruct (faulty E (OpReadFile RequirementsFilename)); simpl; [fatal_done|].
  destruct (files (package st) !! RequirementsFilename) as [[|d]|] eqn:Hfile; simpl;
    [fatal_done | | fatal_done].
  unfold dependencies_of_Doc. rewrite !bind_run, new_slice_run. simpl.
  set (st1 := mkState (package st) (heap st ++ elems (doc_dependencies d))
                      (trace st ++ [IO (OpReadFile RequirementsFilename)])).
  pose proof (rewrite_slice_run E sourceRepo targetRepo syncTrusted ignoreTrusted
                (fresh_slice (heap st) (doc_dependencies d)) (doc_dependencies d) st1
                (NoDup_fresh_slice _ _) (slice_values_fresh _ _)) as Hrun.
  rewrite bind_run.
  destruct (rewriteSlice (doc_dependencies d)) as [ms'|]; simpl.
  2:{ destruct Hrun as (h' & e & -> & Hfatal). eauto. }
  destruct Hrun as (h1 & -> & Hv1 & Hlen1 & Hframe1).
  rewrite bind_run, writeChartFile_dependencies_run. simpl.
  rewrite Hv1, WriteFile_run. unfold written.
  destruct (faulty E (OpWriteFile RequirementsFilename)); simpl; [fatal_done|].
  assert (Hold : forall q x, heap st !! q = Some x -> h1 !! q = Some x).
  { intros q x Hq. rewrite Hframe1.
    - simpl. by apply lookup_app_l_Some.
    - intros Hin. apply elem_of_fresh_slice in Hin.
      apply lookup_lt_Some in Hq. lia. }
  set (st2 := mkState _ h1 _).
  assert (HLs2 : slice_values (heap st2) (LockDependencies l) = Some Ls).
  { rewrite <- HLs. apply slice_values_ext. intros p Hp. simpl.
    pose proof (slice_values_bound _ _ _ _ HLs Hp) as Hlt.
    destruct (heap st !! p) as [x|] eqn:Hx.
    - by apply Hold.
    - apply lookup_ge_None in Hx. lia. }
  assert (Hdisj : forall q, q ∈ elems (fresh_slice (heap st) (doc_dependencies d)) ->
                    q ∉ elems (LockDependencies l)).
  { intros q Hq Hin. apply elem_of_fresh_slice in Hq.
    pose proof (slice_values_bound _ _ _ _ HLs Hin). lia. }
  pose proof (updateLockFile_run l (fresh_slice (heap st) (doc_dependencies d)) true
                Ls ms' st2 Hnd HLs2 Hv1 Hdisj) as Hupd.
  simpl in Hupd.
  destruct (rewriteSlice Ls) as [ls'|]; simpl in *.
  2:{ destruct Hupd as (st' & e & -> & Hfatal). eauto. }
  unfold written in *.
  destruct (faulty E (OpWriteFile RequirementsLockFilename)); simpl in *.
  { destruct Hupd as (st' & e & -> & Hfatal). eauto. }
  destruct Hupd as (h2 & -> & Hv2 & Hlen2 & Hframe2).
  exists h2. split; [|done].
  unfold rewrite_events. simpl. by rewrite <- !app_assoc.
Qed.

End UpdateFiles.

Lemma lockAPIVersion_cases (E : Env) (fs : gmap string File) :
  match lockAPIVersion E fs with
  | (_, Done v) =>
      (v = APIV1 /\ is_Some (fs !! RequirementsLockFilename))
      \/ (v = APIV2 /\ fs !! RequirementsLockFilename = None
          /\ is_Some (fs !! ChartLockFilename))
      \/ (v = "" /\ fs !! RequirementsLockFilename = None
          /\ fs !! ChartLockFilename = None)
  | (_, Failed e) => fatal e
  | (_, Panic) => False
  end.
Proof.
  unfold lockAPIVersion.
  destruct (faulty E (OpStat RequirementsLockFilename)); [done|].
  case_bool_decide as H1; [by left|].
  destruct (faulty E (OpStat ChartLockFilename)); [done|].
  apply eq_None_not_Some in H1.
  case_bool_decide as H2; [by right; left|].
  apply eq_None_not_Some in H2. by right; right.
Qed.

Lemma GetChartLock_run (E : Env) (st : State) :
  match lockAPIVersion E (files (package st)) with
  | (stats, Done v) =>
      if GoString.is_empty v then GetChartLock E st = (log stats st, Done None)
      else
        let f := if String.eqb v APIV1 then RequirementsLockFilename
                 else ChartLockFilename in
        match document E (files (package st)) f with
        | Some l =>
            GetChartLock E st =
            (mkState (package st) (heap st ++ elems (doc_dependencies l))
                     (trace st ++ stats ++ [IO (OpReadFile f)]),
             Done (Some (mkLock (doc_generated l) (doc_digest l)
                                (fresh_slice (heap st) (doc_dependencies l)))))
        | None => exists st' e, GetChartLock E st = (st', Failed e) /\ fatal e
        end
  | (stats, Failed e) => GetChartLock E st = (log stats st, Failed e)
  | (stats, Panic) => True
  end.
Proof.
  pose proof (lockAPIVersion_cases E (files (package st))) as Hc.
  unfold GetChartLock. rewrite bind_run, GetLockAPIVersion_run.
  destruct (lockAPIVersion E (files (package st))) as [stats [v|e|]]; simpl; [|done..].
  destruct Hc as [[-> _]|[[-> _]|[-> _]]]; simpl; [| |done].
  - rewrite ret_bind, bind_run, ReadFile_run. unfold document. simpl.
    destruct (faulty E (OpReadFile RequirementsLockFilename)); simpl; [fatal_done|].
    destruct (files (package st) !! RequirementsLockFilename) as [[|l]|]; simpl;
      [fatal_done| |fatal_done].
    unfold Lock_of_Doc. rewrite !bind_run, new_slice_run. simpl.
    by rewrite <- app_assoc.
  - rewrite ret_bind, bind_run, ReadFile_run. unfold document. simpl.
    destruct (faulty E (OpReadFile ChartLockFilename)); simpl; [fatal_done|].
    destruct (files (package st) !! ChartLockFilename) as [[|l]|]; simpl;
      [fatal_done| |fatal_done].
    unfold Lock_of_Doc. rewrite !bind_run, new_slice_run. simpl.
    by rewrite <- app_assoc.
Qed.

Lemma LoadChartfile_run (E : Env) (file : string) (st : State) :
  match document E (files (package st)) file with
  | Some m =>
      LoadChartfile E file st =
      (mkState (package st) (heap st ++ elems (doc_dependencies m))
               (trace st ++ [IO (OpReadFile file)]),
       Done (mkMetadata (doc_name m) (doc_version m) (doc_apiVersion m)
                        (fresh_slice (heap st) (doc_dependencies m))))
  | None => exists st' e, LoadChartfile E file st = (st', Failed e) /\ fatal e
  end.
Proof.
  unfold LoadChartfile, document. rewrite bind_run, ReadFile_run.
  destruct (faulty E (OpReadFile file)); simpl; [fatal_done|].
  destruct (files (package st) !! file) as [[|m]|]; simpl; [fatal_done| |fatal_done].
  rewrite ret_bind. unfold Metadata_of_Doc.
  by rewrite bind_run, new_slice_run.
Qed.

Lemma package_eta (st : State) (folder : gmap string string) :
  charts (package st) = Some folder ->
  mkPackage (files (package st)) (Some folder) = package st.
Proof. intros <-. by destruct (package st). Qed.

Section Materialize.
Variable E : Env.
Variable r : ChartsReader.
Variable t : gmap N ChartsReader.
Variables syncTrusted ignoreTrusted : list Repo.

Abbreviation buildCharts := (buildCharts E r t syncTrusted ignoreTrusted).
Abbreviation dep_result := (dep_result E r t syncTrusted ignoreTrusted).
Abbreviation dep_events := (dep_events E r t syncTrusted ignoreTrusted).
Abbreviation dep_failure := (dep_failure E r t syncTrusted ignoreTrusted).
Abbreviation dep_store := (dep_store E r t syncTrusted ignoreTrusted).
Abbreviation materialize := (materialize E r t syncTrusted ignoreTrusted).
Abbreviation failures := (failures E r t syncTrusted ignoreTrusted).

(** one iteration of the materializer *)
Lemma buildCharts_cons (p : ptr) (rest : list ptr) (errs : list error) (st : State)
    (d : Dependency) (folder : gmap string string) :
  heap st !! p = Some d -> charts (package st) = Some folder ->
  buildCharts (p :: rest) errs st =
  match dep_result d with
  | NoClient => (st, Panic)
  | _ =>
      buildCharts rest (errs ++ dep_failure d)
        (mkState (mkPackage (files (package st)) (Some (dep_store folder d)))
                 (heap st) (trace st ++ dep_events d))
  end.
Proof.
  intros Hp Hfolder. simpl chart.buildCharts. rewrite bind_run. unfold deref at 1.
  rewrite Hp.
  unfold chart.dep_result, chart.dep_failure, chart.dep_events,
    chart.dep_store, chart.dep_result, origin_of, client_of.
  destruct (ShouldIgnoreRepo E _ _ _).
  - destruct (t !! _) as [c|]; [|done].
    rewrite bind_run. simpl.
    destruct (Fetch c (Name d) (Version d)) as [archive|e].
    + rewrite bind_run. unfold attempt. rewrite CopyFile_run. simpl. rewrite Hfolder.
      destruct (faulty E (OpCopyFile (dep_file d))); simpl.
      * unfold log, Append, Annotatef. simpl.
        by rewrite (package_eta _ _ Hfolder), <- app_assoc.
      * by rewrite app_nil_r, <- app_assoc.
    + unfold Append, Annotatef. by rewrite (package_eta _ _ Hfolder).
  - rewrite bind_run. simpl.
    destruct (Fetch r (Name d) (Version d)) as [archive|e].
    + rewrite bind_run. unfold attempt. rewrite CopyFile_run. simpl. rewrite Hfolder.
      destruct (faulty E (OpCopyFile (dep_file d))); simpl.
      * unfold log, Append, Annotatef. simpl.
        by rewrite (package_eta _ _ Hfolder), <- app_assoc.
      * by rewrite app_nil_r, <- app_assoc.
    + unfold Append, Annotatef. by rewrite (package_eta _ _ Hfolder).
Qed.

(** The materializer on a list whose every dependency has a client. *)
Lemma buildCharts_run (ps : list ptr) (ds : list Dependency) (errs : list error)
    (st : State) (folder : gmap string string) :
  values (heap st) ps = Some ds -> charts (package st) = Some folder ->
  Forall (fun d => dep_result d <> NoClient) ds ->
  buildCharts ps errs st =
  (mkState (mkPackage (files (package st)) (Some (materialize ds folder)))
           (heap st) (trace st ++ flat_map dep_events ds),
   Done (errs ++ failures ds)).
Proof.
  revert ds errs st folder. induction ps as [|p ps IH]; intros ds errs st folder Hv Hf Hc.
  - injection Hv as <-. simpl. rewrite !app_nil_r. unfold mret, M_ret.
    rewrite <- Hf. by destruct st as [[]].
  - rewrite values_cons in Hv.
    destruct (heap st !! p) as [d|] eqn:Hd; [|done].
    destruct (values (heap st) ps) as [ds0|] eqn:Hv0; [|done].
    injection Hv as <-. apply Forall_cons in Hc as [Hd1 Hc].
    rewrite (buildCharts_cons _ _ _ _ _ _ Hd Hf).
    destruct (dep_result d) eqn:Hr; [| | |done];
      (erewrite IH; [|exact Hv0|reflexivity|exact Hc]); simpl;
      unfold chart.failures; simpl; by rewrite <- !app_assoc.
Qed.

(** A dependency without a client makes the materializer panic. *)
Lemma buildCharts_panic (ps : list ptr) (ds : list Dependency) (errs : list error)
    (st : State) (folder : gmap string string) :
  values (heap st) ps = Some ds -> charts (package st) = Some folder ->
  Exists (fun d => dep_result d = NoClient) ds ->
  exists st', buildCharts ps errs st = (st', Panic).
Proof.
  revert ds errs st folder. induction ps as [|p ps IH]; intros ds errs st folder Hv Hf Hc.
  - injection Hv as <-. by apply Exists_nil in Hc.
  - rewrite values_cons in Hv.
    destruct (heap st !! p) as [d|] eqn:Hd; [|done].
    destruct (values (heap st) ps) as [ds0|] eqn:Hv0; [|done].
    injection Hv as <-.
    rewrite (buildCharts_cons _ _ _ _ _ _ Hd Hf).
    destruct (dep_result d) eqn:Hr; [| | |by eauto];
      apply Exists_cons in Hc as [Hc|Hc]; try congruence;
      (eapply IH; [exact Hv0|reflexivity|exact Hc]).
Qed.

End Materialize.

Section Build.
Variable E : Env.
Variable r : ChartsReader.
Variables sourceRepo targetRepo : option Repo.
Variable t : gmap N ChartsReader.
Variables syncTrusted ignoreTrusted : list Repo.

Abbreviation dep_result := (dep_result E r t syncTrusted ignoreTrusted).
Abbreviation dep_events := (dep_events E r t syncTrusted ignoreTrusted).
Abbreviation materialize := (materialize E r t syncTrusted ignoreTrusted).
Abbreviation failures := (failures E r t syncTrusted ignoreTrusted).
Abbreviation plan := (plan E sourceRepo targetRepo syncTrusted ignoreTrusted).
Abbreviation BuildDependencies :=
  (BuildDependencies E r sourceRepo targetRepo t syncTrusted ignoreTrusted).

Abbreviation materialized := (materialized E r t syncTrusted ignoreTrusted).

(** the end of [BuildDependencies]: the materializer and its verdict *)
Lemma materializer_run (ps : list ptr) (ds : list Dependency) (st : State)
    (folder : gmap string string) :
  values (heap st) ps = Some ds -> charts (package st) = Some folder ->
  materialized
    ((errs ← buildCharts E r t syncTrusted ignoreTrusted ps [];
      match errs with [] => mret tt | _ :: _ => fail (MultiError errs) end) st)
    (trace st) (files (package st)) folder [] ds.
Proof.
  intros Hv Hf. split.
  - intros Hc. exists (heap st).
    rewrite bind_run, (buildCharts_run _ _ _ _ _ _ _ _ _ _ Hv Hf Hc). simpl.
    by destruct (failures ds).
  - intros Hc.
    destruct (buildCharts_panic E r t syncTrusted ignoreTrusted _ _ [] _ _ Hv Hf Hc)
      as [st' Hp].
    exists st'. by rewrite bind_run, Hp.
Qed.

Lemma materialized_shift (res : State * outcome unit) (tr evs : list Event)
    (fs : gmap string File) (folder : gmap string string) (ds : list Dependency) :
  materialized res (tr ++ evs) fs folder [] ds ->
  materialized res tr fs folder evs ds.
Proof.
  unfold chart.materialized. simpl. by rewrite <- !app_assoc.
Qed.

Ltac finish_materialized Hv :=
  match goal with
  | |- materialized (_ ?st') ?tr _ ?folder [] _ =>
      let H := fresh in
      pose proof (materializer_run _ _ st' folder Hv eq_refl) as H;
      replace tr with (trace st');
      [exact H | simpl; rewrite <- ?app_assoc; reflexivity]
  end.

Lemma BuildDependencies_run (st : State) :
  match plan (files (package st)) with
  | Some pl =>
      materialized (BuildDependencies st) (trace st)
        (plan_files pl) ∅ (plan_events pl) (plan_deps pl)
  | None => exists st' e, BuildDependencies st = (st', Failed e) /\ fatal e
  end.
Proof.
  unfold chart.plan, chart.BuildDependencies.
  rewrite bind_run, RemoveAll_charts_run.
  destruct (faulty E OpRemoveAll); simpl; [fatal_done|].
  rewrite bind_run, Mkdir_charts_run. simpl.
  destruct (faulty E OpMkdir); simpl; [fatal_done|].
  set (st2 := mkState _ _ _).
  pose proof (GetChartLock_run E st2) as Hlock.
  pose proof (lockAPIVersion_cases E (files (package st))) as Hcases.
  change (files (package st2)) with (files (package st)) in Hlock.
  destruct (lockAPIVersion E (files (package st))) as [stats [v|e|]] eqn:Hapi;
    [| |done].
  2:{ rewrite bind_run, Hlock. eauto. }
  destruct Hcases as [[-> _]|[[-> _]|[-> _]]]; simpl in Hlock |- *.
  - unfold plan_locked. rewrite bind_run.
    destruct (document E (files (package st)) RequirementsLockFilename) as [l|]; simpl.
    2:{ destruct Hlock as (st' & e & -> & Hf). eauto. }
    rewrite Hlock. cbv beta iota. rewrite bind_run, GetLockAPIVersion_run. cbn [files package].
    rewrite Hapi. simpl.
    unfold buildFrom. simpl (String.eqb _ _). cbv iota. rewrite bind_run.
    set (lock := mkLock _ _ _). set (st4 := log stats _).
    pose proof (updateRequirementsFile_run E sourceRepo targetRepo syncTrusted
                  ignoreTrusted lock (doc_dependencies l) st4
                  (NoDup_fresh_slice _ _) (slice_values_fresh _ _)) as Hupd.
    simpl in Hupd.
    destruct (plan_rewrite _ _ _ _ _ _ _ _ _) as [[fs' ls']|]; simpl.
    2:{ destruct Hupd as (st' & e & -> & Hf). eauto. }
    destruct Hupd as (h' & -> & Hv). apply materialized_shift.
    apply slice_values_elems in Hv as [Hv _].
    finish_materialized Hv.
  - unfold plan_locked. rewrite bind_run.
    destruct (document E (files (package st)) ChartLockFilename) as [l|]; simpl.
    2:{ destruct Hlock as (st' & e & -> & Hf). eauto. }
    rewrite Hlock. cbv beta iota. rewrite bind_run, GetLockAPIVersion_run.
    cbn [files package]. rewrite Hapi. simpl.
    unfold buildFrom. simpl (String.eqb _ _). cbv iota. rewrite bind_run.
    set (lock := mkLock _ _ _). set (st4 := log stats _).
    pose proof (updateChartMetadataFile_run E sourceRepo targetRepo syncTrusted
                  ignoreTrusted (Some lock) (doc_dependencies l) st4) as Hupd.
    simpl in Hupd.
    destruct (plan_rewrite _ _ _ _ _ _ _ _ _) as [[fs' ls']|]; simpl.
    2:{ destruct Hupd as (st' & e & -> & Hf).
        - intros ? [= <-]. split; [apply NoDup_fresh_slice|apply slice_values_fresh].
        - eauto. }
    destruct Hupd as (h' & -> & Hv & _).
    { intros ? [= <-]. split; [apply NoDup_fresh_slice|apply slice_values_fresh]. }
    specialize (Hv lock eq_refl). apply materialized_shift.
    apply slice_values_elems in Hv as [Hv _].
    finish_materialized Hv.
  - rewrite bind_run, Hlock. cbv beta iota. rewrite bind_run, GetLockAPIVersion_run.
    subst st2. cbn [files package log]. rewrite Hapi. simpl.
    rewrite bind_run. set (st4 := log stats (log stats _)).
    pose proof (LoadChartfile_run E ChartFilename st4) as Hload.
    cbn [files package heap trace log st4] in Hload.
    destruct (document E (files (package st)) ChartFilename) as [m|]; simpl.
    2:{ destruct Hload as (st' & e & -> & Hf). eauto. }
    rewrite Hload. simpl.
    destruct (String.eqb (doc_apiVersion m) APIVersionV2).
    + unfold buildFrom. simpl (String.eqb _ _). cbv iota. rewrite bind_run.
      set (st5 := mkState _ _ _).
      pose proof (updateChartMetadataFile_run E sourceRepo targetRepo syncTrusted
                    ignoreTrusted None None st5) as Hupd.
      cbn [files package st5] in Hupd.
      destruct (plan_rewrite _ _ _ _ _ _ _ _ _) as [[fs' ls']|]; simpl.
      2:{ destruct Hupd as (st' & e & -> & Hf); [done|eauto]. }
      destruct Hupd as (h' & -> & _ & Hframe); [done|].
      apply materialized_shift.
      assert (Hv : values h' (elems (fresh_slice (heap st) (doc_dependencies m)))
                   = Some (elems (doc_dependencies m))).
      { pose proof (slice_values_fresh (heap st) (doc_dependencies m)) as Hfresh.
        apply slice_values_elems in Hfresh as [Hfresh _].
        rewrite <- Hfresh. apply values_ext. intros p Hp.
        apply list_elem_of_lookup in Hp as [i Hi].
        destruct (values_lookup _ _ _ _ _ Hfresh Hi) as [_ [d Hd]].
        rewrite Hd. apply Hframe; [exact Hd|done]. }
      finish_materialized Hv.
    + simpl. split.
      * intros _. eexists. unfold mret, M_ret. simpl.
        rewrite app_nil_r, <- !app_assoc. reflexivity.
      * intros Hex. by apply Exists_nil in Hex.
Qed.

End Build.

(** * The plan of a call *)

Lemma elems_printed_slice (s : slice Dependency) :
  elems (printed_slice s) = map printed (elems s).
Proof. by destruct s. Qed.

Lemma elems_omitempty {A : Type} (s : slice A) : elems (omitempty s) = elems s.
Proof. by destruct s as [[|x l]|]. Qed.

Lemma document_Some (E : Env) (fs : gmap string File) (file : string) (d : Doc) :
  document E fs file = Some d ->
  faulty E (OpReadFile file) = false /\ fs !! file = Some (Document d).
Proof.
  unfold document. destruct (faulty E (OpReadFile file)); [done|].
  destruct (fs !! file) as [[|x]|]; [done| |done]. by intros [= <-].
Qed.

Lemma written_Some (E : Env) (file : string) (d : Doc) (fs fs' : gmap string File) :
  written E file d fs = Some fs' ->
  faulty E (OpWriteFile file) = false /\ fs' = <[file := Document d]> fs.
Proof.
  unfold written. destruct (faulty E (OpWriteFile file)); [done|]. by intros [= <-].
Qed.

Section Plan.
Variable E : Env.
Variables sourceRepo targetRepo : option Repo.
Variables syncTrusted ignoreTrusted : list Repo.

Abbreviation rewriteDep := (rewriteDep E sourceRepo targetRepo syncTrusted ignoreTrusted).
Abbreviation rewriteDeps := (rewriteDeps E sourceRepo targetRepo syncTrusted ignoreTrusted).
Abbreviation rewriteSlice := (rewriteSlice E sourceRepo targetRepo syncTrusted ignoreTrusted).
Abbreviation plan_rewrite := (plan_rewrite E sourceRepo targetRepo syncTrusted ignoreTrusted).
Abbreviation plan := (plan E sourceRepo targetRepo syncTrusted ignoreTrusted).

Lemma rewriteSlice_Some (s s' : slice Dependency) :
  rewriteSlice s = Some s' -> rewriteDeps (elems s) = Ok (elems s').
Proof.
  unfold chart.rewriteSlice.
  destruct (rewriteDeps (elems s)) as [l|] eqn:Hr; [|done].
  intros [= <-]. rewrite elems_slice_with; [done|].
  by apply rewriteDeps_length in Hr.
Qed.

(** what a rewrite step that succeeds has done *)
Lemma plan_rewrite_Some (fs fs' : gmap string File) (declFile : string)
    (print : Doc -> slice Dependency -> Doc)
    (lock : option (string * string * slice Dependency)) (ls' : slice Dependency) :
  plan_rewrite fs declFile print lock = Some (fs', ls') ->
  exists d ds',
    fs !! declFile = Some (Document d)
    /\ rewriteDeps (elems (doc_dependencies d)) = Ok (elems ds')
    /\ faulty E (OpReadFile declFile) = false
    /\ faulty E (OpWriteFile declFile) = false
    /\ match lock with
       | None => fs' = <[declFile := Document (print d ds')]> fs
       | Some (lockFile, generated, ls) =>
           rewriteDeps (elems ls) = Ok (elems ls')
           /\ faulty E (OpWriteFile lockFile) = false
           /\ fs' = <[lockFile := Document (print_Lock generated (digest_of ds' ls') ls')]>
                      (<[declFile := Document (print d ds')]> fs)
       end.
Proof.
  unfold chart.plan_rewrite.
  destruct (document E fs declFile) as [d|] eqn:Hd; [|done]. simpl.
  apply document_Some in Hd as [Hr Hd].
  destruct (rewriteSlice (doc_dependencies d)) as [ds'|] eqn:Hds; [|done]. simpl.
  apply rewriteSlice_Some in Hds.
  destruct (written E declFile (print d ds') fs) as [fs1|] eqn:Hw; [|done]. simpl.
  apply written_Some in Hw as [Hw ->].
  destruct lock as [[[lockFile generated] ls]|].
  - destruct (rewriteSlice ls) as [ls1|] eqn:Hls; [|done]. simpl.
    apply rewriteSlice_Some in Hls.
    destruct (written E lockFile _ _) as [fs2|] eqn:Hw2; [|done]. simpl.
    apply written_Some in Hw2 as [Hw2 ->].
    intros [= <- <-]. exists d, ds'. done.
  - intros [= <- <-]. exists d, ds'. done.
Qed.

Lemma lock_file_cases (fs : gmap string File) (stats : list Event) (v : string) :
  lockAPIVersion E fs = (stats, Done v) ->
  (v = APIV1 /\ lock_file fs = Some RequirementsLockFilename)
  \/ (v = APIV2 /\ lock_file fs = Some ChartLockFilename)
  \/ (v = "" /\ lock_file fs = None).
Proof.
  unfold lockAPIVersion, lock_file.
  destruct (faulty E (OpStat RequirementsLockFilename)); [done|].
  destruct (bool_decide (is_Some (fs !! RequirementsLockFilename))).
  { intros [= <- <-]. by left. }
  destruct (faulty E (OpStat ChartLockFilename)); [done|].
  destruct (bool_decide (is_Some (fs !! ChartLockFilename))).
  { intros [= <- <-]. by right; left. }
  intros [= <- <-]. by right; right.
Qed.

(** What a plan consists of: with a lock file, the rewrite of the
    declarations and of the lock entries, which are then materialized;
    without one, the rewrite of a Modern metadata file, whose
    declarations are materialized as they were read, or nothing. *)
Lemma plan_Some (fs : gmap string File) (pl : Plan) :
  plan fs = Some pl ->
  match lock_file fs with
  | Some lockFile =>
      exists declFile print l ls',
        declaration_file fs = Some declFile
        /\ declFile <> lockFile
        /\ (forall d s, elems (doc_dependencies (print d s)) = map printed (elems s))
        /\ fs !! lockFile = Some (Document l)
        /\ plan_rewrite fs declFile print
             (Some (lockFile, doc_generated l, doc_dependencies l))
           = Some (plan_files pl, ls')
        /\ plan_deps pl = elems ls'
  | None =>
      exists m,
        fs !! ChartFilename = Some (Document m)
        /\ if String.eqb (doc_apiVersion m) APIVersionV2
           then declaration_file fs = Some ChartFilename
                /\ (exists x, plan_rewrite fs ChartFilename print_as_Metadata None
                              = Some (plan_files pl, x))
                /\ plan_deps pl = elems (doc_dependencies m)
           else declaration_file fs = None
                /\ plan_files pl = fs /\ plan_deps pl = []
  end.
Proof.
  unfold chart.plan.
  destruct (faulty E OpRemoveAll || faulty E OpMkdir); [done|].
  destruct (lockAPIVersion E fs) as [stats [v|e|]] eqn:Hapi; [|done..].
  unfold declaration_file, modern_metadata.
  destruct (lock_file_cases _ _ _ Hapi) as [[-> ->]|[[-> ->]|[-> ->]]]; simpl.
  - unfold plan_locked.
    destruct (document E fs RequirementsLockFilename) as [l|] eqn:Hl; [|done]. simpl.
    apply document_Some in Hl as [_ Hl].
    destruct (plan_rewrite _ _ _ _) as [[fs' ls']|] eqn:Hrw; [|done]. simpl.
    intros [= <-]. simpl.
    exists RequirementsFilename, print_as_dependencies, l, ls'.
    split; [done|]. split; [done|]. split; [|done].
    intros d s. apply elems_printed_slice.
  - unfold plan_locked.
    destruct (document E fs ChartLockFilename) as [l|] eqn:Hl; [|done]. simpl.
    apply document_Some in Hl as [_ Hl].
    destruct (plan_rewrite _ _ _ _) as [[fs' ls']|] eqn:Hrw; [|done]. simpl.
    intros [= <-]. simpl.
    exists ChartFilename, print_as_Metadata, l, ls'.
    split; [done|]. split; [done|]. split; [|done].
    intros d s. simpl. by rewrite elems_omitempty, elems_printed_slice.
  - destruct (document E fs ChartFilename) as [m|] eqn:Hm; [|done]. simpl.
    apply document_Some in Hm as [_ Hm]. rewrite Hm.
    exists m. split; [done|].
    destruct (String.eqb (doc_apiVersion m) APIVersionV2).
    + destruct (plan_rewrite _ _ _ _) as [[fs' x]|] eqn:Hrw; [|done]. simpl in *.
      injection H as <-. simpl. eauto.
    + injection H as <-. done.
Qed.

End Plan.

(** * Calls that come back from the materializer *)

Section Returns.
Variable E : Env.
Variable r : ChartsReader.
Variables sourceRepo targetRepo : option Repo.
Variable t : gmap N ChartsReader.
Variables syncTrusted ignoreTrusted : list Repo.

Abbreviation dep_result := (dep_result E r t syncTrusted ignoreTrusted).
Abbreviation dep_events := (dep_events E r t syncTrusted ignoreTrusted).
Abbreviation dep_failure := (dep_failure E r t syncTrusted ignoreTrusted).
Abbreviation materialize := (materialize E r t syncTrusted ignoreTrusted).
Abbreviation failures := (failures E r t syncTrusted ignoreTrusted).
Abbreviation plan := (plan E sourceRepo targetRepo syncTrusted ignoreTrusted).
Abbreviation BuildDependencies :=
  (BuildDependencies E r sourceRepo targetRepo t syncTrusted ignoreTrusted).

Lemma clients_dec (ds : list Dependency) :
  Forall (fun d => dep_result d <> NoClient) ds
  \/ Exists (fun d => dep_result d = NoClient) ds.
Proof.
  induction ds as [|d ds [IH|IH]].
  - left. constructor.
  - destruct (dep_result d) eqn:Hd.
    + left. constructor; [by rewrite Hd|done].
    + left. constructor; [by rewrite Hd|done].
    + left. constructor; [by rewrite Hd|done].
    + right. by left.
  - right. by right.
Qed.


(** A call that comes back from the materializer followed its plan. *)
Lemma BuildDependencies_returned (st st' : State) (o : outcome unit) :
  BuildDependencies st = (st', o) -> returned o ->
  exists pl h',
    plan (files (package st)) = Some pl
    /\ Forall (fun d => dep_result d <> NoClient) (plan_deps pl)
    /\ st' = mkState (mkPackage (plan_files pl) (Some (materialize (plan_deps pl) ∅))) h'
                     (trace st ++ plan_events pl ++ flat_map dep_events (plan_deps pl))
    /\ o = verdict (failures (plan_deps pl)).
Proof.
  intros Hrun Hret.
  pose proof (BuildDependencies_run E r sourceRepo targetRepo t syncTrusted
                ignoreTrusted st) as Hspec.
  destruct (plan (files (package st))) as [pl|].
  - destruct Hspec as [Hok Hpanic].
    destruct (clients_dec (plan_deps pl)) as [Hc|Hc].
    + destruct (Hok Hc) as [h' Heq]. rewrite Hrun in Heq. injection Heq as -> ->.
      exists pl, h'. done.
    + destruct (Hpanic Hc) as [st'' Heq]. rewrite Hrun in Heq. injection Heq as -> ->.
      destruct Hret as [?|[? ?]]; done.
  - destruct Hspec as (st'' & e & Heq & Hfatal). rewrite Hrun in Heq.
    injection Heq as -> ->. destruct Hret as [?|[errs ?]]; [done|].
    simplify_eq. done.
Qed.

Lemma fetches_app (evs1 evs2 : list Event) :
  fetches (evs1 ++ evs2) = fetches evs1 ++ fetches evs2.
Proof.
  induction evs1 as [|[op|from name version] evs1 IH]; simpl; [done..|].
  by rewrite IH.
Qed.

Lemma fetches_dep_events (ds : list Dependency) :
  Forall (fun d => dep_result d <> NoClient) ds ->
  fetches (flat_map dep_events ds) = map (fetch_of E syncTrusted ignoreTrusted) ds.
Proof.
  induction 1 as [|d ds Hd _ IH]; [done|].
  simpl. rewrite fetches_app, IH. f_equal.
  unfold chart.dep_events, fetch_of. by destruct (dep_result d).
Qed.

Lemma fetches_plan_events (fs : gmap string File) (pl : Plan) :
  plan fs = Some pl -> fetches (plan_events pl) = [].
Proof.
  assert (Hapi : fetches (lockAPIVersion E fs).1 = []).
  { unfold lockAPIVersion.
    repeat (destruct (faulty _ _) || destruct (bool_decide _)); done. }
  unfold chart.plan.
  destruct (faulty E OpRemoveAll || faulty E OpMkdir); [done|].
  destruct (lockAPIVersion E fs) as [stats [v|e|]]; [|done..].
  simpl in Hapi.
  assert (Hlocked : forall lockFile declFile print,
            plan_locked E sourceRepo targetRepo syncTrusted ignoreTrusted fs stats
              lockFile declFile print = Some pl -> fetches (plan_events pl) = []).
  { intros lockFile declFile print. unfold plan_locked.
    destruct (document _ _ _); [|done]. simpl.
    destruct (plan_rewrite _ _ _ _ _ _ _ _ _); [|done]. simpl.
    intros [= <-]. unfold rewrite_events. simpl.
      by repeat (rewrite ?fetches_app, ?Hapi; simpl). }
  destruct (GoString.is_empty v).
  - destruct (document _ _ _) as [m|]; [|done]. simpl.
    destruct (String.eqb _ _).
    + destruct (plan_rewrite _ _ _ _ _ _ _ _ _); [|done]. simpl.
      intros [= <-]. unfold rewrite_events. simpl.
      by repeat (rewrite ?fetches_app, ?Hapi; simpl).
    + intros [= <-]. unfold rewrite_events. simpl.
      by repeat (rewrite ?fetches_app, ?Hapi; simpl).
  - destruct (String.eqb v APIV1); apply Hlocked.
Qed.

End Returns.

(** * Every computation only adds events *)

Lemma extends_ret {A : Type} (a : A) : extends (mret a).
Proof. intros st. exists []. simpl. by rewrite app_nil_r. Qed.

Lemma extends_fail {A : Type} (e : error) : extends (@fail A e).
Proof. intros st. exists []. simpl. by rewrite app_nil_r. Qed.

Lemma extends_panic {A : Type} : extends (@panic A).
Proof. intros st. exists []. simpl. by rewrite app_nil_r. Qed.

Lemma extends_lift {A : Type} (x : result error A) : extends (lift x).
Proof. destruct x; [apply extends_ret|apply extends_fail]. Qed.

Lemma extends_emit (ev : Event) : extends (emit ev).
Proof. intros st. by exists [ev]. Qed.

Lemma extends_get_package : extends get_package.
Proof. intros st. exists []. simpl. by rewrite app_nil_r. Qed.

Lemma extends_put_package (p : Package) : extends (put_package p).
Proof. intros st. exists []. simpl. by rewrite app_nil_r. Qed.

Lemma extends_new (d : Dependency) : extends (new d).
Proof. intros st. exists []. simpl. by rewrite app_nil_r. Qed.

Lemma extends_deref (p : ptr) : extends (deref p).
Proof.
  intros st. exists []. unfold deref. rewrite app_nil_r. by destruct (heap st !! p).
Qed.

Lemma extends_assign (p : ptr) (d : Dependency) : extends (assign p d).
Proof.
  intros st. exists []. unfold assign. rewrite app_nil_r. by destruct (heap st !! p).
Qed.

Lemma extends_bind {A B : Type} (m : M A) (f : A -> M B) :
  extends m -> (forall a, extends (f a)) -> extends (m ≫= f).
Proof.
  intros Hm Hf st. rewrite bind_run. destruct (Hm st) as [evs1 H1].
  destruct (m st) as [st1 [a| |]]; simpl in *; [|by eauto..].
  destruct (Hf a st1) as [evs2 H2]. exists (evs1 ++ evs2).
  by rewrite H2, H1, app_assoc.
Qed.

Lemma extends_attempt {A : Type} (m : M A) : extends m -> extends (attempt m).
Proof.
  intros Hm st. destruct (Hm st) as [evs H]. exists evs. unfold attempt.
  by destruct (m st) as [st1 [a| |]].
Qed.

Lemma extends_traverse {A B : Type} (f : A -> M B) (l : list A) :
  (forall x, extends (f x)) -> extends (traverse f l).
Proof.
  intros Hf. induction l as [|x l IH]; simpl.
  - apply extends_ret.
  - apply extends_bind; [done|]. intros y. apply extends_bind; [done|].
    intros ys. apply extends_ret.
Qed.

Ltac extends_step :=
  first
    [ solve [auto]
    | apply extends_ret | apply extends_fail | apply extends_panic | apply extends_lift
    | apply extends_emit | apply extends_get_package | apply extends_put_package
    | apply extends_new | apply extends_deref | apply extends_assign
    | apply extends_attempt
    | apply extends_traverse; intros
    | apply extends_bind; [|intros]
    | match goal with
      | |- extends (match ?x with _ => _ end) => destruct x
      | |- extends (if ?b then _ else _) => destruct b
      end
    | solve [auto] ].

Ltac extends_auto := repeat extends_step.

Section Extends.
Variable E : Env.

Lemma extends_io (op : IOOp) : extends (io E op).
Proof. unfold io. extends_auto. Qed.

Lemma extends_FileExists (file : string) : extends (FileExists E file).
Proof. unfold FileExists. pose proof extends_io. extends_auto. Qed.

Lemma extends_ReadFile (file : string) : extends (ReadFile E file).
Proof. unfold ReadFile. pose proof extends_io. extends_auto. Qed.

Lemma extends_WriteFile (file : string) (d : Doc) : extends (WriteFile E file d).
Proof. unfold WriteFile. pose proof extends_io. extends_auto. Qed.

Lemma extends_CopyFile (dst archive : string) : extends (CopyFile E dst archive).
Proof. unfold CopyFile. pose proof extends_io. extends_auto. Qed.

Lemma extends_new_slice (s : slice Dependency) : extends (new_slice s).
Proof. unfold new_slice. extends_auto. Qed.

Lemma extends_load_slice (s : slice ptr) : extends (load_slice s).
Proof. unfold load_slice. extends_auto. Qed.

Lemma extends_GetLockAPIVersion : extends (GetLockAPIVersion E).
Proof. unfold GetLockAPIVersion. pose proof extends_FileExists. extends_auto. Qed.

Lemma extends_GetChartLock : extends (GetChartLock E).
Proof.
  unfold GetChartLock, Lock_of_Doc.
  pose proof extends_GetLockAPIVersion. pose proof extends_ReadFile.
  pose proof extends_new_slice. extends_auto.
Qed.

Lemma extends_LoadChartfile (file : string) : extends (LoadChartfile E file).
Proof.
  unfold LoadChartfile, Metadata_of_Doc.
  pose proof extends_ReadFile. pose proof extends_new_slice. extends_auto.
Qed.

Lemma extends_hashDeps (req lock : slice ptr) : extends (hashDeps req lock).
Proof. unfold hashDeps. pose proof extends_load_slice. extends_auto. Qed.

Lemma extends_writeChartFile (dest : string) (v : Value) :
  extends (writeChartFile E dest v).
Proof.
  unfold writeChartFile, Marshal.
  pose proof extends_load_slice. pose proof extends_WriteFile. extends_auto.
Qed.

Variable r : ChartsReader.
Variables sourceRepo targetRepo : option Repo.
Variable t : gmap N ChartsReader.
Variables syncTrusted ignoreTrusted : list Repo.

Lemma extends_rewriteRepositories (deps : list ptr) :
  extends (rewriteRepositories E sourceRepo targetRepo syncTrusted ignoreTrusted deps).
Proof. induction deps as [|p deps IH]; simpl; extends_auto. Qed.

Lemma extends_updateLockFile (lock : option (Lock ptr)) (deps : slice ptr)
    (legacy : bool) :
  extends (updateLockFile E lock deps sourceRepo targetRepo legacy
                          syncTrusted ignoreTrusted).
Proof.
  unfold updateLockFile.
  pose proof extends_rewriteRepositories. pose proof extends_hashDeps.
  pose proof extends_writeChartFile. extends_auto.
Qed.

Lemma extends_updateChartMetadataFile (lock : option (Lock ptr)) :
  extends (updateChartMetadataFile E lock sourceRepo targetRepo
                                   syncTrusted ignoreTrusted).
Proof.
  unfold updateChartMetadataFile, Metadata_of_Doc.
  pose proof extends_rewriteRepositories. pose proof extends_updateLockFile.
  pose proof extends_writeChartFile. pose proof extends_ReadFile.
  pose proof extends_new_slice. extends_auto.
Qed.

Lemma extends_updateRequirementsFile (lock : option (Lock ptr)) :
  extends (updateRequirementsFile E lock sourceRepo targetRepo
                                  syncTrusted ignoreTrusted).
Proof.
  unfold updateRequirementsFile, dependencies_of_Doc.
  pose proof extends_rewriteRepositories. pose proof extends_updateLockFile.
  pose proof extends_writeChartFile. pose proof extends_ReadFile.
  pose proof extends_new_slice. extends_auto.
Qed.

Lemma extends_buildCharts (deps : list ptr) (errs : list error) :
  extends (buildCharts E r t syncTrusted ignoreTrusted deps errs).
Proof.
  revert errs. induction deps as [|p deps IH]; intros errs; simpl.
  - extends_auto.
  - pose proof extends_CopyFile. extends_auto; apply IH.
Qed.

Lemma extends_buildFrom (lock : option (Lock ptr)) (apiVersion : string)
    (depsFromMetadata : slice ptr) :
  extends (buildFrom E r sourceRepo targetRepo t syncTrusted ignoreTrusted
                     lock apiVersion depsFromMetadata).
Proof.
  unfold buildFrom.
  pose proof extends_updateRequirementsFile. pose proof extends_updateChartMetadataFile.
  pose proof extends_buildCharts. extends_auto.
Qed.

End Extends.

Lemma lockAPIVersion_no_fault (E : Env) (fs : gmap string File) :
  (forall file, faulty E (OpStat file) = false) ->
  exists stats,
    lockAPIVersion E fs =
    (stats, Done (match lock_file fs with
                  | Some lockFile =>
                      if String.eqb lockFile RequirementsLockFilename then APIV1 else APIV2
                  | None => ""
                  end)).
Proof.
  intros Hstat. unfold lockAPIVersion, lock_file. rewrite !Hstat.
  destruct (bool_decide (is_Some (fs !! RequirementsLockFilename))); [by eauto|].
  destruct (bool_decide (is_Some (fs !! ChartLockFilename))); by eauto.
Qed.

Lemma lock_file_Some (fs : gmap string File) (lockFile : string) :
  lock_file fs = Some lockFile ->
  lockFile = RequirementsLockFilename \/ lockFile = ChartLockFilename.
Proof.
  unfold lock_file.
  destruct (bool_decide _); [intros [= <-]; by left|].
  destruct (bool_decide _); [intros [= <-]; by right|done].
Qed.

(** C10: The [charts] folder is deleted and recreated before anything
    else: the first events of every call are the removal and the creation
    of the folder, and any further event comes after both succeeded.
    Consequently a call that then meets a malformed lock, declaration or
    metadata file ends with a fatal error and leaves an empty [charts]
    folder, whatever the folder held, the files being untouched. *)
Theorem charts_folder_emptied_before_parsing
    (E : Env) (r : ChartsReader) (sourceRepo targetRepo : option Repo)
    (t : gmap N ChartsReader) (syncTrusted ignoreTrusted : list Repo) (st : State) :
  let res := BuildDependencies E r sourceRepo targetRepo t syncTrusted ignoreTrusted st in
  (exists evs,
     trace res.1 = trace st ++ evs
     /\ (evs = [IO OpRemoveAll] \/ evs = [IO OpRemoveAll; IO OpMkdir]
         \/ exists evs', evs = IO OpRemoveAll :: IO OpMkdir :: evs'
                         /\ faulty E OpRemoveAll = false /\ faulty E OpMkdir = false))
  /\ (faulty E OpRemoveAll = false -> faulty E OpMkdir = false ->
      (forall file, faulty E (OpStat file) = false) ->
      (forall file, faulty E (OpReadFile file) = false) ->
      malformed (files (package st)) ->
      exists e, res.2 = Failed e /\ fatal e
                /\ charts (package res.1) = Some ∅
                /\ files (package res.1) = files (package st)).
Proof.
  intros res. subst res. unfold BuildDependencies. split.
  - rewrite bind_run, RemoveAll_charts_run.
    destruct (faulty E OpRemoveAll) eqn:Hrm; simpl.
    { exists [IO OpRemoveAll]. split; [done|by left]. }
    rewrite bind_run, Mkdir_charts_run. simpl.
    destruct (faulty E OpMkdir) eqn:Hmk; simpl.
    { exists [IO OpRemoveAll; IO OpMkdir]. split; [by rewrite <- app_assoc|by right; left]. }
    match goal with
    | |- context [mbind ?f ?m ?st2] =>
        assert (Hext : extends (mbind f m)); [|destruct (Hext st2) as [evs' Hevs]]
    end.
    { pose proof (extends_GetChartLock E). pose proof (extends_GetLockAPIVersion E).
      pose proof (extends_LoadChartfile E).
      pose proof (extends_buildFrom E r sourceRepo targetRepo t syncTrusted ignoreTrusted).
      extends_auto. }
    exists (IO OpRemoveAll :: IO OpMkdir :: evs'). split.
    + rewrite Hevs. simpl. by rewrite <- !app_assoc.
    + right; right. by exists evs'.
  - intros Hrm Hmk Hstat Hread Hmal.
    rewrite bind_run, RemoveAll_charts_run, Hrm. simpl.
    rewrite bind_run, Mkdir_charts_run, Hmk. simpl.
    set (st2 := mkState _ _ _).
    pose proof (GetChartLock_run E st2) as Hlock.
    destruct (lockAPIVersion_no_fault E (files (package st)) Hstat) as [stats Hapi].
    change (files (package st2)) with (files (package st)) in Hlock.
    rewrite Hapi in Hlock. unfold malformed in Hmal.
    destruct (lock_file (files (package st))) as [lockFile|] eqn:Hlf.
    + assert (Hdoc : forall l, files (package st) !! lockFile = Some (Document l) ->
                document E (files (package st)) lockFile = Some l).
      { intros l Hl. unfold document. by rewrite Hread, Hl. }
      destruct (lock_file_Some _ _ Hlf) as [->| ->]; simpl in Hlock, Hmal.
      * destruct Hmal as [Hbad|[[l Hl] Hbad]].
        -- unfold GetChartLock in *. rewrite !bind_run, GetLockAPIVersion_run.
           cbn [files package st2]. rewrite Hapi. simpl.
           rewrite ret_bind, bind_run, ReadFile_run, Hread. cbn [files package log st2].
           rewrite Hbad. simpl. eexists. done.
        -- rewrite (Hdoc _ Hl) in Hlock. rewrite bind_run, Hlock. cbv beta iota.
           rewrite bind_run, GetLockAPIVersion_run. cbn [files package].
           rewrite Hapi. simpl. unfold buildFrom. simpl (String.eqb _ _). cbv iota.
           unfold updateRequirementsFile.
           rewrite !bind_run, ReadFile_run, Hread. cbn [files package log].
           rewrite Hbad. simpl. eexists. done.
      * destruct Hmal as [Hbad|[[l Hl] Hbad]].
        -- unfold GetChartLock in *. rewrite !bind_run, GetLockAPIVersion_run.
           cbn [files package st2]. rewrite Hapi. simpl.
           rewrite ret_bind, bind_run, ReadFile_run, Hread. cbn [files package log st2].
           rewrite Hbad. simpl. eexists. done.
        -- rewrite (Hdoc _ Hl) in Hlock. rewrite bind_run, Hlock. cbv beta iota.
           rewrite bind_run, GetLockAPIVersion_run. cbn [files package].
           rewrite Hapi. simpl. unfold buildFrom. simpl (String.eqb _ _). cbv iota.
           unfold updateChartMetadataFile.
           rewrite !bind_run, ReadFile_run, Hread. cbn [files package log].
           rewrite Hbad. simpl. eexists. done.
    + simpl in Hlock. rewrite bind_run, Hlock. cbv beta iota.
      rewrite bind_run, GetLockAPIVersion_run. subst st2. cbn [files package log].
      rewrite Hapi. simpl. unfold LoadChartfile.
      rewrite !bind_run, ReadFile_run, Hread. cbn [files package log].
      rewrite Hmal. simpl. eexists. done.
Qed.

(** C7: [GetLockAPIVersion] decides by the presence of the lock files
    alone, whatever they hold: Legacy as soon as [requirements.lock] is
    there, also next to a [Chart.lock]; Modern when only [Chart.lock] is
    there; the empty version, without an error, when neither is.  The
    package is left as it was. *)
Theorem GetLockAPIVersion_by_presence (E : Env) (st : State) :
  let fs := files (package st) in
  let res := GetLockAPIVersion E st in
  (faulty E (OpStat RequirementsLockFilename) = false ->
   is_Some (fs !! RequirementsLockFilename) ->
   res.2 = Done APIV1 /\ package res.1 = package st)
  /\ (faulty E (OpStat RequirementsLockFilename) = false ->
      faulty E (OpStat ChartLockFilename) = false ->
      fs !! RequirementsLockFilename = None -> is_Some (fs !! ChartLockFilename) ->
      res.2 = Done APIV2 /\ package res.1 = package st)
  /\ (faulty E (OpStat RequirementsLockFilename) = false ->
      faulty E (OpStat ChartLockFilename) = false ->
      fs !! RequirementsLockFilename = None -> fs !! ChartLockFilename = None ->
      res.2 = Done "" /\ package res.1 = package st).
Proof.
  intros fs res. subst fs res. rewrite GetLockAPIVersion_run. unfold lockAPIVersion.
  split; [|split].
  - intros -> Hrl. by rewrite bool_decide_eq_true_2.
  - intros -> -> Hrl Hcl.
    rewrite bool_decide_eq_false_2 by (rewrite Hrl; by intros [? ?]).
    by rewrite bool_decide_eq_true_2.
  - intros -> -> Hrl Hcl.
    rewrite bool_decide_eq_false_2 by (rewrite Hrl; by intros [? ?]).
    by rewrite bool_decide_eq_false_2 by (rewrite Hcl; by intros [? ?]).
Qed.

Lemma entries_insert_eq (fs : gmap string File) (file : string) (d : Doc) :
  entries (<[file := Document d]> fs) file = elems (doc_dependencies d).
Proof. unfold entries. by rewrite lookup_insert_eq. Qed.

Lemma entries_insert_ne (fs : gmap string File) (file file' : string) (f : File) :
  file <> file' -> entries (<[file := f]> fs) file' = entries fs file'.
Proof. intros Hne. unfold entries. by rewrite lookup_insert_ne. Qed.

Lemma entries_Document (fs : gmap string File) (file : string) (d : Doc) :
  fs !! file = Some (Document d) -> entries fs file = elems (doc_dependencies d).
Proof. intros H. unfold entries. by rewrite H. Qed.

Lemma name_version_printed (d : Dependency) : name_version (printed d) = name_version d.
Proof. done. Qed.

Section RewriteStep.
Variable E : Env.
Variable r : ChartsReader.
Variables sourceRepo targetRepo : option Repo.
Variable t : gmap N ChartsReader.
Variables syncTrusted ignoreTrusted : list Repo.

Abbreviation rewriteDep := (rewriteDep E sourceRepo targetRepo syncTrusted ignoreTrusted).
Abbreviation rewriteDeps := (rewriteDeps E sourceRepo targetRepo syncTrusted ignoreTrusted).
Abbreviation dep_result := (dep_result E r t syncTrusted ignoreTrusted).
Abbreviation dep_events := (dep_events E r t syncTrusted ignoreTrusted).
Abbreviation dep_failure := (dep_failure E r t syncTrusted ignoreTrusted).
Abbreviation dep_store := (dep_store E r t syncTrusted ignoreTrusted).
Abbreviation materialize := (materialize E r t syncTrusted ignoreTrusted).
Abbreviation failures := (failures E r t syncTrusted ignoreTrusted).
Abbreviation plan := (plan E sourceRepo targetRepo syncTrusted ignoreTrusted).
Abbreviation fetch_of := (fetch_of E syncTrusted ignoreTrusted).
Abbreviation BuildDependencies :=
  (BuildDependencies E r sourceRepo targetRepo t syncTrusted ignoreTrusted).

Lemma rewriteDep_name_version (d d' : Dependency) :
  rewriteDep d = Ok d' -> name_version d' = name_version d.
Proof.
  unfold chart.rewriteDep. destruct (selected _ _ _ _ _).
  - destruct (getDependencyRepoURL targetRepo); [|done]. by intros [= <-].
  - by intros [= <-].
Qed.


Lemma rewriteDep_same_repository (x y x' y' : Dependency) :
  rewriteDep x = Ok x' -> rewriteDep y = Ok y' ->
  Repository x = Repository y -> Repository x' = Repository y'.
Proof.
  unfold chart.rewriteDep. intros Hx Hy Heq. rewrite <- Heq in Hy.
  destruct (selected _ _ _ _ _).
  - destruct (getDependencyRepoURL targetRepo); [|done].
    injection Hx as <-. by injection Hy as <-.
  - injection Hx as <-. by injection Hy as <-.
Qed.

(** The rewrite step, on the files: after a call that came back from the
    materializer, the entries of the declaration file and those of the
    lock file are the rewritten entries, as printed. *)
Lemma rewrite_step_entries (st st' : State) (o : outcome unit) (file : string) :
  BuildDependencies st = (st', o) -> returned o ->
  declaration_file (files (package st)) = Some file
  \/ lock_file (files (package st)) = Some file ->
  exists ds',
    rewriteDeps (entries (files (package st)) file) = Ok ds'
    /\ entries (files (package st')) file = map printed ds'.
Proof.
  intros Hrun Hret Hfile.
  destruct (BuildDependencies_returned _ _ _ _ _ _ _ _ _ _ Hrun Hret)
    as (pl & h' & Hplan & _ & -> & _).
  apply plan_Some in Hplan. simpl.
  destruct (lock_file (files (package st))) as [lockFile|] eqn:Hlf.
  - destruct Hplan as (declFile & print & l & ls' & Hdf & Hne & Hprint & Hl & Hrw & _).
    apply plan_rewrite_Some in Hrw
      as (d & ds' & Hd & Hds' & _ & _ & Hls' & _ & ->).
    destruct Hfile as [Hf|Hf].
    + rewrite Hdf in Hf. injection Hf as <-. exists (elems ds'). split.
      * by rewrite (entries_Document _ _ _ Hd).
      * rewrite entries_insert_ne by done. by rewrite entries_insert_eq, Hprint.
    + injection Hf as <-. exists (elems ls'). split.
      * by rewrite (entries_Document _ _ _ Hl).
      * rewrite entries_insert_eq. simpl. apply elems_printed_slice.
  - destruct Hplan as (m & Hm & Hplan). destruct Hfile as [Hf|Hf]; [|done].
    destruct (String.eqb (doc_apiVersion m) APIVersionV2).
    + destruct Hplan as (Hdf & [x Hrw] & _).
      rewrite Hdf in Hf. injection Hf as <-.
      apply plan_rewrite_Some in Hrw as (d & ds' & Hd & Hds' & _ & _ & ->).
      exists (elems ds'). split.
      * by rewrite (entries_Document _ _ _ Hd).
      * rewrite entries_insert_eq. simpl.
        by rewrite elems_omitempty, elems_printed_slice.
    + destruct Hplan as [Hdf _]. by rewrite Hdf in Hf.
Qed.


(** C9 (amended): The rewrite step changes no name and no version, in
    the declaration list nor in the lock list, and decides for every
    entry from that entry's own repository: a declaration entry and a
    lock entry that carried the same repository carry the same
    repository afterwards. *)
Theorem rewrite_keeps_identities_and_agrees (st st' : State) (o : outcome unit) :
  BuildDependencies st = (st', o) -> returned o ->
  (forall file,
     declaration_file (files (package st)) = Some file
     \/ lock_file (files (package st)) = Some file ->
     map name_version (entries (files (package st')) file)
     = map name_version (entries (files (package st)) file))
  /\ (forall declFile lockFile i j x y x' y',
        declaration_file (files (package st)) = Some declFile ->
        lock_file (files (package st)) = Some lockFile ->
        entries (files (package st)) declFile !! i = Some x ->
        entries (files (package st)) lockFile !! j = Some y ->
        entries (files (package st')) declFile !! i = Some x' ->
        entries (files (package st')) lockFile !! j = Some y' ->
        Repository x = Repository y -> Repository x' = Repository y').
Proof.
  intros Hrun Hret. split.
  - intros file Hfile.
    destruct (rewrite_step_entries _ _ _ _ Hrun Hret Hfile) as (ds' & Hds' & ->).
    revert ds' Hds'. generalize (entries (files (package st)) file).
    intros l. induction l as [|d l IH]; intros ds'; simpl.
    + by intros [= <-].
    + destruct (rewriteDep d) as [d'|] eqn:Hd; [|done].
      destruct (rewriteDeps l) as [l'|]; [|done].
      intros [= <-]. simpl. rewrite name_version_printed.
      rewrite (rewriteDep_name_version _ _ Hd). f_equal. by apply IH.
  - intros declFile lockFile i j x y x' y' Hdf Hlf Hx Hy Hx' Hy' Heq.
    destruct (rewrite_step_entries _ _ _ _ Hrun Hret (or_introl Hdf))
      as (ds' & Hds' & Hed).
    destruct (rewrite_step_entries _ _ _ _ Hrun Hret (or_intror Hlf))
      as (ls' & Hls' & Hel).
    rewrite Hed in Hx'. rewrite Hel in Hy'.
    destruct (rewriteDeps_lookup _ _ _ _ _ _ _ _ _ Hds' Hx) as (x1 & Hx1 & Hrx).
    destruct (rewriteDeps_lookup _ _ _ _ _ _ _ _ _ Hls' Hy) as (y1 & Hy1 & Hry).
    rewrite list_lookup_fmap, Hx1 in Hx'. injection Hx' as <-.
    rewrite list_lookup_fmap, Hy1 in Hy'. injection Hy' as <-.
    simpl. by apply (rewriteDep_same_repository _ _ _ _ Hrx Hry).
Qed.


End RewriteStep.


Section Materializer.
Variable E : Env.
Variable r : ChartsReader.
Variables sourceRepo targetRepo : option Repo.
Variable t : gmap N ChartsReader.
Variables syncTrusted ignoreTrusted : list Repo.

Abbreviation rewriteDeps := (rewriteDeps E sourceRepo targetRepo syncTrusted ignoreTrusted).
Abbreviation dep_result := (dep_result E r t syncTrusted ignoreTrusted).
Abbreviation dep_events := (dep_events E r t syncTrusted ignoreTrusted).
Abbreviation dep_failure := (dep_failure E r t syncTrusted ignoreTrusted).
Abbreviation dep_store := (dep_store E r t syncTrusted ignoreTrusted).
Abbreviation materialize := (materialize E r t syncTrusted ignoreTrusted).
Abbreviation failures := (failures E r t syncTrusted ignoreTrusted).
Abbreviation plan := (plan E sourceRepo targetRepo syncTrusted ignoreTrusted).
Abbreviation fetch_of := (fetch_of E syncTrusted ignoreTrusted).
Abbreviation BuildDependencies :=
  (BuildDependencies E r sourceRepo targetRepo t syncTrusted ignoreTrusted).









End Materializer.

Lemma rewriteDeps_idem (E : Env) (sourceRepo targetRepo : option Repo)
    (syncTrusted ignoreTrusted : list Repo) (ds ds' : list Dependency) :
  rewriteDeps E sourceRepo targetRepo syncTrusted ignoreTrusted ds = Ok ds' ->
  rewriteDeps E sourceRepo targetRepo syncTrusted ignoreTrusted ds' = Ok ds'.
Proof.
  revert ds'. induction ds as [|d ds IH]; intros ds'; simpl.
  - by intros [= <-].
  - destruct (rewriteDep _ _ _ _ _ d) as [d'|] eqn:Hd; [|done].
    destruct (rewriteDeps _ _ _ _ _ ds) as [l|]; [|done].
    intros [= <-]. simpl. apply rewriteDep_idem in Hd. rewrite Hd.
    by rewrite (IH l).
Qed.

(** C5: The rewrite is idempotent.  Running the rewrite loop twice in
    sequence over the same entries ends as running it once: same store,
    hence same repositories, same outcome; and on the values, rewriting a
    rewritten list changes nothing. *)
Theorem rewrite_is_idempotent (E : Env) (sourceRepo targetRepo : option Repo)
    (syncTrusted ignoreTrusted : list Repo) :
  (forall (deps : list ptr) (st : State),
     (_ ← rewriteRepositories E sourceRepo targetRepo syncTrusted ignoreTrusted deps;
      rewriteRepositories E sourceRepo targetRepo syncTrusted ignoreTrusted deps) st
     = rewriteRepositories E sourceRepo targetRepo syncTrusted ignoreTrusted deps st)
  /\ (forall ds : list Dependency,
        match rewriteDeps E sourceRepo targetRepo syncTrusted ignoreTrusted ds with
        | Ok ds' => rewriteDeps E sourceRepo targetRepo syncTrusted ignoreTrusted ds' = Ok ds'
        | Err _ => True
        end).
Proof.
  split.
  - intros deps st. rewrite bind_run.
    destruct (rewriteRepositories _ _ _ _ _ deps st) as [st' [[]|e|]] eqn:Hrun; [|done..].
    apply rewriteRepositories_stable_run.
    by apply (rewriteRepositories_stable _ _ _ _ _ _ _ _ Hrun).
  - intros ds.
    destruct (rewriteDeps _ _ _ _ _ ds) as [ds'|] eqn:Hds; [|done].
    by apply rewriteDeps_idem in Hds.
Qed.

(** C6 (amended): [hashDeps] is a function of the values of the two
    lists: it changes nothing, and two runs on the same pair of lists,
    wherever the entries lie in the store, answer the same digest, the
    SHA-256 of the JSON text of the pair behind the prefix [sha256:]. *)
Theorem hashDeps_is_a_function_of_the_pair
    (req1 lock1 req2 lock2 : slice ptr) (st1 st2 : State)
    (reqs locks : slice Dependency) :
  slice_values (heap st1) req1 = Some reqs ->
  slice_values (heap st1) lock1 = Some locks ->
  slice_values (heap st2) req2 = Some reqs ->
  slice_values (heap st2) lock2 = Some locks ->
  exists digest,
    hashDeps req1 lock1 st1 = (st1, Done digest)
    /\ hashDeps req2 lock2 st2 = (st2, Done digest)
    /\ digest = String.append "sha256:" (SHA256.hexdigest (JSON.Marshal reqs locks)).
Proof.
  intros H1 H2 H3 H4. eexists. rewrite !hashDeps_run, H1, H2, H3, H4. done.
Qed.

(** * The theorems on the sample configuration *)





(** C9: as stated, the declarations and the lock entries would hold the
    same (name, version) pairs after the rewrite.  The sample package
    declares [redis] with the range [17.x.x] and locks it at [17.0.0]; the
    call ends without an error and the two files still differ. *)
Lemma identities_counterexample :
  (sample_good_run sample_package).2 = Done tt
  /\ ("redis", "17.x.x")
     ∈ map name_version (entries (files (package (sample_good_run sample_package).1))
                                 ChartFilename)
  /\ ("redis", "17.x.x")
     ∉ map name_version (entries (files (package (sample_good_run sample_package).1))
                                 ChartLockFilename).
Proof.
  vm_compute. split; [done|]. split.
  - by left.
  - intros Hin. repeat (apply elem_of_cons in Hin as [Hin|Hin]; [done|]).
    by apply elem_of_nil in Hin.
Qed.

Lemma rewrite_keeps_identities_and_agrees_witness :
  (forall file,
     declaration_file (files (package (sample_state sample_package))) = Some file
     \/ lock_file (files (package (sample_state sample_package))) = Some file ->
     map name_version (entries (files (package (sample_good_run sample_package).1)) file)
     = map name_version (entries (files (package (sample_state sample_package))) file))
  /\ (forall declFile lockFile i j x y x' y',
        declaration_file (files (package (sample_state sample_package))) = Some declFile ->
        lock_file (files (package (sample_state sample_package))) = Some lockFile ->
        entries (files (package (sample_state sample_package))) declFile !! i = Some x ->
        entries (files (package (sample_state sample_package))) lockFile !! j = Some y ->
        entries (files (package (sample_good_run sample_package).1)) declFile !! i = Some x' ->
        entries (files (package (sample_good_run sample_package).1)) lockFile !! j = Some y' ->
        Repository x = Repository y -> Repository x' = Repository y').
Proof.
  apply (rewrite_keeps_identities_and_agrees sample_env sample_mirror_client sample_source
           sample_target sample_clients [] sample_ignoreTrusted
           (sample_state sample_package) (sample_good_run sample_package).1
           (sample_good_run sample_package).2).
  - vm_compute. reflexivity.
  - left. vm_compute. reflexivity.
Defined.


Lemma charts_folder_emptied_before_parsing_witness :
  charts sample_broken_package = Some {["old-0.0.1.tgz" := "old"]}
  /\ exists e,
      (sample_run sample_broken_package).2 = Failed e /\ fatal e
      /\ charts (package (sample_run sample_broken_package).1) = Some ∅
      /\ files (package (sample_run sample_broken_package).1)
         = files (package (sample_state sample_broken_package)).
Proof.
  split; [reflexivity|].
  apply (charts_folder_emptied_before_parsing sample_env sample_target_client
           sample_source sample_target sample_clients [] sample_ignoreTrusted
           (sample_state sample_broken_package)).
  - reflexivity.
  - reflexivity.
  - intros file. reflexivity.
  - intros file. reflexivity.
  - left. vm_compute. reflexivity.
Defined.

Lemma GetLockAPIVersion_by_presence_witness :
  (GetLockAPIVersion sample_env (sample_state sample_mixed_package)).2 = Done APIV1
  /\ package (GetLockAPIVersion sample_env (sample_state sample_mixed_package)).1
     = package (sample_state sample_mixed_package).
Proof.
  apply (GetLockAPIVersion_by_presence sample_env (sample_state sample_mixed_package)).
  - reflexivity.
  - vm_compute. eexists. reflexivity.
Defined.

(** C6: as stated, any change to either list would change the digest.
    The two sample entries differ, in their [tags], and the digests of the
    two lists that hold the one and the other are the same: the JSON text
    leaves an empty [tags] out as it leaves an absent one out. *)
Lemma digest_counterexample :
  sample_untagged <> sample_empty_tags
  /\ slice_values (heap sample_store) (Some [0]) = Some (Some [sample_untagged])
  /\ slice_values (heap sample_store) (Some [1]) = Some (Some [sample_empty_tags])
  /\ exists digest,
      hashDeps (Some [0]) None sample_store = (sample_store, Done digest)
      /\ hashDeps (Some [1]) None sample_store = (sample_store, Done digest).
Proof.
  split; [done|]. split; [reflexivity|]. split; [reflexivity|].
  eexists. split; vm_compute; reflexivity.
Qed.

Lemma hashDeps_is_a_function_of_the_pair_witness :
  exists digest,
    hashDeps (Some [0]) None sample_store = (sample_store, Done digest)
    /\ hashDeps (Some [0]) None (mkState (mkPackage ∅ None) [sample_untagged] [])
       = (mkState (mkPackage ∅ None) [sample_untagged] [], Done digest)
    /\ digest = String.append "sha256:"
                  (SHA256.hexdigest (JSON.Marshal (Some [sample_untagged]) None)).
Proof.
  apply (hashDeps_is_a_function_of_the_pair (Some [0]) None (Some [0]) None
           sample_store (mkState (mkPackage ∅ None) [sample_untagged] [])
           (Some [sample_untagged]) None); reflexivity.
Defined.

(** * Steps *)

Lemma frame_refl (S : list string) (st : State) : frame S st st.
Proof. by intros f _. Qed.

Lemma frame_trans (S : list string) (st1 st2 st3 : State) :
  frame S st1 st2 -> frame S st2 st3 -> frame S st1 st3.
Proof. intros H1 H2 f Hf. by rewrite (H2 f Hf), (H1 f Hf). Qed.

Lemma frame_mono (S S' : list string) (st st' : State) :
  S ⊆ S' -> frame S st st' -> frame S' st st'.
Proof. intros Hsub H f Hf. apply H. intros Hin. by apply Hf, Hsub. Qed.

Lemma frame_log (S : list string) (evs : list Event) (st : State) :
  frame S st (log evs st).
Proof. by intros f _. Qed.

Lemma step_mono {A : Type} (S S' : list string) (Q Q' : A -> Prop) (m : M A) :
  S ⊆ S' -> (forall a, Q a -> Q' a) -> step S Q m -> step S' Q' m.
Proof.
  intros Hsub HQ Hm st. destruct (Hm st) as (Hf & Ht & Ho).
  split; [by eapply frame_mono|]. split; [done|].
  destruct ((m st).2); auto.
Qed.

Lemma step_ret {A : Type} (S : list string) (Q : A -> Prop) (a : A) :
  Q a -> step S Q (mret a).
Proof. intros Ha st. simpl. by split; [apply frame_refl|]. Qed.

Lemma step_ret_any {A : Type} (S : list string) (a : A) : step S (fun _ => True) (mret a).
Proof. by apply step_ret. Qed.

Lemma step_fail {A : Type} (S : list string) (Q : A -> Prop) (e : error) :
  step_error e -> step S Q (fail e).
Proof. intros He st. simpl. by split; [apply frame_refl|]. Qed.

Lemma step_panic {A : Type} (S : list string) (Q : A -> Prop) : step S Q panic.
Proof. intros st. simpl. by split; [apply frame_refl|]. Qed.

Lemma step_lift {A : Type} (S : list string) (Q : A -> Prop) (r : result error A) :
  match r with Ok a => Q a | Err e => step_error e end -> step S Q (lift r).
Proof. destruct r; [apply step_ret|apply step_fail]. Qed.

Lemma step_bind {A B : Type} (S : list string) (Q : A -> Prop) (Q' : B -> Prop)
    (m : M A) (f : A -> M B) :
  step S Q m -> (forall a, Q a -> step S Q' (f a)) -> step S Q' (m ≫= f).
Proof.
  intros Hm Hf st. rewrite bind_run. destruct (Hm st) as (H1 & H2 & H3).
  destruct (m st) as [st1 [a| |]]; simpl in *; [|done..].
  destruct (Hf a H3 st1) as (H4 & H5 & H6).
  split; [by eapply frame_trans|]. split; [congruence|done].
Qed.

(** a computation that leaves the package and the trace as they are *)
Lemma step_store {A : Type} (S : list string) (m : M A) :
  (forall st, package (m st).1 = package st /\ trace (m st).1 = trace st
              /\ forall e, (m st).2 <> Failed e) ->
  step S (fun _ => True) m.
Proof.
  intros H st. destruct (H st) as (Hp & Ht & Ho).
  split; [intros f _; by rewrite Hp|]. split; [by rewrite Ht|].
  destruct ((m st).2) as [a|e|]; [done| |done]. by destruct (Ho e).
Qed.

Lemma step_new (S : list string) (d : Dependency) : step S (fun _ => True) (new d).
Proof. by apply step_store. Qed.

Lemma step_deref (S : list string) (p : ptr) : step S (fun _ => True) (deref p).
Proof. apply step_store. intros st. unfold deref. by destruct (heap st !! p). Qed.

Lemma step_assign (S : list string) (p : ptr) (d : Dependency) :
  step S (fun _ => True) (assign p d).
Proof. apply step_store. intros st. unfold assign. by destruct (heap st !! p). Qed.

Lemma step_new_slice (S : list string) (s : slice Dependency) :
  step S (fun _ => True) (new_slice s).
Proof. apply step_store. intros st. by rewrite new_slice_run. Qed.

Lemma step_load_slice (S : list string) (s : slice ptr) :
  step S (fun _ => True) (load_slice s).
Proof.
  apply step_store. intros st. rewrite load_slice_run.
  by destruct (slice_values (heap st) s).
Qed.

Lemma fetches_IO (evs : list Event) (op : IOOp) : fetches (evs ++ [IO op]) = fetches evs.
Proof. rewrite fetches_app. simpl. by rewrite app_nil_r. Qed.

Section Steps.
Variable E : Env.

Lemma step_FileExists (S : list string) (file : string) :
  step S (fun _ => True) (FileExists E file).
Proof.
  intros st. rewrite FileExists_run. simpl.
  split; [apply frame_log|]. split; [apply fetches_IO|].
  by destruct (faulty E (OpStat file)).
Qed.

Lemma step_ReadFile (S : list string) (file : string) :
  step S (fun _ => True) (ReadFile E file).
Proof.
  intros st. rewrite ReadFile_run. simpl.
  split; [apply frame_log|]. split; [apply fetches_IO|].
  destruct (faulty E (OpReadFile file)); [done|].
  by destruct (files (package st) !! file).
Qed.

Lemma step_WriteFile (S : list string) (file : string) (d : Doc) :
  file ∈ S -> step S (fun _ => True) (WriteFile E file d).
Proof.
  intros Hin st. rewrite WriteFile_run.
  destruct (faulty E (OpWriteFile file)); simpl.
  - split; [apply frame_log|]. split; [apply fetches_IO|done].
  - split; [|split; [apply fetches_IO|done]].
    intros f Hf. apply lookup_insert_ne. by intros ->.
Qed.

Lemma step_RemoveAll_charts (S : list string) :
  step S (fun _ => True) (RemoveAll_charts E).
Proof.
  intros st. rewrite RemoveAll_charts_run.
  destruct (faulty E OpRemoveAll); simpl;
    (split; [by intros f _|split; [apply fetches_IO|done]]).
Qed.

Lemma step_Mkdir_charts (S : list string) :
  step S (fun _ => True) (Mkdir_charts E).
Proof.
  intros st. rewrite Mkdir_charts_run.
  destruct (faulty E OpMkdir); [|destruct (charts (package st))]; simpl;
    (split; [by intros f _|split; [apply fetches_IO|done]]).
Qed.

Lemma step_GetLockAPIVersion (S : list string) :
  step S (fun v => v = APIV1 \/ v = APIV2 \/ v = "") (GetLockAPIVersion E).
Proof.
  intros st. rewrite GetLockAPIVersion_run. simpl.
  split; [apply frame_log|]. unfold lockAPIVersion.
  destruct (faulty E (OpStat RequirementsLockFilename));
    [|destruct (bool_decide _);
      [|destruct (faulty E (OpStat ChartLockFilename)); [|destruct (bool_decide _)]]];
    simpl; rewrite fetches_app; simpl; rewrite app_nil_r; auto.
Qed.

Lemma step_Unmarshal {B : Type} (S : list string) (Q : B -> Prop)
    (file : string) (f : File) (ctx : Context) (k : Doc -> M B) :
  ctx = Unmarshaling file \/ ctx = ErrorUnmarshaling file ->
  (forall d, step S Q (k d)) ->
  step S Q
    (match Unmarshal file f with
     | Err err => fail (Annotatef err ctx)
     | Ok d => k d
     end).
Proof.
  intros Hctx Hk. destruct f; simpl; [|apply Hk].
  apply step_fail. by destruct Hctx as [-> | ->].
Qed.

End Steps.

Ltac in_list := repeat first [apply list_elem_of_here | apply list_elem_of_further].

Ltac step_one :=
  first
    [ eassumption
    | apply step_ret_any
    | apply step_panic
    | apply step_new | apply step_deref | apply step_assign
    | apply step_new_slice | apply step_load_slice
    | apply step_FileExists | apply step_ReadFile
    | apply step_WriteFile; in_list
    | apply step_RemoveAll_charts | apply step_Mkdir_charts
    | apply step_Unmarshal; [auto|intros]
    | eapply step_bind; [|intros ? ?]
    | match goal with
      | |- step _ _ (match ?x with _ => _ end) => destruct x
      | |- step _ _ (if ?b then _ else _) => destruct b
      | |- step _ _ (let _ := _ in _) => cbv zeta
      end ].

Ltac step_auto := repeat step_one.

Section FunctionSteps.
Variable E : Env.
Variables sourceRepo targetRepo : option Repo.
Variables syncTrusted ignoreTrusted : list Repo.

Lemma step_GetChartLock (S : list string) : step S (fun _ => True) (GetChartLock E).
Proof.
  unfold GetChartLock. eapply step_bind; [apply step_GetLockAPIVersion|].
  intros v [-> | [-> | ->]]; simpl; unfold Lock_of_Doc; step_auto.
Qed.

Lemma step_LoadChartfile (S : list string) (file : string) :
  step S (fun _ => True) (LoadChartfile E file).
Proof.
  unfold LoadChartfile, Metadata_of_Doc. eapply step_bind; [apply step_ReadFile|].
  intros f _. eapply step_bind; [|intros ? ?; step_auto].
  apply (step_lift S (fun _ => True)). by destruct f.
Qed.

Lemma step_hashDeps (S : list string) (req lock : slice ptr) :
  step S (fun _ => True) (hashDeps req lock).
Proof. unfold hashDeps, provenance_Digest. step_auto. Qed.

Lemma step_writeChartFile (S : list string) (dest : string) (v : Value) :
  dest ∈ S -> step S (fun _ => True) (writeChartFile E dest v).
Proof.
  intros Hin. unfold writeChartFile, Marshal.
  eapply step_bind; [destruct v; step_auto|].
  intros d _. by apply step_WriteFile.
Qed.

Lemma step_getDependencyRepoURL (S : list string) :
  step S (fun _ => True) (lift (getDependencyRepoURL targetRepo)).
Proof.
  apply step_lift. unfold getDependencyRepoURL.
  destruct (Kind_eqb _ _); [|done]. by destruct (URL.Parse _).
Qed.

Lemma step_rewriteRepositories (S : list string) (deps : list ptr) :
  step S (fun _ => True)
    (rewriteRepositories E sourceRepo targetRepo syncTrusted ignoreTrusted deps).
Proof.
  induction deps as [|p rest IH]; simpl; [step_auto|].
  pose proof (step_getDependencyRepoURL S). step_auto.
Qed.

Lemma step_updateLockFile (S : list string) (lock : option (Lock ptr)) (deps : slice ptr)
    (legacyLockfile : bool) :
  (if legacyLockfile then RequirementsLockFilename else ChartLockFilename) ∈ S ->
  step S (fun _ => True)
    (updateLockFile E lock deps sourceRepo targetRepo legacyLockfile
                    syncTrusted ignoreTrusted).
Proof.
  intros Hin. unfold updateLockFile. destruct lock as [lock|]; [|apply step_panic].
  pose proof (step_rewriteRepositories S). pose proof (step_hashDeps S).
  eapply step_bind; [auto|]. intros _ _. eapply step_bind; [auto|]. intros d _.
  by apply step_writeChartFile.
Qed.

Lemma step_updateChartMetadataFile (lock : option (Lock ptr)) :
  step [ChartFilename; ChartLockFilename] (fun _ => True)
    (updateChartMetadataFile E lock sourceRepo targetRepo syncTrusted ignoreTrusted).
Proof.
  unfold updateChartMetadataFile, Metadata_of_Doc. cbv zeta.
  eapply step_bind; [apply step_ReadFile|]. intros f _.
  apply step_Unmarshal; [auto|]. intros d.
  eapply step_bind; [step_auto|]. intros m _.
  eapply step_bind; [apply step_rewriteRepositories|]. intros _ _.
  eapply step_bind; [apply step_writeChartFile; in_list|]. intros _ _.
  destruct lock; [|step_auto]. apply step_updateLockFile. in_list.
Qed.

Lemma step_updateRequirementsFile (lock : option (Lock ptr)) :
  step [RequirementsFilename; RequirementsLockFilename] (fun _ => True)
    (updateRequirementsFile E lock sourceRepo targetRepo syncTrusted ignoreTrusted).
Proof.
  unfold updateRequirementsFile, dependencies_of_Doc. cbv zeta.
  eapply step_bind; [apply step_ReadFile|]. intros f _.
  apply step_Unmarshal; [auto|]. intros d.
  eapply step_bind; [step_auto|]. intros m _.
  eapply step_bind; [apply step_rewriteRepositories|]. intros _ _.
  eapply step_bind; [apply step_writeChartFile; in_list|]. intros _ _.
  apply step_updateLockFile. in_list.
Qed.

End FunctionSteps.

(** * Calls *)

Lemma step_call (S : list string) (Q : unit -> Prop) (m : M unit) :
  step S Q m -> call S m.
Proof.
  intros Hm st. destruct (Hm st) as (Hf & Ht & Ho). split; [done|].
  destruct ((m st).2); auto.
Qed.

Lemma call_bind {A : Type} (S : list string) (Q : A -> Prop) (m : M A) (f : A -> M unit) :
  step S Q m -> (forall a, Q a -> call S (f a)) -> call S (m ≫= f).
Proof.
  intros Hm Hf st. rewrite bind_run. destruct (Hm st) as (H1 & H2 & H3).
  destruct (m st) as [st1 [a| |]]; simpl in *; [|by auto..].
  destruct (Hf a H3 st1) as (H4 & H5).
  split; [by eapply frame_trans|].
  destruct ((f a st1).2); [done| |done].
  destruct H5 as [[He Ht]|H5]; [left|by right]. split; [done|congruence].
Qed.

Lemma call_mono (S S' : list string) (m : M unit) : S ⊆ S' -> call S m -> call S' m.
Proof.
  intros Hsub Hm st. destruct (Hm st) as (Hf & Ho). split; [by eapply frame_mono|done].
Qed.

Section Calls.
Variable E : Env.
Variable r : ChartsReader.
Variables sourceRepo targetRepo : option Repo.
Variable t : gmap N ChartsReader.
Variables syncTrusted ignoreTrusted : list Repo.

(** the loop of the materializer writes no file of the package, never
    returns an error, and adds to [errs] errors of its own making only *)
Lemma buildCharts_gathers (deps : list ptr) (errs : list error) (st : State) :
  files (package (buildCharts E r t syncTrusted ignoreTrusted deps errs st).1)
  = files (package st)
  /\ match (buildCharts E r t syncTrusted ignoreTrusted deps errs st).2 with
     | Done errs' => exists more, errs' = errs ++ more /\ Forall gathered more
     | Failed _ => False
     | Panic => True
     end.
Proof.
  revert errs st. induction deps as [|p rest IH]; intros errs st.
  { simpl. split; [done|]. exists []. by rewrite app_nil_r. }
  remember (buildCharts E r t syncTrusted ignoreTrusted (p :: rest) errs st) as res
    eqn:Hres.
  cbn [buildCharts] in Hres. rewrite bind_run in Hres. unfold deref at 1 in Hres.
  destruct (heap st !! p) as [dep|]; [|by subst res]. cbv zeta in Hres.
  destruct (match _ with SourceSide _ => _ | TargetSide => _ end) as [c|];
    [|by subst res].
  rewrite bind_run in Hres. unfold emit at 1 in Hres. cbv beta iota in Hres.
  set (st1 := mkState _ _ _) in Hres.
  assert (files (package st1) = files (package st)) as <- by done. clearbody st1.
  destruct (Fetch c (Name dep) (Version dep)) as [archive|err].
  - rewrite bind_run in Hres. unfold attempt in Hres. rewrite CopyFile_run in Hres.
    destruct (faulty E (OpCopyFile (dep_file dep))) eqn:Hfaulty;
      [|destruct (charts (package st1)) eqn:Hcharts]; cbv beta iota in Hres.
    + destruct (IH (Append errs (Annotatef (IOError (OpCopyFile (dep_file dep)))
                                   (CopyingChart (dep_id dep) (dep_file dep))))
                   (log [IO (OpCopyFile (dep_file dep))] st1)) as [Hf Ho].
      rewrite <- Hres in Hf, Ho.
      split; [exact Hf|]. destruct res.2; [|done..].
      destruct Ho as (more & -> & Hmore). eexists (_ :: more).
      split; [unfold Append; by rewrite <- app_assoc|]. by constructor.
    + set (st2 := mkState _ _ _) in Hres.
      destruct (IH errs st2) as [Hf Ho]. rewrite <- Hres in Hf, Ho.
      split; [exact Hf|done].
    + destruct (IH (Append errs (Annotatef (IOError (OpCopyFile (dep_file dep)))
                                   (CopyingChart (dep_id dep) (dep_file dep))))
                   (log [IO (OpCopyFile (dep_file dep))] st1)) as [Hf Ho].
      rewrite <- Hres in Hf, Ho.
      split; [exact Hf|]. destruct res.2; [|done..].
      destruct Ho as (more & -> & Hmore). eexists (_ :: more).
      split; [unfold Append; by rewrite <- app_assoc|]. by constructor.
  - destruct (IH (Append errs (Annotatef err (FetchingChart (dep_id dep)))) st1)
      as [Hf Ho].
    rewrite <- Hres in Hf, Ho.
    split; [exact Hf|]. destruct res.2; [|done..].
    destruct Ho as (more & -> & Hmore). eexists (_ :: more).
    split; [unfold Append; by rewrite <- app_assoc|]. by constructor.
Qed.

Lemma call_materializer (S : list string) (deps : list ptr) :
  call S (errs ← buildCharts E r t syncTrusted ignoreTrusted deps [];
          match errs with [] => mret tt | _ :: _ => fail (MultiError errs) end).
Proof.
  intros st. rewrite bind_run.
  destruct (buildCharts_gathers deps [] st) as [Hf Ho].
  destruct (buildCharts _ _ _ _ _ _ _ _) as [st1 [errs| |]]; simpl in *; [|done|].
  - destruct Ho as (more & -> & Hmore).
    destruct more as [|e more]; simpl; (split; [intros f _; by rewrite Hf|]); [done|].
    right. by exists (e :: more).
  - split; [intros f _; by rewrite Hf|done].
Qed.

Lemma call_buildFrom (lock : option (Lock ptr)) (apiVersion : string)
    (depsFromMetadata : slice ptr) :
  apiVersion = APIV1 \/ apiVersion = APIV2 ->
  call (if String.eqb apiVersion APIV1
        then [RequirementsFilename; RequirementsLockFilename]
        else [ChartFilename; ChartLockFilename])
    (buildFrom E r sourceRepo targetRepo t syncTrusted ignoreTrusted
               lock apiVersion depsFromMetadata).
Proof.
  intros [-> | ->]; unfold buildFrom; simpl (String.eqb _ _); cbv iota.
  - eapply call_bind; [apply step_updateRequirementsFile|].
    intros _ _. apply call_materializer.
  - eapply call_bind; [apply step_updateChartMetadataFile|].
    intros _ _. apply call_materializer.
Qed.

Lemma dependency_files_legacy :
  [RequirementsFilename; RequirementsLockFilename] ⊆ dependency_files.
Proof.
  intros f Hf. unfold dependency_files.
  repeat (apply elem_of_cons in Hf as [-> | Hf]; [in_list|]).
  by apply elem_of_nil in Hf.
Qed.

Lemma dependency_files_modern :
  [ChartFilename; ChartLockFilename] ⊆ dependency_files.
Proof.
  intros f Hf. unfold dependency_files.
  repeat (apply elem_of_cons in Hf as [-> | Hf]; [in_list|]).
  by apply elem_of_nil in Hf.
Qed.

Lemma call_BuildDependencies :
  call dependency_files
    (BuildDependencies E r sourceRepo targetRepo t syncTrusted ignoreTrusted).
Proof.
  unfold BuildDependencies.
  eapply call_bind; [apply step_RemoveAll_charts|]. intros _ _.
  eapply call_bind; [apply step_Mkdir_charts|]. intros _ _.
  eapply call_bind; [apply step_GetChartLock|]. intros lock _.
  eapply call_bind; [apply step_GetLockAPIVersion|].
  intros v [-> | [-> | ->]]; simpl (GoString.is_empty _); cbv iota.
  - eapply call_mono; [apply dependency_files_legacy|].
    apply (call_buildFrom lock APIV1 None). by left.
  - eapply call_mono; [apply dependency_files_modern|].
    apply (call_buildFrom lock APIV2 None). by right.
  - eapply call_bind; [apply step_LoadChartfile|]. intros m _.
    destruct (String.eqb _ _).
    + eapply call_mono; [apply dependency_files_modern|].
      apply (call_buildFrom lock APIV2). by right.
    + eapply step_call. apply step_ret_any.
Qed.

End Calls.

(** * How a call may end, and what it may touch *)

Section Ends.
Variable E : Env.
Variable r : ChartsReader.
Variables sourceRepo targetRepo : option Repo.
Variable t : gmap N ChartsReader.
Variables syncTrusted ignoreTrusted : list Repo.

Abbreviation BuildDependencies :=
  (BuildDependencies E r sourceRepo targetRepo t syncTrusted ignoreTrusted).
Abbreviation plan := (plan E sourceRepo targetRepo syncTrusted ignoreTrusted).
Abbreviation dep_result := (dep_result E r t syncTrusted ignoreTrusted).
Abbreviation origin_of := (origin_of E syncTrusted ignoreTrusted).


(** X2: The errors [BuildDependencies] returns.  An error is that of a
    step before the materializer (an operation the file system refused,
    a file that is no YAML document, a target URL that does not parse) or
    the aggregate of the errors gathered for dependencies, which is not
    empty.  It is never the error of an unrecognised [apiVersion]: the
    default branches of the two switches are out of reach. *)
Theorem BuildDependencies_errors (st st' : State) (e : error) :
  BuildDependencies st = (st', Failed e) ->
  (step_error e
   \/ exists errs, e = MultiError errs /\ errs <> [] /\ Forall gathered errs)
  /\ forall apiVersion, e <> UnrecognisedAPIVersion apiVersion.
Proof.
  intros Hrun. destruct (call_BuildDependencies E r sourceRepo targetRepo t
                           syncTrusted ignoreTrusted st) as [_ Ho].
  rewrite Hrun in Ho. simpl in Ho. split.
  - destruct Ho as [[He _]|Ho]; [by left|by right].
  - intros v ->. destruct Ho as [[He _]|(errs & He & _)]; [done|discriminate].
Qed.

(** X3: The rewrite comes before the first fetch.  A call that ends with
    a fatal error, any error but the aggregate of the materializer, has
    fetched nothing. *)
Theorem fatal_error_comes_before_any_fetch (st st' : State) (e : error) :
  BuildDependencies st = (st', Failed e) -> fatal e ->
  fetches (trace st') = fetches (trace st).
Proof.
  intros Hrun Hfatal. destruct (call_BuildDependencies E r sourceRepo targetRepo t
                                  syncTrusted ignoreTrusted st) as [_ Ho].
  rewrite Hrun in Ho. simpl in Ho.
  destruct Ho as [[_ Ht]|(errs & -> & _)]; [done|by destruct Hfatal].
Qed.


(** X5: A package without a lock file whose metadata file does not
    declare the Modern generation is left alone: the call empties the
    [charts] folder, reads the metadata file, writes nothing, fetches
    nothing and returns no error, whatever a requirements file
    declares. *)
Theorem legacy_package_without_lock_is_left_alone (st : State) (m : Doc) :
  lock_file (files (package st)) = None ->
  files (package st) !! ChartFilename = Some (Document m) ->
  doc_apiVersion m <> APIVersionV2 ->
  faulty E OpRemoveAll = false -> faulty E OpMkdir = false ->
  faulty E (OpStat RequirementsLockFilename) = false ->
  faulty E (OpStat ChartLockFilename) = false ->
  faulty E (OpReadFile ChartFilename) = false ->
  exists h' evs,
    BuildDependencies st
    = (mkState (mkPackage (files (package st)) (Some ∅)) h' (trace st ++ evs), Done tt)
    /\ fetches evs = []
    /\ forall file, IO (OpWriteFile file) ∉ evs.
Proof.
  intros Hlock Hm Hv H1 H2 H3 H4 H5.
  pose proof (BuildDependencies_run E r sourceRepo targetRepo t syncTrusted
                ignoreTrusted st) as Hplan.
  unfold chart.plan in Hplan. rewrite H1, H2 in Hplan. simpl in Hplan.
  unfold lock_file in Hlock. unfold lockAPIVersion in Hplan.
  rewrite H3, H4 in Hplan.
  destruct (bool_decide (is_Some (files (package st) !! RequirementsLockFilename)));
    [done|].
  destruct (bool_decide (is_Some (files (package st) !! ChartLockFilename))); [done|].
  simpl in Hplan. unfold document in Hplan. rewrite H5, Hm in Hplan. simpl in Hplan.
  apply String.eqb_neq in Hv. rewrite Hv in Hplan.
  destruct Hplan as [Hall _]. cbn [plan_deps plan_files plan_events] in Hall.
  destruct (Hall (Forall_nil_2 _)) as (h' & Hres).
  simpl in Hres.
  eexists h', _. split; [exact Hres|]. split; [reflexivity|].
  intros file Hin. simpl in Hin.
  repeat (apply elem_of_cons in Hin as [Hin|Hin]; [discriminate|]).
  by apply elem_of_nil in Hin.
Qed.

End Ends.

(** * What the rewrite step writes *)

(** printing leaves the JSON text of an entry as it is: both leave an
    empty list out *)
Lemma of_Dependency_printed (d : Dependency) :
  JSON.of_Dependency (printed d) = JSON.of_Dependency d.
Proof.
  unfold JSON.of_Dependency, printed. simpl.
  by destruct (Tags d) as [[|? ?]|], (ImportValues d) as [[|? ?]|].
Qed.

Lemma Marshal_printed (ds ls : slice Dependency) :
  JSON.Marshal (printed_slice ds) (printed_slice ls) = JSON.Marshal ds ls.
Proof.
  unfold JSON.Marshal.
  assert (forall s, JSON.of_slice JSON.of_Dependency (printed_slice s)
                    = JSON.of_slice JSON.of_Dependency s) as Hs.
  { intros [l|]; [|done]. simpl. f_equal. rewrite map_map.
    apply map_ext. intros d. apply of_Dependency_printed. }
  by rewrite !Hs.
Qed.

Lemma digest_of_printed (ds ls : slice Dependency) :
  digest_of (printed_slice ds) (printed_slice ls) = digest_of ds ls.
Proof. unfold digest_of. by rewrite Marshal_printed. Qed.

Lemma omitempty_id {A : Type} (s : slice A) : elems s <> [] -> omitempty s = s.
Proof. by destruct s as [[|x l]|]. Qed.

Section Written.
Variable E : Env.
Variable r : ChartsReader.
Variables sourceRepo targetRepo : option Repo.
Variable t : gmap N ChartsReader.
Variables syncTrusted ignoreTrusted : list Repo.

Abbreviation BuildDependencies :=
  (BuildDependencies E r sourceRepo targetRepo t syncTrusted ignoreTrusted).
Abbreviation plan := (plan E sourceRepo targetRepo syncTrusted ignoreTrusted).
Abbreviation rewriteDep := (rewriteDep E sourceRepo targetRepo syncTrusted ignoreTrusted).
Abbreviation rewriteDeps := (rewriteDeps E sourceRepo targetRepo syncTrusted ignoreTrusted).
Abbreviation rewriteSlice := (rewriteSlice E sourceRepo targetRepo syncTrusted ignoreTrusted).
Abbreviation plan_rewrite := (plan_rewrite E sourceRepo targetRepo syncTrusted ignoreTrusted).

Lemma rewriteSlice_with (s s' : slice Dependency) :
  rewriteSlice s = Some s' ->
  exists l, rewriteDeps (elems s) = Ok l /\ s' = slice_with s l.
Proof.
  unfold chart.rewriteSlice. destruct (rewriteDeps (elems s)) as [l|]; [|done].
  intros [= <-]. by exists l.
Qed.

(** the files a plan leaves when the package has a lock file *)
Lemma plan_with_lock (fs : gmap string File) (pl : Plan) (lockFile : string) :
  plan fs = Some pl -> lock_file fs = Some lockFile ->
  exists declFile print d l ds' ls',
    (declFile = RequirementsFilename /\ lockFile = RequirementsLockFilename
     /\ print = print_as_dependencies
     \/ declFile = ChartFilename /\ lockFile = ChartLockFilename
        /\ print = print_as_Metadata)
    /\ fs !! declFile = Some (Document d)
    /\ fs !! lockFile = Some (Document l)
    /\ rewriteDeps (elems (doc_dependencies d)) = Ok ds'
    /\ rewriteDeps (elems (doc_dependencies l)) = Ok ls'
    /\ plan_deps pl = ls'
    /\ plan_files pl
       = <[lockFile :=
             Document (print_Lock (doc_generated l)
                         (digest_of (slice_with (doc_dependencies d) ds')
                                    (slice_with (doc_dependencies l) ls'))
                         (slice_with (doc_dependencies l) ls'))]>
           (<[declFile := Document (print d (slice_with (doc_dependencies d) ds'))]> fs).
Proof.
  unfold chart.plan.
  destruct (faulty E OpRemoveAll || faulty E OpMkdir); [done|].
  destruct (lockAPIVersion E fs) as [stats [v|e|]] eqn:Hapi; [|done..].
  intros Hplan Hlock.
  assert (forall declFile print,
            plan_locked E sourceRepo targetRepo syncTrusted ignoreTrusted fs stats
              lockFile declFile print = Some pl ->
            exists d l ds' ls',
              fs !! declFile = Some (Document d)
              /\ fs !! lockFile = Some (Document l)
              /\ rewriteDeps (elems (doc_dependencies d)) = Ok ds'
              /\ rewriteDeps (elems (doc_dependencies l)) = Ok ls'
              /\ plan_deps pl = ls'
              /\ plan_files pl
                 = <[lockFile :=
                       Document (print_Lock (doc_generated l)
                                   (digest_of (slice_with (doc_dependencies d) ds')
                                              (slice_with (doc_dependencies l) ls'))
                                   (slice_with (doc_dependencies l) ls'))]>
                     (<[declFile :=
                          Document (print d (slice_with (doc_dependencies d) ds'))]> fs))
    as Hlocked.
  { intros declFile print. unfold plan_locked, chart.plan_rewrite.
    destruct (document E fs lockFile) as [l|] eqn:Hl; [|done]. simpl.
    apply document_Some in Hl as [_ Hl].
    destruct (document E fs declFile) as [d|] eqn:Hd; [|done]. simpl.
    apply document_Some in Hd as [_ Hd].
    destruct (rewriteSlice (doc_dependencies d)) as [Ds|] eqn:HDs; [|done]. simpl.
    apply rewriteSlice_with in HDs as (ds' & Hds' & ->).
    destruct (written E declFile _ fs) as [fs1|] eqn:Hw1; [|done]. simpl.
    apply written_Some in Hw1 as [_ ->].
    destruct (rewriteSlice (doc_dependencies l)) as [Ls|] eqn:HLs; [|done]. simpl.
    apply rewriteSlice_with in HLs as (ls' & Hls' & ->).
    destruct (written E lockFile _ _) as [fs2|] eqn:Hw2; [|done]. simpl.
    apply written_Some in Hw2 as [_ ->].
    intros [= <-]. simpl. exists d, l, ds', ls'.
    repeat split; try done.
    apply elems_slice_with. by apply rewriteDeps_length in Hls'. }
  destruct (lock_file_cases _ _ _ _ Hapi) as [[-> Hf]|[[-> Hf]|[-> Hf]]];
    rewrite Hf in Hlock; [| |done]; injection Hlock as <-; simpl in Hplan.
  - destruct (Hlocked _ _ Hplan) as (d & l & ds' & ls' & H).
    exists RequirementsFilename, print_as_dependencies, d, l, ds', ls'.
    split; [by left|done].
  - destruct (Hlocked _ _ Hplan) as (d & l & ds' & ls' & H).
    exists ChartFilename, print_as_Metadata, d, l, ds', ls'.
    split; [by right|done].
Qed.


(** X7: The lock file the rewrite step writes agrees with the files on
    disk: when the declaration file has entries, the digest of the
    written lock file is the one [hashDeps] gives for the entries read
    back from the written declaration file and from the written lock
    file. *)
Theorem written_digest_matches_the_written_files (st st' : State) (o : outcome unit)
    (declFile lockFile : string) :
  BuildDependencies st = (st', o) -> returned o ->
  lock_file (files (package st)) = Some lockFile ->
  declaration_file (files (package st)) = Some declFile ->
  entries (files (package st)) declFile <> [] ->
  exists D L,
    files (package st') !! declFile = Some (Document D)
    /\ files (package st') !! lockFile = Some (Document L)
    /\ doc_digest L = digest_of (doc_dependencies D) (doc_dependencies L).
Proof.
  intros Hrun Hret Hlock Hdecl Hne.
  destruct (BuildDependencies_returned _ _ _ _ _ _ _ _ _ _ Hrun Hret)
    as (pl & h' & Hplan & _ & -> & _).
  destruct (plan_with_lock _ _ _ Hplan Hlock)
    as (declFile' & print & d & l & ds' & ls' & Hcase & Hd & Hl & Hds & Hls & _ & Hfs).
  assert (declFile' = declFile /\ declFile <> lockFile) as [-> Hdiff].
  { unfold declaration_file in Hdecl. rewrite Hlock in Hdecl.
    destruct Hcase as [(-> & -> & _)|(-> & -> & _)]; simpl in Hdecl;
      by injection Hdecl as <-. }
  simpl. rewrite Hfs. eexists _, _.
  split; [by rewrite lookup_insert_ne, lookup_insert_eq|].
  split; [by rewrite lookup_insert_eq|].
  rewrite (entries_Document _ _ _ Hd) in Hne.
  pose proof (rewriteDeps_length _ _ _ _ _ _ _ Hds) as Hlen.
  assert (elems (printed_slice (slice_with (doc_dependencies d) ds')) <> []) as Hne'.
  { rewrite elems_printed_slice, elems_slice_with by done.
    destruct ds'; [|done]. by destruct (elems (doc_dependencies d)). }
  destruct Hcase as [(_ & _ & ->)|(_ & _ & ->)]; simpl;
    rewrite ?(omitempty_id _ Hne'); by rewrite digest_of_printed.
Qed.

(** X8: How the rewrite step decides on an entry, of the declaration
    file or of the lock file.  An entry whose repository the classifier
    asks to ignore, and which is not the source repository, is written
    back with the repository it had; any other entry is written back with
    the canonical URL of the target.  Nothing else changes in an entry,
    but that [yaml.Marshal] leaves empty lists out. *)
Theorem rewrite_step_decides_by_the_classifier (st st' : State) (o : outcome unit)
    (file : string) (i : nat) (x : Dependency) :
  BuildDependencies st = (st', o) -> returned o ->
  declaration_file (files (package st)) = Some file
  \/ lock_file (files (package st)) = Some file ->
  entries (files (package st)) file !! i = Some x ->
  exists x',
    entries (files (package st')) file !! i = Some x'
    /\ if ShouldIgnoreRepo E (mkRepo (Repository x) Kind_UNKNOWN) syncTrusted ignoreTrusted
          && negb (String.eqb (Repository x) (GetUrl sourceRepo))
       then x' = printed x
       else exists repoUrl,
              getDependencyRepoURL targetRepo = Ok repoUrl
              /\ x' = printed (set_Repository repoUrl x).
Proof.
  intros Hrun Hret Hfile Hx.
  destruct (rewrite_step_entries _ _ _ _ _ _ _ _ _ _ _ Hrun Hret Hfile)
    as (ds' & Hds' & ->).
  destruct (rewriteDeps_lookup _ _ _ _ _ _ _ _ _ Hds' Hx) as (y & Hy & Hr).
  exists (printed y). split; [by rewrite list_lookup_fmap, Hy|].
  unfold chart.rewriteDep, selected in Hr.
  destruct (String.eqb (Repository x) (GetUrl sourceRepo));
    destruct (ShouldIgnoreRepo E _ _ _); simpl in *;
    try (destruct (getDependencyRepoURL targetRepo) as [repoUrl|]; [|done];
         injection Hr as <-; by exists repoUrl).
  by injection Hr as <-.
Qed.

End Written.

(** * The [charts] folder *)

Section Folder.
Variable E : Env.
Variable r : ChartsReader.
Variables sourceRepo targetRepo : option Repo.
Variable t : gmap N ChartsReader.
Variables syncTrusted ignoreTrusted : list Repo.

Abbreviation BuildDependencies :=
  (BuildDependencies E r sourceRepo targetRepo t syncTrusted ignoreTrusted).
Abbreviation plan := (plan E sourceRepo targetRepo syncTrusted ignoreTrusted).
Abbreviation dep_result := (dep_result E r t syncTrusted ignoreTrusted).
Abbreviation dep_store := (dep_store E r t syncTrusted ignoreTrusted).
Abbreviation materialize := (materialize E r t syncTrusted ignoreTrusted).

(** no dependency of [ds] leaves an archive in the file [f] *)
Abbreviation untouched f ds :=
  (Forall (fun d => dep_file d = f -> forall a, dep_result d <> Materialized a) ds).



End Folder.

(** * A second call *)

Lemma printed_printed (d : Dependency) : printed (printed d) = printed d.
Proof.
  unfold printed. simpl.
  by destruct (Tags d) as [[|? ?]|], (ImportValues d) as [[|? ?]|].
Qed.

Lemma printed_slice_printed (s : slice Dependency) :
  printed_slice (printed_slice s) = printed_slice s.
Proof.
  destruct s as [l|]; [|done]. simpl. f_equal. rewrite map_map.
  apply map_ext. intros d. apply printed_printed.
Qed.

Lemma omitempty_omitempty {A : Type} (s : slice A) : omitempty (omitempty s) = omitempty s.
Proof. by destruct s as [[|x l]|]. Qed.

Lemma printed_slice_omitempty (s : slice Dependency) :
  printed_slice (omitempty s) = omitempty (printed_slice s).
Proof. by destruct s as [[|x l]|]. Qed.

Lemma slice_with_elems {A : Type} (s : slice A) : slice_with s (elems s) = s.
Proof. by destruct s. Qed.

Section Again.
Variable E : Env.
Variable r : ChartsReader.
Variables sourceRepo targetRepo : option Repo.
Variable t : gmap N ChartsReader.
Variables syncTrusted ignoreTrusted : list Repo.

Abbreviation BuildDependencies :=
  (BuildDependencies E r sourceRepo targetRepo t syncTrusted ignoreTrusted).
Abbreviation plan := (plan E sourceRepo targetRepo syncTrusted ignoreTrusted).
Abbreviation rewriteDep := (rewriteDep E sourceRepo targetRepo syncTrusted ignoreTrusted).
Abbreviation rewriteDeps := (rewriteDeps E sourceRepo targetRepo syncTrusted ignoreTrusted).

Lemma rewriteDep_printed (d d' : Dependency) :
  rewriteDep d = Ok d' -> rewriteDep (printed d) = Ok (printed d').
Proof.
  unfold chart.rewriteDep. simpl.
  destruct (selected _ _ _ _ _); [|by intros [= <-]].
  destruct (getDependencyRepoURL targetRepo); [|done]. by intros [= <-].
Qed.

Lemma rewriteDeps_printed (ds ds' : list Dependency) :
  rewriteDeps ds = Ok ds' -> rewriteDeps (map printed ds) = Ok (map printed ds').
Proof.
  revert ds'. induction ds as [|d ds IH]; intros ds'; simpl.
  { by intros [= <-]. }
  destruct (rewriteDep d) as [d1|] eqn:Hd; [|done].
  destruct (rewriteDeps ds) as [ds1|] eqn:Hds; [|done].
  intros [= <-]. by rewrite (rewriteDep_printed _ _ Hd), (IH _ eq_refl).
Qed.

(** the entries a first call wrote are left as they are by the rewrite *)
Lemma rewriteDeps_written (ds ds' : list Dependency) :
  rewriteDeps ds = Ok ds' -> rewriteDeps (map printed ds') = Ok (map printed ds').
Proof.
  intros Hds. apply rewriteDeps_printed.
  by apply (rewriteDeps_idem _ _ _ _ _ ds).
Qed.

Lemma omitempty_elems {A : Type} (s s' : slice A) :
  elems s = elems s' -> omitempty s = omitempty s'.
Proof.
  destruct s as [[|x l]|], s' as [[|x' l']|]; unfold omitempty; simpl; congruence.
Qed.

Lemma lock_file_ext (fs fs' : gmap string File) :
  (is_Some (fs' !! RequirementsLockFilename) <-> is_Some (fs !! RequirementsLockFilename)) ->
  (is_Some (fs' !! ChartLockFilename) <-> is_Some (fs !! ChartLockFilename)) ->
  lock_file fs' = lock_file fs.
Proof.
  intros H1 H2. unfold lock_file.
  rewrite (bool_decide_ext _ _ H1), (bool_decide_ext _ _ H2). done.
Qed.

Lemma is_Some_insert_present (fs : gmap string File) (file file' : string) (x : File) :
  is_Some (fs !! file) ->
  is_Some (<[file := x]> fs !! file') <-> is_Some (fs !! file').
Proof.
  intros Hin. destruct (decide (file = file')) as [<-|Hne].
  - rewrite lookup_insert_eq. split; [done|by eexists].
  - by rewrite lookup_insert_ne.
Qed.

(** what the rewrite step writes over a declaration file it wrote *)
Lemma print_as_Metadata_again (m : Doc) (s s' : slice Dependency) :
  elems s' = elems (doc_dependencies (print_as_Metadata m s)) ->
  print_as_Metadata (print_as_Metadata m s) s' = print_as_Metadata m s.
Proof.
  intros Hs'. unfold print_as_Metadata, print_Metadata in *. simpl in *. f_equal.
  apply omitempty_elems.
  rewrite !elems_printed_slice, Hs', elems_omitempty, elems_printed_slice, map_map.
  apply map_ext. intros x. apply printed_printed.
Qed.

Lemma print_as_dependencies_again (m : Doc) (s : slice Dependency) :
  print_as_dependencies (print_as_dependencies m s)
    (doc_dependencies (print_as_dependencies m s))
  = print_as_dependencies m s.
Proof.
  unfold print_as_dependencies, print_dependencies. simpl.
  by rewrite printed_slice_printed.
Qed.

Lemma plan_again (fs : gmap string File) (pl pl2 : Plan) :
  plan fs = Some pl ->
  (forall declFile,
     lock_file fs <> None -> declaration_file fs = Some declFile ->
     entries fs declFile <> []) ->
  plan (plan_files pl) = Some pl2 ->
  plan_files pl2 = plan_files pl.
Proof.
  intros Hplan Hne Hplan2.
  destruct (lock_file fs) as [lockFile|] eqn:Hlock.
  - destruct (plan_with_lock _ _ _ _ _ _ _ _ Hplan Hlock)
      as (declFile & print & d & l & ds' & ls' & Hcase & Hd & Hl & Hds & Hls & _ & Hfs).
    assert (declFile <> lockFile) as Hdiff.
    { by destruct Hcase as [(-> & -> & _)|(-> & -> & _)]. }
    assert (declaration_file fs = Some declFile) as Hdecl.
    { unfold declaration_file. rewrite Hlock.
      by destruct Hcase as [(-> & -> & _)|(-> & -> & _)]. }
    specialize (Hne declFile ltac:(done) Hdecl).
    rewrite (entries_Document _ _ _ Hd) in Hne.
    pose proof (rewriteDeps_length _ _ _ _ _ _ _ Hds) as Hlen1.
    pose proof (rewriteDeps_length _ _ _ _ _ _ _ Hls) as Hlen2.
    set (Ds := slice_with (doc_dependencies d) ds') in *.
    set (Ls := slice_with (doc_dependencies l) ls') in *.
    set (D := print d Ds) in *.
    set (L := print_Lock (doc_generated l) (digest_of Ds Ls) Ls) in *.
    assert (lock_file (plan_files pl) = Some lockFile) as Hlock2.
    { rewrite <- Hlock, Hfs. apply lock_file_ext.
      - rewrite is_Some_insert_present, is_Some_insert_present; [done|by eexists|].
        rewrite lookup_insert_ne by done. by eexists.
      - rewrite is_Some_insert_present, is_Some_insert_present; [done|by eexists|].
        rewrite lookup_insert_ne by done. by eexists. }
    destruct (plan_with_lock _ _ _ _ _ _ _ _ Hplan2 Hlock2)
      as (declFile2 & print2 & d2 & l2 & ds2 & ls2 & Hcase2 & Hd2 & Hl2 & Hds2 & Hls2
          & _ & Hfs2).
    assert (declFile2 = declFile /\ print2 = print) as [-> ->].
    { destruct Hcase as [(-> & -> & ->)|(-> & -> & ->)];
        destruct Hcase2 as [(-> & ? & ->)|(-> & ? & ->)]; done. }
    rewrite Hfs, lookup_insert_ne, lookup_insert_eq in Hd2 by done.
    rewrite Hfs, lookup_insert_eq in Hl2.
    injection Hd2 as <-. injection Hl2 as <-.
    assert (elems (doc_dependencies D) = map printed ds') as HD.
    { subst D Ds. destruct Hcase as [(_ & _ & ->)|(_ & _ & ->)]; simpl;
        rewrite ?elems_omitempty, elems_printed_slice, elems_slice_with; done. }
    assert (elems (doc_dependencies L) = map printed ls') as HL.
    { subst L Ls. simpl. by rewrite elems_printed_slice, elems_slice_with. }
    rewrite HD, (rewriteDeps_written _ _ Hds) in Hds2. injection Hds2 as <-.
    rewrite HL, (rewriteDeps_written _ _ Hls) in Hls2. injection Hls2 as <-.
    rewrite <- HD, <- HL, !slice_with_elems in Hfs2.
    assert (print D (doc_dependencies D) = D) as HD2.
    { subst D. destruct Hcase as [(_ & _ & ->)|(_ & _ & ->)].
      - apply print_as_dependencies_again.
      - by apply print_as_Metadata_again. }
    assert (digest_of (doc_dependencies D) (doc_dependencies L) = digest_of Ds Ls) as Hdig.
    { assert (elems (printed_slice Ds) <> []) as Hne'.
      { subst Ds. rewrite elems_printed_slice, elems_slice_with by done.
        destruct ds'; [|done]. by destruct (elems (doc_dependencies d)). }
      subst D L. destruct Hcase as [(_ & _ & ->)|(_ & _ & ->)]; simpl;
        rewrite ?(omitempty_id _ Hne'); by rewrite digest_of_printed. }
    assert (print_Lock (doc_generated L) (digest_of Ds Ls) (doc_dependencies L) = L) as HL2.
    { subst L. unfold print_Lock. simpl. by rewrite printed_slice_printed. }
    rewrite HD2, Hdig, HL2 in Hfs2. rewrite Hfs2, Hfs.
    rewrite (insert_id (<[lockFile := _]> _) declFile).
    + by rewrite insert_insert_eq.
    + by rewrite lookup_insert_ne, lookup_insert_eq.
  - pose proof (plan_Some _ _ _ _ _ _ _ Hplan) as H1. rewrite Hlock in H1.
    destruct H1 as (m & Hm & H1).
    destruct (String.eqb (doc_apiVersion m) APIVersionV2) eqn:Hv2.
    + destruct H1 as (_ & (x & Hrw) & _).
      apply plan_rewrite_Some in Hrw as (d & ds' & Hd & Hds & _ & _ & Hfs).
      rewrite Hm in Hd. injection Hd as <-.
      assert (lock_file (plan_files pl) = None) as Hlock2.
      { rewrite <- Hlock, Hfs. apply lock_file_ext; by rewrite lookup_insert_ne. }
      pose proof (plan_Some _ _ _ _ _ _ _ Hplan2) as H2. rewrite Hlock2 in H2.
      destruct H2 as (m2 & Hm2 & H2).
      rewrite Hfs, lookup_insert_eq in Hm2. injection Hm2 as <-.
      simpl in H2. rewrite Hv2 in H2. destruct H2 as (_ & (x2 & Hrw2) & _).
      apply plan_rewrite_Some in Hrw2 as (d2 & ds2 & Hd2 & Hds2 & _ & _ & Hfs2).
      rewrite Hfs, lookup_insert_eq in Hd2. injection Hd2 as <-.
      rewrite Hfs2, Hfs, insert_insert_eq. do 2 f_equal.
      apply print_as_Metadata_again.
      simpl in Hds2 |- *. rewrite elems_omitempty, elems_printed_slice in Hds2 |- *.
      rewrite (rewriteDeps_written _ _ Hds) in Hds2. by injection Hds2 as <-.
    + destruct H1 as (_ & Hfs & _).
      pose proof (plan_Some _ _ _ _ _ _ _ Hplan2) as H2.
      rewrite Hfs, Hlock in H2. destruct H2 as (m2 & Hm2 & H2).
      rewrite Hm in Hm2. injection Hm2 as <-. rewrite Hv2 in H2.
      destruct H2 as (_ & -> & _). done.
Qed.

(** X10: A second call changes no file.  When a call came back from the
    materializer and left the files [fs], a call that starts on the files
    [fs] and comes back leaves the files [fs], provided the declaration
    file of a package with a lock file declares a dependency at least. *)
Theorem second_call_changes_no_file (st1 st1' st2 st2' : State) (o1 o2 : outcome unit) :
  BuildDependencies st1 = (st1', o1) -> returned o1 ->
  (forall declFile,
     lock_file (files (package st1)) <> None ->
     declaration_file (files (package st1)) = Some declFile ->
     entries (files (package st1)) declFile <> []) ->
  files (package st2) = files (package st1') ->
  BuildDependencies st2 = (st2', o2) -> returned o2 ->
  files (package st2') = files (package st1').
Proof.
  intros Hrun1 Hret1 Hne Hfs Hrun2 Hret2.
  destruct (BuildDependencies_returned _ _ _ _ _ _ _ _ _ _ Hrun1 Hret1)
    as (pl & h1 & Hplan & _ & -> & _).
  destruct (BuildDependencies_returned _ _ _ _ _ _ _ _ _ _ Hrun2 Hret2)
    as (pl2 & h2 & Hplan2 & _ & -> & _).
  simpl in *. rewrite Hfs in Hplan2. by apply (plan_again _ _ _ Hplan Hne).
Qed.

End Again.

(** * Reading the dependencies of a chart *)

Lemma lock_file_present (fs : gmap string File) (lockFile : string) :
  lock_file fs = Some lockFile -> is_Some (fs !! lockFile).
Proof.
  unfold lock_file. repeat case_bool_decide; intros [= <-]; done.
Qed.

Lemma lockAPIVersion_lock_file (E : Env) (fs : gmap string File) :
  faulty E (OpStat RequirementsLockFilename) = false ->
  faulty E (OpStat ChartLockFilename) = false ->
  exists stats,
    Forall (fun ev => exists file, ev = IO (OpStat file)) stats
    /\ lockAPIVersion E fs
       = (stats, Done (match lock_file fs with
                       | Some lockFile =>
                           if String.eqb lockFile RequirementsLockFilename
                           then APIV1 else APIV2
                       | None => ""
                       end)).
Proof.
  intros H1 H2. unfold lockAPIVersion, lock_file. rewrite H1, H2.
  repeat case_bool_decide; eexists; (split; [|reflexivity]);
    repeat constructor; by eexists.
Qed.

(** X11: [GetChartLock] on a package whose files can be examined.  With
    no lock file it answers the [nil] lock and no error.  With a lock
    file, the Legacy one when both are there, it reads that file and no
    other: it answers its content, or the read error, or, for a file
    that is no YAML document, the YAML error under the annotation that
    names the file.  The package is left as it was. *)
Theorem GetChartLock_reads_the_lock_file (E : Env) (st : State) :
  faulty E (OpStat RequirementsLockFilename) = false ->
  faulty E (OpStat ChartLockFilename) = false ->
  package (GetChartLock E st).1 = package st
  /\ match lock_file (files (package st)) with
     | None => (GetChartLock E st).2 = Done None
     | Some lockFile =>
         if faulty E (OpReadFile lockFile)
         then (GetChartLock E st).2 = Failed (IOError (OpReadFile lockFile))
         else
           match files (package st) !! lockFile with
           | Some (Document l) =>
               exists lock,
                 (GetChartLock E st).2 = Done (Some lock)
                 /\ Generated lock = doc_generated l
                 /\ Digest lock = doc_digest l
                 /\ slice_values (heap (GetChartLock E st).1) (LockDependencies lock)
                    = Some (doc_dependencies l)
           | _ =>
               (GetChartLock E st).2
               = Failed (Annotated (Unmarshaling lockFile) (YAMLError lockFile))
           end
     end.
Proof.
  intros H1 H2.
  destruct (lockAPIVersion_lock_file E (files (package st)) H1 H2) as (stats & _ & Hapi).
  unfold GetChartLock. rewrite bind_run, GetLockAPIVersion_run, Hapi. simpl.
  destruct (lock_file (files (package st))) as [lockFile|] eqn:Hlock; [|done].
  pose proof (lock_file_present _ _ Hlock) as [f Hf].
  remember (lockFile =? RequirementsLockFilename) as b eqn:Hb.
  assert (lockFilePath (if b then APIV1 else APIV2) = Ok lockFile) as Hpath.
  { destruct (lock_file_Some _ _ Hlock) as [-> | ->]; by subst b. }
  assert (GoString.is_empty (if b then APIV1 else APIV2) = false) as -> by by destruct b.
  rewrite Hpath. cbn [lift]. rewrite ret_bind, bind_run, ReadFile_run. simpl.
  destruct (faulty E (OpReadFile lockFile)); [done|].
  rewrite Hf. destruct f as [|l]; simpl; [done|].
  unfold Lock_of_Doc. rewrite !bind_run, new_slice_run. simpl.
  split; [done|]. eexists. split; [reflexivity|]. simpl.
  split; [done|]. split; [done|]. apply slice_values_fresh.
Qed.

Lemma GetChartDependencies_run (E : Env) (st : State) :
  match lockAPIVersion E (files (package st)) with
  | (stats, Done v) =>
      let f := if GoString.is_empty v then ChartFilename
               else if String.eqb v APIV1 then RequirementsLockFilename
               else ChartLockFilename in
      match document E (files (package st)) f with
      | Some d =>
          GetChartDependencies E st =
          (mkState (package st) (heap st ++ elems (doc_dependencies d))
                   (trace st ++ stats ++ [IO (OpReadFile f)]),
           Done (fresh_slice (heap st) (doc_dependencies d)))
      | None => exists st' e, GetChartDependencies E st = (st', Failed e) /\ fatal e
      end
  | (stats, Failed e) => GetChartDependencies E st = (log stats st, Failed e)
  | (stats, Panic) => True
  end.
Proof.
  pose proof (GetChartLock_run E st) as Hlock.
  unfold GetChartDependencies. rewrite bind_run.
  destruct (lockAPIVersion E (files (package st))) as [stats [v|e|]]; [| |done].
  2:{ by rewrite Hlock. }
  destruct (GoString.is_empty v).
  - rewrite Hlock. cbv beta iota zeta. rewrite bind_run.
    pose proof (LoadChartfile_run E ChartFilename (log stats st)) as Hload.
    simpl in Hload.
    destruct (document E (files (package st)) ChartFilename) as [m|].
    + rewrite Hload. simpl. rewrite <- app_assoc.
      by destruct (doc_dependencies m).
    + destruct Hload as (st' & e & -> & He). eauto.
  - cbv zeta in Hlock |- *.
    destruct (document E (files (package st)) _) as [l|].
    + by rewrite Hlock.
    + destruct Hlock as (st' & e & -> & He). eauto.
Qed.


Section Listed.
Variable E : Env.
Variable r : ChartsReader.
Variables sourceRepo targetRepo : option Repo.
Variable t : gmap N ChartsReader.
Variables syncTrusted ignoreTrusted : list Repo.

Abbreviation BuildDependencies :=
  (BuildDependencies E r sourceRepo targetRepo t syncTrusted ignoreTrusted).
Abbreviation plan := (plan E sourceRepo targetRepo syncTrusted ignoreTrusted).
Abbreviation rewriteDeps := (rewriteDeps E sourceRepo targetRepo syncTrusted ignoreTrusted).
Abbreviation fetch_of := (fetch_of E syncTrusted ignoreTrusted).

Lemma rewriteDeps_name_version (ds ds' : list Dependency) :
  rewriteDeps ds = Ok ds' -> map name_version ds' = map name_version ds.
Proof.
  revert ds'. induction ds as [|d ds IH]; intros ds'; simpl.
  { by intros [= <-]. }
  destruct (chart.rewriteDep _ _ _ _ _ d) as [d1|] eqn:Hd; [|done].
  destruct (rewriteDeps ds) as [ds1|] eqn:Hds; [|done].
  intros [= <-]. simpl. rewrite (IH _ eq_refl).
  by rewrite (rewriteDep_name_version _ _ _ _ _ _ _ Hd).
Qed.

Lemma fetch_of_name_version (ds : list Dependency) :
  map (fun x : Origin * string * string => (x.1.2, x.2)) (map fetch_of ds)
  = map name_version ds.
Proof. rewrite map_map. by apply map_ext. Qed.

(** X13: The materializer fetches what [GetChartDependencies] lists.
    On a package with a lock file, or with a Modern metadata file, the
    names and versions that a call of [BuildDependencies] fetches are, in
    order, those of the dependencies that [GetChartDependencies] answers
    on the same files. *)
Theorem materializer_fetches_the_listed_dependencies
    (st st' st0 st0' : State) (o : outcome unit) (deps : slice ptr)
    (listed : slice Dependency) :
  BuildDependencies st = (st', o) -> returned o ->
  lock_file (files (package st)) <> None \/ modern_metadata (files (package st)) = true ->
  files (package st0) = files (package st) ->
  GetChartDependencies E st0 = (st0', Done deps) ->
  slice_values (heap st0') deps = Some listed ->
  exists evs,
    trace st' = trace st ++ evs
    /\ map (fun x : Origin * string * string => (x.1.2, x.2)) (fetches evs)
       = map name_version (elems listed).
Proof.
  intros Hrun Hret Hcase Hfs Hget Hlisted.
  destruct (BuildDependencies_returned _ _ _ _ _ _ _ _ _ _ Hrun Hret)
    as (pl & h' & Hplan & Hclients & -> & _).
  eexists. split; [reflexivity|].
  rewrite fetches_app, (fetches_plan_events _ _ _ _ _ _ _ Hplan). simpl.
  rewrite (fetches_dep_events _ _ _ _ _ _ Hclients), fetch_of_name_version.
  pose proof (GetChartDependencies_run E st0) as Hlist. rewrite Hfs in Hlist.
  destruct (lockAPIVersion E (files (package st))) as [stats [v|e|]] eqn:Hapi.
  2:{ rewrite Hget in Hlist. discriminate. }
  2:{ unfold chart.plan in Hplan. rewrite Hapi in Hplan.
      by destruct (_ || _). }
  cbv zeta in Hlist.
  destruct (document E (files (package st)) _) as [d|] eqn:Hd.
  2:{ destruct Hlist as (? & ? & Hfail & _). rewrite Hget in Hfail. discriminate. }
  rewrite Hget in Hlist. injection Hlist as -> ->. simpl in Hlisted.
  rewrite slice_values_fresh in Hlisted. injection Hlisted as <-.
  apply document_Some in Hd as [_ Hd].
  destruct (lock_file_cases _ _ _ _ Hapi) as [[-> Hlock]|[[-> Hlock]|[-> Hlock]]];
    simpl in Hd.
  - destruct (plan_with_lock _ _ _ _ _ _ _ _ Hplan Hlock)
      as (? & ? & ? & l & ? & ls' & _ & _ & Hl & _ & Hls & -> & _).
    rewrite Hd in Hl. injection Hl as <-. by apply rewriteDeps_name_version.
  - destruct (plan_with_lock _ _ _ _ _ _ _ _ Hplan Hlock)
      as (? & ? & ? & l & ? & ls' & _ & _ & Hl & _ & Hls & -> & _).
    rewrite Hd in Hl. injection Hl as <-. by apply rewriteDeps_name_version.
  - destruct Hcase as [Hcase|Hmodern]; [done|].
    pose proof (plan_Some _ _ _ _ _ _ _ Hplan) as H. rewrite Hlock in H.
    destruct H as (m & Hm & H). rewrite Hd in Hm. injection Hm as <-.
    unfold modern_metadata in Hmodern. rewrite Hd in Hmodern. rewrite Hmodern in H.
    by destruct H as (_ & _ & ->).
Qed.

End Listed.

(** * The operations of a Legacy call *)

Section Legacy.
Variable E : Env.
Variable r : ChartsReader.
Variables sourceRepo targetRepo : option Repo.
Variable t : gmap N ChartsReader.
Variables syncTrusted ignoreTrusted : list Repo.

Abbreviation BuildDependencies :=
  (BuildDependencies E r sourceRepo targetRepo t syncTrusted ignoreTrusted).
Abbreviation plan := (plan E sourceRepo targetRepo syncTrusted ignoreTrusted).
Abbreviation dep_events := (dep_events E r t syncTrusted ignoreTrusted).

(** X19: The operations of a call on a Legacy package, one with a
    [requirements.lock], that comes back from the materializer: the
    folder is removed and made, the lock file is found and read, found
    once more, the requirements file is read and written, the lock file is
    written, and then come the fetches and copies of the dependencies.
    No operation names [Chart.yaml] or [Chart.lock]: what they hold, and
    whether they are there, plays no part. *)
Theorem legacy_call_operations (st st' : State) (o : outcome unit) :
  BuildDependencies st = (st', o) -> returned o ->
  lock_file (files (package st)) = Some RequirementsLockFilename ->
  exists pl,
    plan (files (package st)) = Some pl
    /\ trace st'
       = trace st
         ++ [IO OpRemoveAll; IO OpMkdir;
             IO (OpStat RequirementsLockFilename);
             IO (OpReadFile RequirementsLockFilename);
             IO (OpStat RequirementsLockFilename);
             IO (OpReadFile RequirementsFilename);
             IO (OpWriteFile RequirementsFilename);
             IO (OpWriteFile RequirementsLockFilename)]
         ++ flat_map dep_events (plan_deps pl).
Proof.
  intros Hrun Hret Hlock.
  destruct (BuildDependencies_returned _ _ _ _ _ _ _ _ _ _ Hrun Hret)
    as (pl & h' & Hplan & _ & -> & _).
  exists pl. split; [done|]. simpl. do 2 f_equal.
  unfold chart.plan in Hplan.
  destruct (faulty E OpRemoveAll || faulty E OpMkdir); [done|].
  unfold lockAPIVersion in Hplan.
  destruct (faulty E (OpStat RequirementsLockFilename)); [done|].
  unfold lock_file in Hlock.
  destruct (bool_decide (is_Some (files (package st) !! RequirementsLockFilename))).
  2:{ by destruct (bool_decide _). }
  simpl in Hplan. unfold plan_locked in Hplan.
  destruct (document E _ RequirementsLockFilename) as [l|]; [|done]. simpl in Hplan.
  destruct (plan_rewrite _ _ _ _ _ _ _ _ _) as [res|]; [|done].
  by injection Hplan as <-.
Qed.

End Legacy.

Lemma legacy_call_operations_witness :
  exists pl,
    plan sample_env sample_source sample_target [] sample_ignoreTrusted
         (files (package (sample_state sample_legacy_locked_package))) = Some pl
    /\ trace (sample_good_run sample_legacy_locked_package).1
       = trace (sample_state sample_legacy_locked_package)
         ++ [IO OpRemoveAll; IO OpMkdir;
             IO (OpStat RequirementsLockFilename);
             IO (OpReadFile RequirementsLockFilename);
             IO (OpStat RequirementsLockFilename);
             IO (OpReadFile RequirementsFilename);
             IO (OpWriteFile RequirementsFilename);
             IO (OpWriteFile RequirementsLockFilename)]
         ++ flat_map (dep_events sample_env sample_mirror_client sample_clients []
                                 sample_ignoreTrusted) (plan_deps pl).
Proof.
  apply (legacy_call_operations sample_env sample_mirror_client
           sample_source sample_target sample_clients [] sample_ignoreTrusted
           (sample_state sample_legacy_locked_package)
           (sample_good_run sample_legacy_locked_package).1
           (sample_good_run sample_legacy_locked_package).2).
  - vm_compute. reflexivity.
  - left. vm_compute. reflexivity.
  - vm_compute. reflexivity.
Defined.

(** * A lock file that cannot be written *)

Section Refused.
Variable E : Env.
Variable r : ChartsReader.
Variables sourceRepo targetRepo : option Repo.
Variable t : gmap N ChartsReader.
Variables syncTrusted ignoreTrusted : list Repo.

Abbreviation BuildDependencies :=
  (BuildDependencies E r sourceRepo targetRepo t syncTrusted ignoreTrusted).
Abbreviation rewriteDeps := (rewriteDeps E sourceRepo targetRepo syncTrusted ignoreTrusted).
Abbreviation rewriteSlice := (rewriteSlice E sourceRepo targetRepo syncTrusted ignoreTrusted).

Lemma rewriteSlice_Ok (s : slice Dependency) (l : list Dependency) :
  rewriteDeps (elems s) = Ok l -> rewriteSlice s = Some (slice_with s l).
Proof. intros H. unfold chart.rewriteSlice. by rewrite H. Qed.

Lemma updateLockFile_refused (l : Lock ptr) (deps : slice ptr) (legacy : bool)
    (Ls Ds ls' : slice Dependency) (st : State) :
  NoDup (elems (LockDependencies l)) ->
  slice_values (heap st) (LockDependencies l) = Some Ls ->
  slice_values (heap st) deps = Some Ds ->
  (forall q, q ∈ elems deps -> q ∉ elems (LockDependencies l)) ->
  rewriteSlice Ls = Some ls' ->
  let f := if legacy then RequirementsLockFilename else ChartLockFilename in
  faulty E (OpWriteFile f) = true ->
  exists h',
    updateLockFile E (Some l) deps sourceRepo targetRepo legacy
                   syncTrusted ignoreTrusted st
    = (mkState (package st) h' (trace st ++ [IO (OpWriteFile f)]),
       Failed (IOError (OpWriteFile f))).
Proof.
  intros Hnd HLs HDs Hdisj Hrw f Hfaulty. unfold updateLockFile. rewrite bind_run.
  pose proof (rewrite_slice_run E sourceRepo targetRepo syncTrusted ignoreTrusted
                _ _ _ Hnd HLs) as Hrun.
  rewrite Hrw in Hrun. destruct Hrun as (h' & -> & Hv' & Hlen & Hframe).
  rewrite bind_run, hashDeps_run. simpl heap.
  rewrite (slice_values_ext (heap st) h') by (intros p Hp; by apply Hframe, Hdisj).
  rewrite HDs, Hv'. rewrite writeChartFile_Lock_run. simpl.
  rewrite Hv', WriteFile_run. fold f. rewrite Hfaulty. by exists h'.
Qed.

(** the rewrite of a declaration file, up to the lock file that is
    refused: [load] reads the declarations, [write] writes them back *)
Lemma declarations_then_refused (l : Lock ptr) (Ls ls' ms' : slice Dependency)
    (d : Doc) (legacy : bool) (st : State) (D : slice Dependency -> Doc)
    (write : M unit) (declFile : string) (tr : list Event) :
  NoDup (elems (LockDependencies l)) ->
  slice_values (heap st) (LockDependencies l) = Some Ls ->
  rewriteSlice (doc_dependencies d) = Some ms' ->
  rewriteSlice Ls = Some ls' ->
  faulty E (OpWriteFile declFile) = false ->
  faulty E (OpWriteFile (if legacy then RequirementsLockFilename
                         else ChartLockFilename)) = true ->
  (forall st1,
     write st1
     = match slice_values (heap st1) (fresh_slice (heap st) (doc_dependencies d)) with
       | Some ds => WriteFile E declFile (D ds) st1
       | None => (st1, Panic)
       end) ->
  exists h',
    (_ ← rewriteRepositories E sourceRepo targetRepo syncTrusted ignoreTrusted
           (elems (fresh_slice (heap st) (doc_dependencies d)));
     _ ← write;
     updateLockFile E (Some l) (fresh_slice (heap st) (doc_dependencies d))
                    sourceRepo targetRepo legacy syncTrusted ignoreTrusted)
      (mkState (package st) (heap st ++ elems (doc_dependencies d)) tr)
    = (mkState (mkPackage (<[declFile := Document (D ms')]> (files (package st)))
                          (charts (package st)))
               h'
               (tr ++ [IO (OpWriteFile declFile);
                       IO (OpWriteFile (if legacy then RequirementsLockFilename
                                        else ChartLockFilename))]),
       Failed (IOError (OpWriteFile (if legacy then RequirementsLockFilename
                                     else ChartLockFilename)))).
Proof.
  intros Hnd HLs Hms Hls Hw Hrefused Hwrite.
  set (st1 := mkState (package st) (heap st ++ elems (doc_dependencies d)) tr).
  pose proof (rewrite_slice_run E sourceRepo targetRepo syncTrusted ignoreTrusted
                (fresh_slice (heap st) (doc_dependencies d)) (doc_dependencies d) st1
                (NoDup_fresh_slice _ _) (slice_values_fresh _ _)) as Hrun.
  rewrite Hms in Hrun. destruct Hrun as (h1 & Hrun & Hv1 & Hlen1 & Hframe1).
  rewrite bind_run, Hrun. cbv beta iota. rewrite bind_run, Hwrite. cbn [heap].
  rewrite Hv1, WriteFile_run, Hw. cbv beta iota.
  assert (Hold : forall q x, heap st !! q = Some x -> h1 !! q = Some x).
  { intros q x Hq. rewrite Hframe1.
    - simpl. by apply lookup_app_l_Some.
    - intros Hin. apply elem_of_fresh_slice in Hin.
      apply lookup_lt_Some in Hq. lia. }
  match goal with
  | |- context [updateLockFile _ _ _ _ _ _ _ _ ?s] => set (st2 := s)
  end.
  assert (HLs2 : slice_values (heap st2) (LockDependencies l) = Some Ls).
  { rewrite <- HLs. apply slice_values_ext. intros p Hp. simpl.
    pose proof (slice_values_bound _ _ _ _ HLs Hp) as Hlt.
    destruct (heap st !! p) as [x|] eqn:Hx.
    - by apply Hold.
    - apply lookup_ge_None in Hx. lia. }
  assert (Hdisj : forall q, q ∈ elems (fresh_slice (heap st) (doc_dependencies d)) ->
                    q ∉ elems (LockDependencies l)).
  { intros q Hq Hin. apply elem_of_fresh_slice in Hq.
    pose proof (slice_values_bound _ _ _ _ HLs Hin). lia. }
  destruct (updateLockFile_refused l (fresh_slice (heap st) (doc_dependencies d)) legacy
              Ls ms' ls' st2 Hnd HLs2 Hv1 Hdisj Hls Hrefused) as (h2 & ->).
  exists h2. subst st2 st1. simpl. by rewrite <- app_assoc.
Qed.

Lemma Metadata_of_Doc_run (d : Doc) (st : State) :
  Metadata_of_Doc d st
  = (mkState (package st) (heap st ++ elems (doc_dependencies d)) (trace st),
     Done (mkMetadata (doc_name d) (doc_version d) (doc_apiVersion d)
                      (fresh_slice (heap st) (doc_dependencies d)))).
Proof. unfold Metadata_of_Doc. by rewrite bind_run, new_slice_run. Qed.

Lemma dependencies_of_Doc_run (d : Doc) (st : State) :
  dependencies_of_Doc d st
  = (mkState (package st) (heap st ++ elems (doc_dependencies d)) (trace st),
     Done (mkdependencies (fresh_slice (heap st) (doc_dependencies d)))).
Proof. unfold dependencies_of_Doc. by rewrite bind_run, new_slice_run. Qed.

Lemma updateChartMetadataFile_refused (l : Lock ptr) (Ls ls' ms' : slice Dependency)
    (d : Doc) (st : State) :
  NoDup (elems (LockDependencies l)) ->
  slice_values (heap st) (LockDependencies l) = Some Ls ->
  faulty E (OpReadFile ChartFilename) = false ->
  files (package st) !! ChartFilename = Some (Document d) ->
  rewriteSlice (doc_dependencies d) = Some ms' ->
  rewriteSlice Ls = Some ls' ->
  faulty E (OpWriteFile ChartFilename) = false ->
  faulty E (OpWriteFile ChartLockFilename) = true ->
  exists h' evs,
    updateChartMetadataFile E (Some l) sourceRepo targetRepo syncTrusted ignoreTrusted st
    = (mkState (mkPackage (<[ChartFilename := Document (print_as_Metadata d ms')]>
                             (files (package st)))
                          (charts (package st)))
               h' (trace st ++ evs),
       Failed (IOError (OpWriteFile ChartLockFilename)))
    /\ fetches evs = [].
Proof.
  intros Hnd HLs Hread Hd Hms Hls Hw Hrefused.
  unfold updateChartMetadataFile. rewrite bind_run, ReadFile_run, Hread, Hd.
  cbn [Unmarshal]. cbv beta iota. rewrite bind_run, Metadata_of_Doc_run.
  cbn [MetadataDependencies log package heap trace]. cbv beta iota.
  destruct (declarations_then_refused l Ls ls' ms' d false st
              (print_Metadata (doc_name d) (doc_version d) (doc_apiVersion d))
              (writeChartFile E ChartFilename
                 (VMetadata (mkMetadata (doc_name d) (doc_version d) (doc_apiVersion d)
                               (fresh_slice (heap st) (doc_dependencies d)))))
              ChartFilename (trace st ++ [IO (OpReadFile ChartFilename)])
              Hnd HLs Hms Hls Hw Hrefused) as (h' & Hrun).
  { intros st1. by rewrite writeChartFile_Metadata_run. }
  rewrite Hrun. eexists h', _. rewrite <- app_assoc. split; reflexivity.
Qed.

Lemma updateRequirementsFile_refused (l : Lock ptr) (Ls ls' ms' : slice Dependency)
    (d : Doc) (st : State) :
  NoDup (elems (LockDependencies l)) ->
  slice_values (heap st) (LockDependencies l) = Some Ls ->
  faulty E (OpReadFile RequirementsFilename) = false ->
  files (package st) !! RequirementsFilename = Some (Document d) ->
  rewriteSlice (doc_dependencies d) = Some ms' ->
  rewriteSlice Ls = Some ls' ->
  faulty E (OpWriteFile RequirementsFilename) = false ->
  faulty E (OpWriteFile RequirementsLockFilename) = true ->
  exists h' evs,
    updateRequirementsFile E (Some l) sourceRepo targetRepo syncTrusted ignoreTrusted st
    = (mkState (mkPackage (<[RequirementsFilename :=
                               Document (print_as_dependencies d ms')]>
                             (files (package st)))
                          (charts (package st)))
               h' (trace st ++ evs),
       Failed (IOError (OpWriteFile RequirementsLockFilename)))
    /\ fetches evs = [].
Proof.
  intros Hnd HLs Hread Hd Hms Hls Hw Hrefused.
  unfold updateRequirementsFile. rewrite bind_run, ReadFile_run, Hread, Hd.
  cbn [Unmarshal]. cbv beta iota. rewrite bind_run, dependencies_of_Doc_run.
  cbn [Dependencies log package heap trace]. cbv beta iota.
  destruct (declarations_then_refused l Ls ls' ms' d true st print_dependencies
              (writeChartFile E RequirementsFilename
                 (VDependencies (mkdependencies
                                   (fresh_slice (heap st) (doc_dependencies d)))))
              RequirementsFilename (trace st ++ [IO (OpReadFile RequirementsFilename)])
              Hnd HLs Hms Hls Hw Hrefused) as (h' & Hrun).
  { intros st1. by rewrite writeChartFile_dependencies_run. }
  rewrite Hrun. eexists h', _. rewrite <- app_assoc. split; reflexivity.
Qed.

(** X18: The rewrite step is not atomic.  When the file system refuses
    the write of the lock file, and nothing before it, the call ends with
    that error and has fetched nothing; the declaration file is already
    rewritten, the lock file is as it was, and the [charts] folder is
    empty. *)
Theorem refused_lock_write_leaves_the_declarations_rewritten
    (st : State) (lockFile declFile : string) (d l : Doc) (ds' ls' : list Dependency) :
  lock_file (files (package st)) = Some lockFile ->
  declaration_file (files (package st)) = Some declFile ->
  files (package st) !! declFile = Some (Document d) ->
  files (package st) !! lockFile = Some (Document l) ->
  rewriteDeps (elems (doc_dependencies d)) = Ok ds' ->
  rewriteDeps (elems (doc_dependencies l)) = Ok ls' ->
  faulty E OpRemoveAll = false -> faulty E OpMkdir = false ->
  faulty E (OpStat RequirementsLockFilename) = false ->
  faulty E (OpStat ChartLockFilename) = false ->
  faulty E (OpReadFile lockFile) = false ->
  faulty E (OpReadFile declFile) = false ->
  faulty E (OpWriteFile declFile) = false ->
  faulty E (OpWriteFile lockFile) = true ->
  exists st' D,
    BuildDependencies st = (st', Failed (IOError (OpWriteFile lockFile)))
    /\ files (package st') = <[declFile := Document D]> (files (package st))
    /\ elems (doc_dependencies D) = map printed ds'
    /\ charts (package st') = Some ∅
    /\ fetches (trace st') = fetches (trace st).
Proof.
  intros Hlock Hdecl Hd Hl Hds Hls H1 H2 H3 H4 H5 H6 H7 H8.
  destruct (lockAPIVersion_lock_file E (files (package st)) H3 H4)
    as (stats & Hstats & Hapi).
  rewrite Hlock in Hapi.
  assert (fetches stats = []) as Hquiet.
  { clear Hapi. induction Hstats as [|ev evs [file ->] _ IH]; [done|exact IH]. }
  pose proof (rewriteDeps_length _ _ _ _ _ _ _ Hds) as Hlen.
  unfold chart.BuildDependencies.
  rewrite bind_run, RemoveAll_charts_run, H1. cbv beta iota.
  rewrite bind_run, Mkdir_charts_run, H2. cbn [charts package]. cbv beta iota.
  set (st2 := mkState _ _ _).
  pose proof (GetChartLock_run E st2) as Hget.
  change (files (package st2)) with (files (package st)) in Hget.
  rewrite Hapi in Hget. rewrite bind_run.
  unfold declaration_file in Hdecl. rewrite Hlock in Hdecl.
  destruct (lock_file_Some _ _ Hlock) as [-> | ->]; simpl in Hdecl, Hget |- *;
    injection Hdecl as <-; unfold document in Hget; rewrite H5, Hl in Hget;
    rewrite Hget; cbv beta iota; rewrite bind_run, GetLockAPIVersion_run;
    cbn [files package]; rewrite Hapi; cbn [fst snd]; cbv beta iota;
    simpl (GoString.is_empty _); cbv iota; unfold buildFrom;
    simpl (String.eqb _ _); cbv iota; rewrite bind_run.
  - set (lock := mkLock _ _ _). set (st4 := log stats _).
    destruct (updateRequirementsFile_refused lock (doc_dependencies l)
                (slice_with (doc_dependencies l) ls') (slice_with (doc_dependencies d) ds')
                d st4 (NoDup_fresh_slice _ _) (slice_values_fresh _ _) H6 Hd
                (rewriteSlice_Ok _ _ Hds) (rewriteSlice_Ok _ _ Hls) H7 H8)
      as (h' & evs & -> & Hevs).
    eexists _, _. split; [reflexivity|]. cbn [files package charts trace].
    split; [reflexivity|]. split; [|split; [reflexivity|]].
    + simpl. by rewrite elems_printed_slice, elems_slice_with.
    + subst st4 st2. simpl.
      rewrite !fetches_app, Hevs, Hquiet. simpl. by rewrite !app_nil_r.
  - set (lock := mkLock _ _ _). set (st4 := log stats _).
    destruct (updateChartMetadataFile_refused lock (doc_dependencies l)
                (slice_with (doc_dependencies l) ls') (slice_with (doc_dependencies d) ds')
                d st4 (NoDup_fresh_slice _ _) (slice_values_fresh _ _) H6 Hd
                (rewriteSlice_Ok _ _ Hds) (rewriteSlice_Ok _ _ Hls) H7 H8)
      as (h' & evs & -> & Hevs).
    eexists _, _. split; [reflexivity|]. cbn [files package charts trace].
    split; [reflexivity|]. split; [|split; [reflexivity|]].
    + simpl. by rewrite elems_omitempty, elems_printed_slice, elems_slice_with.
    + subst st4 st2. simpl.
      rewrite !fetches_app, Hevs, Hquiet. simpl. by rewrite !app_nil_r.
Qed.

End Refused.

(** * The format of a digest *)

Lemma round_length (k w : N) (v : list N) : length (SHA256.round k w v) = 8.
Proof. reflexivity. Qed.

Lemma rounds_length (ks w v : list N) :
  length v = 8 -> length (SHA256.rounds ks w v) = 8.
Proof.
  revert w v. induction ks as [|k ks IH]; intros w v Hv; simpl; [done|].
  destruct w as [|w0 wt]; [done|]. apply IH, round_length.
Qed.

Lemma add_words_length (x y : list N) :
  length (SHA256.add_words x y) = min (length x) (length y).
Proof.
  revert y. induction x as [|a x IH]; intros [|b y]; simpl; [done..|].
  by rewrite IH.
Qed.

Lemma blocks_length (n : nat) (h ws : list N) :
  length h = 8 -> length (SHA256.blocks n h ws) = 8.
Proof.
  revert h ws. induction n as [|n IH]; intros h ws Hh; simpl; [done|].
  destruct ws as [|w ws]; [done|]. apply IH. unfold SHA256.compress.
  rewrite add_words_length, rounds_length, Hh; done.
Qed.

Lemma sum_length (s : string) : length (SHA256.sum s) = 8.
Proof. unfold SHA256.sum. by apply blocks_length. Qed.

Lemma be_bytes_length (n : nat) (x : N) : length (SHA256.be_bytes n x) = n.
Proof.
  revert x. induction n as [|n IH]; intros x; simpl; [done|].
  rewrite length_app, IH. simpl. lia.
Qed.

Lemma be_bytes_bound (n : nat) (x : N) :
  Forall (fun b => (b < 256)%N) (SHA256.be_bytes n x).
Proof.
  revert x. induction n as [|n IH]; intros x; simpl; [constructor|].
  apply Forall_app. split; [apply IH|]. constructor; [|constructor].
  by apply N.mod_lt.
Qed.

Lemma hexdigit_lower_hex (x : N) :
  (x < 16)%N -> lower_hex (SHA256.hexdigit x) = true.
Proof.
  intros Hx. rewrite <- (N2Nat.id x). assert (N.to_nat x < 16) as Hn by lia.
  clear Hx. revert Hn. generalize (N.to_nat x). intros n Hn.
  do 16 (destruct n as [|n]; [reflexivity|]). lia.
Qed.

Lemma hex_length (bs : list N) : String.length (SHA256.hex bs) = 2 * length bs.
Proof. induction bs as [|b bs IH]; simpl; [done|]. rewrite IH. lia. Qed.

Lemma hex_lower_hex (bs : list N) :
  Forall (fun b => (b < 256)%N) bs ->
  GoString.forallb lower_hex (SHA256.hex bs) = true.
Proof.
  induction 1 as [|b bs Hb Hbs IH]; simpl; [done|].
  rewrite IH, !hexdigit_lower_hex; [done| |].
  - by apply N.mod_lt.
  - apply N.Div0.div_lt_upper_bound. lia.
Qed.

Lemma flat_map_be_bytes_length (ws : list N) :
  length (flat_map (SHA256.be_bytes 4) ws) = 4 * length ws.
Proof.
  induction ws as [|w ws IH]; [done|].
  cbn [flat_map]. rewrite length_app, be_bytes_length, IH. simpl. lia.
Qed.

Lemma flat_map_be_bytes_bound (ws : list N) :
  Forall (fun b => (b < 256)%N) (flat_map (SHA256.be_bytes 4) ws).
Proof.
  induction ws as [|w ws IH]; [constructor|].
  cbn [flat_map]. apply Forall_app. split; [apply be_bytes_bound|exact IH].
Qed.

Lemma hexdigest_format (s : string) :
  String.length (SHA256.hexdigest s) = 64
  /\ GoString.forallb lower_hex (SHA256.hexdigest s) = true.
Proof.
  unfold SHA256.hexdigest. split.
  - by rewrite hex_length, flat_map_be_bytes_length, sum_length.
  - apply hex_lower_hex, flat_map_be_bytes_bound.
Qed.

(** X17: The digest that [hashDeps] answers has one format, whatever
    the lists: the prefix [sha256:] and 64 lower-case hexadecimal
    digits. *)
Theorem hashDeps_digest_format (req lock : slice ptr) (st st' : State) (digest : string) :
  hashDeps req lock st = (st', Done digest) ->
  exists h,
    digest = String.append "sha256:" h
    /\ String.length h = 64
    /\ GoString.forallb lower_hex h = true.
Proof.
  rewrite hashDeps_run.
  destruct (slice_values (heap st) req) as [reqs|]; [|done].
  destruct (slice_values (heap st) lock) as [locks|]; [|done].
  intros [= _ <-]. eexists. split; [reflexivity|]. apply hexdigest_format.
Qed.

(** * Target URLs of other shapes *)

Section Shapes.
Open Scope string_scope.

Lemma valid_scheme_oci : valid_scheme "oci" = true.
Proof. reflexivity. Qed.

(** X14: For an OCI target, [getDependencyRepoURL] is idempotent: the
    URL it computes from a well-formed absolute URL is the URL it
    computes for a target configured with that result. *)
Theorem getDependencyRepoURL_is_idempotent (scheme host port path : string) :
  valid_scheme scheme = true ->
  plain_host host = true ->
  URL.validOptionalPort port = true ->
  plain_path path = true ->
  exists repoUrl,
    getDependencyRepoURL (Some (mkRepo (scheme ++ "://" ++ host ++ port ++ path) Kind_OCI))
    = Ok repoUrl
    /\ getDependencyRepoURL (Some (mkRepo repoUrl Kind_OCI)) = Ok repoUrl.
Proof.
  intros Hscheme Hhost Hport Hpath. exists ("oci" ++ "://" ++ host ++ port ++ path).
  unfold getDependencyRepoURL. simpl GetUrl. simpl GetKind. cbn [Kind_eqb].
  cbv beta iota zeta.
  rewrite (Parse_plain _ _ _ _ Hscheme Hhost Hport Hpath).
  rewrite (Parse_plain _ _ _ _ valid_scheme_oci Hhost Hport Hpath).
  unfold URL.set_Scheme.
  cbn [URL.Scheme URL.Opaque URL.User URL.Host URL.Path URL.RawPath URL.OmitHost
       URL.ForceQuery URL.RawQuery URL.Fragment URL.RawFragment].
  by rewrite (String_plain _ _ _ Hhost Hport Hpath "oci" eq_refl).
Qed.

Lemma opaque_byte_printable c : opaque_byte c = true -> printable c = true.
Proof. unfold opaque_byte. by intros [[H _]%andb_prop _]%andb_prop. Qed.
Lemma opaque_byte_not_question c :
  opaque_byte c = true -> negb (Ascii.eqb c "?") = true.
Proof. unfold opaque_byte. by intros [[_ H]%andb_prop _]%andb_prop. Qed.
Lemma opaque_byte_not_hash c : opaque_byte c = true -> negb (Ascii.eqb c "#") = true.
Proof. unfold opaque_byte. by intros [_ H]%andb_prop. Qed.

Lemma valid_scheme_bytes scheme :
  valid_scheme scheme = true -> GoString.forallb scheme_byte scheme = true.
Proof.
  destruct scheme as [|x s]; [done|]. simpl.
  intros [Hx Hs]%andb_prop. by rewrite (alpha_scheme_byte _ Hx).
Qed.

Lemma String_opaque (scheme rest : string) :
  GoString.is_empty scheme = false ->
  URL.String_ (URL.mkURL scheme rest None "" "" "" false false "" "" "")
  = scheme ++ ":" ++ rest.
Proof.
  intros Hne. unfold URL.String_, URL.EscapedPath.
  cbn [URL.Scheme URL.Opaque URL.User URL.Host URL.Path URL.RawPath URL.OmitHost
       URL.ForceQuery URL.RawQuery URL.Fragment URL.RawFragment].
  rewrite Hne. change (GoString.is_empty "") with true.
  cbn [negb andb orb]. cbv beta iota zeta.
  destruct rest as [|c rest]; cbn [GoString.is_empty negb]; cbv beta iota.
  - change (("" =? "*")%string) with false. cbv iota.
    change (URL.escape "" URL.encodePath) with "".
    change (GoString.is_empty "") with true. cbn [negb andb]. cbv iota.
    assert (GoString.is_empty (scheme ++ ":") = false) as ->.
    { destruct scheme; [done|]. by text. }
    cbn [andb]. cbv iota. by rewrite append_empty_r.
  - by rewrite append_assoc.
Qed.

(** X15: An OCI target configured as [host:port/path], without a
    scheme, loses its host: [url.Parse] reads the host as the scheme, and
    the URL computed is [oci:] followed by what came after the first
    colon. *)
Theorem getDependencyRepoURL_drops_a_host_read_as_scheme (host rest : string) :
  valid_scheme host = true ->
  opaque_text rest = true ->
  getDependencyRepoURL (Some (mkRepo (host ++ ":" ++ rest) Kind_OCI))
  = Ok ("oci:" ++ rest).
Proof.
  intros Hhost [Hslash Hrest]%andb_prop. apply negb_true_iff in Hslash.
  pose proof (valid_scheme_bytes _ Hhost) as Hbytes.
  unfold getDependencyRepoURL. simpl GetUrl. simpl GetKind. cbn [Kind_eqb].
  cbv beta iota zeta. text.
  assert (forall p : ascii -> bool,
            (forall c, scheme_byte c = true -> p c = true) ->
            (forall c, opaque_byte c = true -> p c = true) ->
            p ":"%char = true ->
            GoString.forallb p (host ++ String ":" rest) = true) as Hall.
  { intros p Hs Ho Hc. rewrite forallb_append, (forallb_impl _ _ _ Hs Hbytes).
    simpl. by rewrite Hc, (forallb_impl _ _ _ Ho Hrest). }
  unfold URL.Parse.
  rewrite (cut_without "#" _ (Hall _ scheme_byte_not_hash opaque_byte_not_hash eq_refl)).
  unfold URL.parse.
  assert (URL.stringContainsCTLByte (host ++ String ":" rest) = false) as ->.
  { unfold URL.stringContainsCTLByte. apply negb_false_iff.
    by apply (Hall printable scheme_byte_printable opaque_byte_printable). }
  assert ((host ++ String ":" rest =? "*")%string = false) as ->.
  { apply String.eqb_neq. intros Heq.
    destruct host as [|x [|y s]]; [done| |]; revert Heq; text; intros [=]. }
  rewrite (getScheme_valid _ _ Hhost).
  pose proof (forallb_impl _ _ _ opaque_byte_not_question Hrest) as Hq.
  rewrite (count_without _ _ Hq), andb_false_r, (cut_without _ _ Hq).
  cbv beta iota zeta. rewrite to_lower_not_empty, Hslash.
  assert (GoString.is_empty host = false) as Hne by by destruct host.
  rewrite Hne. cbn [negb andb]. cbv iota.
  change (GoString.is_empty "") with true. cbv iota.
  unfold URL.set_Scheme.
  cbn [URL.Scheme URL.Opaque URL.User URL.Host URL.Path URL.RawPath URL.OmitHost
       URL.ForceQuery URL.RawQuery URL.Fragment URL.RawFragment].
  by rewrite (String_opaque "oci" rest eq_refl).
Qed.

Lemma bare_byte_printable c : bare_byte c = true -> printable c = true.
Proof. each_byte c. Qed.
Lemma bare_byte_not_hash c : bare_byte c = true -> negb (Ascii.eqb c "#") = true.
Proof. each_byte c. Qed.
Lemma bare_byte_not_question c : bare_byte c = true -> negb (Ascii.eqb c "?") = true.
Proof. each_byte c. Qed.
Lemma bare_byte_not_colon c : bare_byte c = true -> negb (Ascii.eqb c ":") = true.
Proof. each_byte c. Qed.
Lemma bare_byte_kept c : bare_byte c = true -> kept URL.encodePath c = true.
Proof. each_byte c. Qed.
Lemma unreserved_bare_byte c : unreserved c = true -> bare_byte c = true.
Proof. each_byte c. Qed.
Lemma unreserved_not_slash c : unreserved c = true -> Ascii.eqb "/" c = false.
Proof. each_byte c. Qed.
Lemma unreserved_not_star c : unreserved c = true -> Ascii.eqb c "*" = false.
Proof. each_byte c. Qed.

Lemma scan_without_colon i s : without ":" s = true -> URL.scan i s = URL.NoScheme.
Proof.
  revert i. induction s as [|c s IH]; intros i; simpl; [done|].
  intros [Hc Hs]%andb_prop. apply negb_true_iff in Hc. rewrite Hc, (IH _ Hs).
  cbn [URL.push]. by repeat case_match.
Qed.

Lemma contains_without sep s : without sep s = true -> GoString.contains sep s = false.
Proof.
  induction s as [|c s IH]; simpl; [done|].
  intros [Hc Hs]%andb_prop. apply negb_true_iff in Hc. by rewrite Hc, (IH Hs).
Qed.

Lemma without_before sep sep' s :
  without sep s = true -> without sep (GoString.before sep' s) = true.
Proof.
  unfold GoString.before. induction s as [|c s IH]; simpl; [done|].
  intros [Hc Hs]%andb_prop. destruct (Ascii.eqb c sep'); [done|].
  specialize (IH Hs). unfold without in *.
  destruct (GoString.cut sep' s) as [[a b]|]; simpl in *.
  - by rewrite Hc.
  - rewrite Hc. exact Hs.
Qed.

(** X16: An OCI target configured as [host/path], with no scheme and no
    port, gets the scheme in front of it: the URL computed is [oci://]
    followed by the configured text, whose first segment then reads as
    the host. *)
Theorem getDependencyRepoURL_of_a_bare_location (location : string) :
  bare_location location = true ->
  getDependencyRepoURL (Some (mkRepo location Kind_OCI)) = Ok ("oci://" ++ location).
Proof.
  destruct location as [|c u]; [done|]. simpl.
  intros [Hc Hu]%andb_prop.
  assert (GoString.forallb bare_byte (String c u) = true) as Hall.
  { simpl. by rewrite (unreserved_bare_byte _ Hc), Hu. }
  unfold getDependencyRepoURL. simpl GetUrl. simpl GetKind. cbn [Kind_eqb].
  cbv beta iota zeta. unfold URL.Parse.
  rewrite (cut_without "#" _ (forallb_impl _ _ _ bare_byte_not_hash Hall)).
  unfold URL.parse.
  assert (URL.stringContainsCTLByte (String c u) = false) as ->.
  { unfold URL.stringContainsCTLByte. apply negb_false_iff.
    apply (forallb_impl _ _ _ bare_byte_printable Hall). }
  assert ((String c u =? "*")%string = false) as Hstar.
  { cbn [String.eqb]. by rewrite (unreserved_not_star _ Hc). }
  rewrite Hstar.
  pose proof (forallb_impl _ _ _ bare_byte_not_colon Hall) as Hcolon.
  unfold URL.getScheme. rewrite (scan_without_colon 0 _ Hcolon).
  pose proof (forallb_impl _ _ _ bare_byte_not_question Hall) as Hq.
  rewrite (count_without _ _ Hq), andb_false_r, (cut_without _ _ Hq).
  cbv beta iota zeta. cbn [GoString.to_lower GoString.is_empty negb andb orb].
  assert (GoString.has_prefix "/" (String c u) = false) as Hslash.
  { cbn [GoString.has_prefix]. by rewrite (unreserved_not_slash _ Hc). }
  assert (GoString.has_prefix "//" (String c u) = false) as Hslash2.
  { cbn [GoString.has_prefix]. by rewrite (unreserved_not_slash _ Hc). }
  rewrite Hslash, Hslash2. cbn [negb andb orb]. cbv iota.
  rewrite (contains_without _ _ (without_before ":" "/" _ Hcolon)). cbv iota.
  rewrite andb_false_r. cbv iota.
  unfold URL.setPath.
  pose proof (forallb_impl _ _ _ bare_byte_kept Hall) as Hkept.
  rewrite (unescape_kept_path _ Hkept), (escape_kept _ _ Hkept), String.eqb_refl.
  cbn [URL.Scheme URL.Opaque URL.User URL.Host URL.Path URL.RawPath URL.OmitHost
       URL.ForceQuery URL.RawQuery URL.Fragment URL.RawFragment].
  change (GoString.is_empty "") with true. cbv iota.
  unfold URL.set_Scheme, URL.String_, URL.EscapedPath.
  cbn [URL.Scheme URL.Opaque URL.User URL.Host URL.Path URL.RawPath URL.OmitHost
       URL.ForceQuery URL.RawQuery URL.Fragment URL.RawFragment].
  change (GoString.is_empty "oci") with false.
  change (GoString.is_empty "") with true.
  cbn [GoString.is_empty negb andb orb]. cbv beta iota zeta.
  rewrite Hstar, (escape_kept _ _ Hkept).
  cbn [GoString.is_empty negb andb orb]. cbv beta iota zeta.
  rewrite !andb_false_r. cbv iota. by text.
Qed.

End Shapes.

(** * More theorems on the sample configuration *)


Lemma BuildDependencies_errors_witness :
  (step_error (Annotated (Unmarshaling ChartLockFilename) (YAMLError ChartLockFilename))
   \/ exists errs,
        Annotated (Unmarshaling ChartLockFilename) (YAMLError ChartLockFilename)
        = MultiError errs /\ errs <> [] /\ Forall gathered errs)
  /\ forall apiVersion,
       Annotated (Unmarshaling ChartLockFilename) (YAMLError ChartLockFilename)
       <> UnrecognisedAPIVersion apiVersion.
Proof.
  apply (BuildDependencies_errors sample_env sample_target_client
           sample_source sample_target sample_clients [] sample_ignoreTrusted
           (sample_state sample_broken_package) (sample_run sample_broken_package).1).
  vm_compute. reflexivity.
Defined.

Lemma fatal_error_comes_before_any_fetch_witness :
  fetches (trace (sample_run sample_broken_package).1)
  = fetches (trace (sample_state sample_broken_package)).
Proof.
  apply (fatal_error_comes_before_any_fetch sample_env sample_target_client
           sample_source sample_target sample_clients [] sample_ignoreTrusted
           (sample_state sample_broken_package) (sample_run sample_broken_package).1
           (Annotated (Unmarshaling ChartLockFilename) (YAMLError ChartLockFilename))).
  - vm_compute. reflexivity.
  - exact I.
Defined.


Lemma legacy_package_without_lock_is_left_alone_witness :
  exists h' evs,
    sample_run sample_legacy_package
    = (mkState (mkPackage (files sample_legacy_package) (Some ∅)) h' ([] ++ evs), Done tt)
    /\ fetches evs = []
    /\ forall file, IO (OpWriteFile file) ∉ evs.
Proof.
  apply (legacy_package_without_lock_is_left_alone sample_env sample_target_client
           sample_source sample_target sample_clients [] sample_ignoreTrusted
           (sample_state sample_legacy_package) sample_legacy_metadata).
  - vm_compute. reflexivity.
  - vm_compute. reflexivity.
  - discriminate.
  - reflexivity.
  - reflexivity.
  - reflexivity.
  - reflexivity.
  - reflexivity.
Defined.


Lemma written_digest_matches_the_written_files_witness :
  exists D L,
    files (package (sample_good_run sample_package).1) !! ChartFilename
    = Some (Document D)
    /\ files (package (sample_good_run sample_package).1) !! ChartLockFilename
       = Some (Document L)
    /\ doc_digest L = digest_of (doc_dependencies D) (doc_dependencies L).
Proof.
  apply (written_digest_matches_the_written_files sample_env sample_mirror_client
           sample_source sample_target sample_clients [] sample_ignoreTrusted
           (sample_state sample_package) (sample_good_run sample_package).1
           (sample_good_run sample_package).2).
  - vm_compute. reflexivity.
  - left. vm_compute. reflexivity.
  - vm_compute. reflexivity.
  - vm_compute. reflexivity.
  - vm_compute. discriminate.
Defined.

Lemma rewrite_step_decides_by_the_classifier_witness :
  exists x',
    entries (files (package (sample_good_run sample_package).1)) ChartLockFilename !! 2
    = Some x'
    /\ x' = printed (sample_dep "common" "2.2.4" sample_trusted_url).
Proof.
  apply (rewrite_step_decides_by_the_classifier sample_env sample_mirror_client
           sample_source sample_target sample_clients [] sample_ignoreTrusted
           (sample_state sample_package) (sample_good_run sample_package).1
           (sample_good_run sample_package).2 ChartLockFilename 2
           (sample_dep "common" "2.2.4" sample_trusted_url)).
  - vm_compute. reflexivity.
  - left. vm_compute. reflexivity.
  - right. vm_compute. reflexivity.
  - vm_compute. reflexivity.
Defined.


Lemma second_call_changes_no_file_witness :
  files (package (BuildDependencies sample_env sample_mirror_client sample_source
                    sample_target sample_clients [] sample_ignoreTrusted
                    (sample_good_run sample_package).1).1)
  = files (package (sample_good_run sample_package).1).
Proof.
  apply (second_call_changes_no_file sample_env sample_mirror_client
           sample_source sample_target sample_clients [] sample_ignoreTrusted
           (sample_state sample_package) (sample_good_run sample_package).1
           (sample_good_run sample_package).1
           (BuildDependencies sample_env sample_mirror_client sample_source
              sample_target sample_clients [] sample_ignoreTrusted
              (sample_good_run sample_package).1).1
           (sample_good_run sample_package).2
           (BuildDependencies sample_env sample_mirror_client sample_source
              sample_target sample_clients [] sample_ignoreTrusted
              (sample_good_run sample_package).1).2).
  - vm_compute. reflexivity.
  - left. vm_compute. reflexivity.
  - intros declFile _ Hdecl. vm_compute in Hdecl. injection Hdecl as <-.
    vm_compute. discriminate.
  - reflexivity.
  - vm_compute. reflexivity.
  - left. vm_compute. reflexivity.
Defined.

Lemma GetChartLock_reads_the_lock_file_witness :
  package (GetChartLock sample_env (sample_state sample_half_broken_package)).1
  = package (sample_state sample_half_broken_package)
  /\ exists lock,
       (GetChartLock sample_env (sample_state sample_half_broken_package)).2
       = Done (Some lock)
       /\ Generated lock = doc_generated sample_lock
       /\ Digest lock = doc_digest sample_lock
       /\ slice_values
            (heap (GetChartLock sample_env (sample_state sample_half_broken_package)).1)
            (LockDependencies lock)
          = Some (doc_dependencies sample_lock).
Proof.
  apply (GetChartLock_reads_the_lock_file sample_env
           (sample_state sample_half_broken_package)); reflexivity.
Defined.


Lemma materializer_fetches_the_listed_dependencies_witness :
  exists evs,
    trace (sample_good_run sample_package).1 = trace (sample_state sample_package) ++ evs
    /\ map (fun x : Origin * string * string => (x.1.2, x.2)) (fetches evs)
       = map name_version (elems sample_locked).
Proof.
  apply (materializer_fetches_the_listed_dependencies sample_env sample_mirror_client
           sample_source sample_target sample_clients [] sample_ignoreTrusted
           (sample_state sample_package) (sample_good_run sample_package).1
           (sample_state sample_package)
           (GetChartDependencies sample_env (sample_state sample_package)).1
           (sample_good_run sample_package).2
           (Some [0; 1; 2])).
  - vm_compute. reflexivity.
  - left. vm_compute. reflexivity.
  - left. vm_compute. discriminate.
  - reflexivity.
  - vm_compute. reflexivity.
  - vm_compute. reflexivity.
Defined.

Lemma hashDeps_digest_format_witness :
  exists h,
    digest_of (Some [sample_untagged]) None = String.append "sha256:" h
    /\ String.length h = 64
    /\ GoString.forallb lower_hex h = true.
Proof.
  apply (hashDeps_digest_format (Some [0]) None sample_store sample_store).
  vm_compute. reflexivity.
Defined.

Lemma refused_lock_write_leaves_the_declarations_rewritten_witness :
  exists st' D,
    BuildDependencies sample_refusing_env sample_mirror_client sample_source
      sample_target sample_clients [] sample_ignoreTrusted (sample_state sample_package)
    = (st', Failed (IOError (OpWriteFile ChartLockFilename)))
    /\ files (package st')
       = <[ChartFilename := Document D]> (files (package (sample_state sample_package)))
    /\ elems (doc_dependencies D)
       = map printed [sample_dep "redis" "17.x.x" sample_target_url;
                      sample_dep "etcd" "1.x.x" sample_target_url;
                      sample_dep "common" "2.x.x" sample_trusted_url]
    /\ charts (package st') = Some ∅
    /\ fetches (trace st') = fetches (trace (sample_state sample_package)).
Proof.
  apply (refused_lock_write_leaves_the_declarations_rewritten sample_refusing_env
           sample_mirror_client sample_source sample_target sample_clients []
           sample_ignoreTrusted (sample_state sample_package)
           ChartLockFilename ChartFilename sample_metadata sample_lock
           [sample_dep "redis" "17.x.x" sample_target_url;
            sample_dep "etcd" "1.x.x" sample_target_url;
            sample_dep "common" "2.x.x" sample_trusted_url]
           [sample_dep "redis" "17.0.0" sample_target_url;
            sample_dep "etcd" "1.2.3" sample_target_url;
            sample_dep "common" "2.2.4" sample_trusted_url]);
    vm_compute; reflexivity.
Defined.

Section ShapeSamples.
Open Scope string_scope.

Lemma getDependencyRepoURL_is_idempotent_witness :
  exists repoUrl,
    getDependencyRepoURL sample_oci_target = Ok repoUrl
    /\ getDependencyRepoURL (Some (mkRepo repoUrl Kind_OCI)) = Ok repoUrl.
Proof.
  refine (getDependencyRepoURL_is_idempotent
            "https" "registry.example" ":5000" "/project/charts" _ _ _ _);
    reflexivity.
Defined.

Lemma getDependencyRepoURL_drops_a_host_read_as_scheme_witness :
  getDependencyRepoURL (Some (mkRepo "localhost:5000/charts" Kind_OCI))
  = Ok "oci:5000/charts".
Proof.
  refine (getDependencyRepoURL_drops_a_host_read_as_scheme "localhost" "5000/charts" _ _);
    reflexivity.
Defined.

Lemma getDependencyRepoURL_of_a_bare_location_witness :
  getDependencyRepoURL (Some (mkRepo "registry.example/project/charts" Kind_OCI))
  = Ok "oci://registry.example/project/charts".
Proof.
  refine (getDependencyRepoURL_of_a_bare_location "registry.example/project/charts" _).
  reflexivity.
Defined.

End ShapeSamples.
